(** * Code-refactoring pipeline: session counters, fix synthesis, patch engine

    A shallow embedding of the parts of the repository that decide the
    behaviour of

    - [src/diff/diff_generator.py]   (class [DiffGenerator]),
    - [src/git/git_manager.py]       (class [GitManager], manual patch path),
    - [src/agents/worker_agent.py]   (class [WorkerAgent]),
    - [src/agents/master_orchestrator.py] (class [MasterOrchestrator]),
    - [src/analysis/code_parser.py]  (the line counts of [parse_file]).

    Python values of type [Any] are a small universe [pyval]; a [dict] is a
    [gmap string pyval]; a Python [try/except Exception] is an [option] or a
    sum whose failure branch is the handler of the source.  Python [str] is
    modelled by [string] (8-bit characters); the character classes used by
    [strip], [split], [lower] and [splitlines] are the ASCII ones. *)

From Stdlib Require Import ZArith String Ascii List Bool Lia Sorted Permutation.
From Stdlib Require Import Floats.PrimFloat.
From stdpp Require Import gmap strings list.

Open Scope string_scope.

(** ** Python string operations *)

Module PyStr.

(** [c.isspace()] for an ASCII character: TAB, LF, VT, FF, CR, FS, GS, RS,
    US and SPACE. *)
Definition is_space (c : ascii) : bool :=
  let n := nat_of_ascii c in
  (((9 <=? n) && (n <=? 13)) || ((28 <=? n) && (n <=? 32)))%nat.

Definition is_upper (c : ascii) : bool :=
  let n := nat_of_ascii c in ((65 <=? n) && (n <=? 90))%nat.

Definition is_lower (c : ascii) : bool :=
  let n := nat_of_ascii c in ((97 <=? n) && (n <=? 122))%nat.

Definition is_digit (c : ascii) : bool :=
  let n := nat_of_ascii c in ((48 <=? n) && (n <=? 57))%nat.

Definition lower_char (c : ascii) : ascii :=
  if is_upper c then ascii_of_nat (nat_of_ascii c + 32) else c.

(** [s.lower()] *)
Fixpoint lower (s : string) : string :=
  match s with
  | EmptyString => EmptyString
  | String c s' => String (lower_char c) (lower s')
  end.

(** [s.lstrip()] *)
Fixpoint lstrip (s : string) : string :=
  match s with
  | EmptyString => EmptyString
  | String c s' => if is_space c then lstrip s' else s
  end.

(** [s.rstrip()] *)
Fixpoint rstrip (s : string) : string :=
  match s with
  | EmptyString => EmptyString
  | String c s' =>
      match rstrip s' with
      | EmptyString => if is_space c then EmptyString else String c EmptyString
      | r => String c r
      end
  end.

(** [s.strip()] *)
Definition strip (s : string) : string := rstrip (lstrip s).

(** [s.startswith(p)] *)
Definition startswith (p s : string) : bool := String.prefix p s.

(** [s[n:]] for a non-negative [n] *)
Fixpoint drop (n : nat) (s : string) : string :=
  match n, s with
  | O, _ => s
  | S _, EmptyString => EmptyString
  | S n', String _ s' => drop n' s'
  end.

(** [s[:n]] for a non-negative [n] *)
Fixpoint take (n : nat) (s : string) : string :=
  match n, s with
  | O, _ => EmptyString
  | S _, EmptyString => EmptyString
  | S n', String c s' => String c (take n' s')
  end.

(** [s[i:j]] for non-negative [i], [j] *)
Definition slice (i j : nat) (s : string) : string := take (j - i)%nat (drop i s).

(** [sub in s] *)
Fixpoint contains (sub s : string) : bool :=
  String.prefix sub s ||
  match s with
  | EmptyString => false
  | String _ s' => contains sub s'
  end.

(** [s.find(c)] for a one-character [c]: [None] stands for [-1]. *)
Fixpoint find_char (c : ascii) (s : string) : option nat :=
  match s with
  | EmptyString => None
  | String a s' =>
      if Ascii.eqb a c then Some 0
      else match find_char c s' with Some i => Some (S i) | None => None end
  end.

(** [s.rfind(c)] for a one-character [c]: [None] stands for [-1]. *)
Fixpoint rfind_char (c : ascii) (s : string) : option nat :=
  match s with
  | EmptyString => None
  | String a s' =>
      match rfind_char c s' with
      | Some i => Some (S i)
      | None => if Ascii.eqb a c then Some 0 else None
      end
  end.

(** [s.split(c)] for a one-character separator: never the empty list. *)
Fixpoint split_char (c : ascii) (s : string) : list string :=
  match s with
  | EmptyString => [EmptyString]
  | String a s' =>
      if Ascii.eqb a c then EmptyString :: split_char c s'
      else match split_char c s' with
           | h :: t => String a h :: t
           | [] => [String a EmptyString]
           end
  end.

(** [sep.join(l)] *)
Fixpoint join (sep : string) (l : list string) : string :=
  match l with
  | [] => EmptyString
  | [x] => x
  | x :: rest => x ++ sep ++ join sep rest
  end.

(** [s.split(sep)] for a non-empty separator [sep]; [fuel] bounds the number
    of characters scanned ([String.length s] is always enough). *)
Fixpoint split_on_fuel (fuel : nat) (sep : string) (cur : string) (s : string)
  : list string :=
  match fuel with
  | O => [cur ++ s]
  | S fuel' =>
      match s with
      | EmptyString => [cur]
      | String a s' =>
          if String.prefix sep s
          then cur :: split_on_fuel fuel' sep EmptyString (drop (String.length sep) s)
          else split_on_fuel fuel' sep (cur ++ String a EmptyString) s'
      end
  end.

Definition split_on (sep s : string) : list string :=
  split_on_fuel (S (String.length s)) sep EmptyString s.

(** [s.split()]: split on runs of whitespace, dropping empty fields. *)
Fixpoint split_ws_aux (cur : string) (s : string) : list string :=
  match s with
  | EmptyString => match cur with EmptyString => [] | _ => [cur] end
  | String a s' =>
      if is_space a
      then match cur with
           | EmptyString => split_ws_aux EmptyString s'
           | _ => cur :: split_ws_aux EmptyString s'
           end
      else split_ws_aux (cur ++ String a EmptyString) s'
  end.

Definition split_ws (s : string) : list string := split_ws_aux EmptyString s.

(** [s.replace(old, new)] for a non-empty [old]. *)
Fixpoint replace_fuel (fuel : nat) (old new s : string) : string :=
  match fuel with
  | O => s
  | S fuel' =>
      match s with
      | EmptyString => EmptyString
      | String a s' =>
          if String.prefix old s
          then new ++ replace_fuel fuel' old new (drop (String.length old) s)
          else String a (replace_fuel fuel' old new s')
      end
  end.

Definition replace (old new s : string) : string :=
  match old with
  | EmptyString => s
  | _ => replace_fuel (String.length s) old new s
  end.

(** [s * n] *)
Fixpoint repeat_str (s : string) (n : nat) : string :=
  match n with
  | O => EmptyString
  | S n' => s ++ repeat_str s n'
  end.

(** [s.expandtabs(tabsize)]: the column restarts after LF and CR. *)
Fixpoint expandtabs_aux (tabsize col : nat) (s : string) : string :=
  match s with
  | EmptyString => EmptyString
  | String a s' =>
      if Ascii.eqb a "009" then
        let pad := match tabsize with
                   | O => 0
                   | _ => tabsize - Nat.modulo col tabsize
                   end in
        repeat_str " " pad ++ expandtabs_aux tabsize (col + pad) s'
      else if Ascii.eqb a "010" || Ascii.eqb a "013" then
        String a (expandtabs_aux tabsize 0 s')
      else String a (expandtabs_aux tabsize (S col) s')
  end.

Definition expandtabs (tabsize : nat) (s : string) : string :=
  expandtabs_aux tabsize 0 s.

(** [str(n)] for a natural number *)
Fixpoint digits_fuel (fuel n : nat) (acc : string) : string :=
  match fuel with
  | O => acc
  | S fuel' =>
      let d := String (ascii_of_nat (48 + Nat.modulo n 10)) acc in
      if (n <? 10)%nat then d else digits_fuel fuel' (Nat.div n 10) d
  end.

Definition str_of_nat (n : nat) : string := digits_fuel (S n) n EmptyString.

(** The line terminator of Python strings in the modelled sources. *)
Definition LF : ascii := "010".
Definition nl : string := String LF EmptyString.

(** The scan of [s.splitlines(keepends=True)]: a line ends at LF, CR, CR LF, VT, FF, FS,
    GS or RS; the terminator stays on the line, and text after the last
    terminator is a last line of its own. *)
Definition is_linebreak (c : ascii) : bool :=
  let n := nat_of_ascii c in
  (((10 <=? n) && (n <=? 13)) || ((28 <=? n) && (n <=? 30)))%nat.

Fixpoint splitlines_keepends_aux (cur : string) (s : string) : list string :=
  match s with
  | EmptyString => match cur with EmptyString => [] | _ => [cur] end
  | String a s' =>
      if Ascii.eqb a "013" then
        match s' with
        | String b s'' =>
            if Ascii.eqb b "010"
            then (cur ++ String a (String b EmptyString))
                   :: splitlines_keepends_aux EmptyString s''
            else (cur ++ String a EmptyString) :: splitlines_keepends_aux EmptyString s'
        | EmptyString => [cur ++ String a EmptyString]
        end
      else if is_linebreak a
      then (cur ++ String a EmptyString) :: splitlines_keepends_aux EmptyString s'
      else splitlines_keepends_aux (cur ++ String a EmptyString) s'
  end.

End PyStr.

(** ** Python values *)

(** A value of type [Any]: what [json.loads] can return, which is also what
    a violation dictionary holds.  A [dict] with string keys is a finite
    map. *)
Inductive pyval : Type :=
| PNone
| PBool (b : bool)
| PInt (z : Z)
| PFloat (f : float)
| PStr (s : string)
| PList (l : list pyval)
| PDict (d : gmap string pyval).

(** [d.get(key, default)] *)
Definition dict_get (d : gmap string pyval) (key : string) (default : pyval) : pyval :=
  match d !! key with
  | Some v => v
  | None => default
  end.

(** A computation that can raise: [Raise] is any Python [Exception]. *)
Inductive result (A : Type) : Type :=
| Ok (a : A)
| Raise.
Arguments Ok {A} a.
Arguments Raise {A}.

Definition bind {A B : Type} (m : result A) (k : A -> result B) : result B :=
  match m with
  | Ok a => k a
  | Raise => Raise
  end.

Notation "'let*' x ':=' m 'in' k" := (bind m (fun x => k))
  (at level 10, x name, m at level 100, k at level 200).

(** [try: body  except Exception: return handler] *)
Definition try_except {A : Type} (body : result A) (handler : A) : A :=
  match body with
  | Ok a => a
  | Raise => handler
  end.

(** [v.get] on a value that is expected to be a dict: any other value has
    no attribute [get] ([AttributeError]). *)
Definition as_dict (v : pyval) : result (gmap string pyval) :=
  match v with
  | PDict d => Ok d
  | _ => Raise
  end.

(** [v.strip()]: only a [str] has the method ([AttributeError] otherwise,
    also for [None]). *)
Definition py_strip (v : pyval) : result string :=
  match v with
  | PStr s => Ok (PyStr.strip s)
  | _ => Raise
  end.

(** ** Python's [re] module

    The regular-expression engine is a library of the host language.  The
    sources call [re.sub] and [re.findall] with literal patterns, kept here
    verbatim; the engine is an interface. *)
Class PyRe : Type := {
  re_sub : string -> string -> string -> string;       (* re.sub(pattern, repl, s) *)
  re_findall : string -> string -> list string         (* re.findall(pattern, s), no groups *)
}.

(** ** Python's [difflib]

    [difflib.unified_diff] is translated from the library; the sequence
    matcher it drives is an interface: [get_grouped_opcodes a b n] stands for
    [SequenceMatcher(None, a, b).get_grouped_opcodes(n)]. *)

Module Difflib.

Inductive tag : Type := Equal | Replace | Delete | Insert.

(** An opcode [(tag, i1, i2, j1, j2)]: [a[i1:i2]] becomes [b[j1:j2]]. *)
Record opcode : Type := Op {
  op_tag : tag;
  op_i1 : nat;
  op_i2 : nat;
  op_j1 : nat;
  op_j2 : nat
}.

Class SequenceMatcher : Type := {
  get_grouped_opcodes : list string -> list string -> nat -> list (list opcode)
}.

(** [_format_range_unified(start, stop)] *)
Definition format_range_unified (start stop : nat) : string :=
  let beginning := (start + 1)%nat in
  let length := (stop - start)%nat in
  if (length =? 1)%nat then PyStr.str_of_nat beginning
  else
    let beginning := if (length =? 0)%nat then (beginning - 1)%nat else beginning in
    PyStr.str_of_nat beginning ++ "," ++ PyStr.str_of_nat length.

(** [l[i:j]] *)
Definition slice {A : Type} (i j : nat) (l : list A) : list A :=
  take (j - i)%nat (drop i l).

(** The lines one opcode yields. *)
Definition opcode_lines (a b : list string) (o : opcode) : list string :=
  match op_tag o with
  | Equal => map (fun line => " " ++ line) (slice (op_i1 o) (op_i2 o) a)
  | Replace =>
      map (fun line => "-" ++ line) (slice (op_i1 o) (op_i2 o) a)
      ++ map (fun line => "+" ++ line) (slice (op_j1 o) (op_j2 o) b)
  | Delete => map (fun line => "-" ++ line) (slice (op_i1 o) (op_i2 o) a)
  | Insert => map (fun line => "+" ++ line) (slice (op_j1 o) (op_j2 o) b)
  end.

(** The hunk one group yields: the [@@] header, then the lines. *)
Definition group_lines (a b : list string) (lineterm : string) (group : list opcode)
  : list string :=
  let first := hd (Op Equal 0 0 0 0) group in
  let last := List.last group (Op Equal 0 0 0 0) in
  let file1_range := format_range_unified (op_i1 first) (op_i2 last) in
  let file2_range := format_range_unified (op_j1 first) (op_j2 last) in
  ("@@ -" ++ file1_range ++ " +" ++ file2_range ++ " @@" ++ lineterm)
    :: concat (map (opcode_lines a b) group).

(** [unified_diff(a, b, fromfile, tofile, lineterm=lineterm)] with the
    default [n=3] and no file dates, over the groups of the matcher: the two
    file headers come before the first group only. *)
Definition unified_diff_of_groups (a b : list string) (fromfile tofile lineterm : string)
    (groups : list (list opcode)) : list string :=
  match groups with
  | [] => []
  | _ =>
      ("--- " ++ fromfile ++ lineterm)
        :: ("+++ " ++ tofile ++ lineterm)
        :: concat (map (group_lines a b lineterm) groups)
  end.

Definition unified_diff {matcher : SequenceMatcher} (a b : list string)
    (fromfile tofile lineterm : string) : list string :=
  unified_diff_of_groups a b fromfile tofile lineterm (get_grouped_opcodes a b 3).

End Difflib.

(** ** [src/diff/diff_generator.py] *)

Module DiffGenerator.

(** [@dataclass CodeFix].  The fields copied from the violation dictionary
    keep the value they had there. *)
Record CodeFix : Type := {
  file_path : string;
  line_number : Z;
  column_number : pyval;
  original_code : string;
  fixed_code : string;
  violation_description : pyval;
  rule_id : pyval;
  confidence_score : pyval
}.

Section Heuristics.
Context {RE : PyRe}.

(** [_fix_indentation] *)
Definition _fix_indentation (line : string) : string :=
  let line := PyStr.expandtabs 4 line in
  let stripped := PyStr.lstrip line in
  match stripped with
  | EmptyString => line
  | _ =>
      let indent_level := Nat.div (String.length line - String.length stripped) 4 in
      PyStr.repeat_str "    " indent_level ++ stripped
  end.

(** [_fix_spacing] *)
Definition _fix_spacing (line : string) : string :=
  let line := re_sub "([=+\-*/%<>!]=?)\s*" "\1 " line in
  let line := re_sub "\s*([=+\-*/%<>!]=?)" " \1" line in
  let line := re_sub ",(\S)" ", \1" line in
  let line := re_sub "\(\s+" "(" line in
  let line := re_sub "\s+\)" ")" line in
  PyStr.rstrip line.

(** [_fix_imports] *)
Definition _fix_imports (line : string) : string :=
  if PyStr.startswith "import " (PyStr.strip line)
     || PyStr.startswith "from " (PyStr.strip line)
  then PyStr.strip line
  else line.

(** The inner loop of [_fix_line_length]: the first [i] in
    [range(1, len(parts))] whose [first_part] is short enough. *)
Fixpoint break_at (break_point : string) (parts : list string) (max_length : nat)
    (candidates : list nat) : option string :=
  match candidates with
  | [] => None
  | i :: rest =>
      let first_part := PyStr.join break_point (take i parts) in
      if (String.length first_part <? max_length)%nat then
        let indent := "    " in
        let remaining := PyStr.join break_point (drop i parts) in
        Some (first_part ++ PyStr.rstrip break_point ++ PyStr.nl ++ indent ++ remaining)
      else break_at break_point parts max_length rest
  end.

(** The outer loop of [_fix_line_length] over the break points. *)
Fixpoint break_line (stripped : string) (max_length : nat) (break_points : list string)
  : option string :=
  match break_points with
  | [] => None
  | break_point :: rest =>
      let here :=
        if PyStr.contains break_point stripped then
          let parts := PyStr.split_on break_point stripped in
          if (1 <? length parts)%nat
          then break_at break_point parts max_length (seq 1 (length parts - 1))
          else None
        else None in
      match here with
      | Some fixed => Some fixed
      | None => break_line stripped max_length rest
      end
  end.

(** [_fix_line_length(line)] with the default [max_length=88] *)
Definition _fix_line_length (line : string) : string :=
  let max_length := 88%nat in
  if (String.length line <=? max_length)%nat then line
  else
    let stripped := PyStr.strip line in
    match break_line stripped max_length [", "; " and "; " or "; " + "; " - "] with
    | Some fixed => fixed
    | None => line
    end.

(** [camel_to_snake], local to [_fix_naming_convention] *)
Definition camel_to_snake (name : string) : string :=
  let s1 := re_sub "(.)([A-Z][a-z]+)" "\1_\2" name in
  PyStr.lower (re_sub "([a-z0-9])([A-Z])" "\1_\2" s1).

(** [_fix_naming_convention] *)
Definition _fix_naming_convention (line problematic_code : string) : string :=
  let words := re_findall "\b[a-z][a-zA-Z0-9]*[A-Z][a-zA-Z0-9]*\b" line in
  fold_left (fun line word => PyStr.replace word (camel_to_snake word) line) words line.

(** [_generate_auto_fix].  [violation_description] comes straight from the
    violation dictionary: [.lower()] raises on anything but a [str], and the
    handler of the source returns the original line. *)
Definition _generate_auto_fix (original_line problematic_code : string)
    (violation_description : pyval) : string :=
  match violation_description with
  | PStr description =>
      if PyStr.contains "indentation" (PyStr.lower description)
      then _fix_indentation original_line
      else if PyStr.contains "space" (PyStr.lower description)
      then _fix_spacing original_line
      else if PyStr.contains "import" (PyStr.lower description)
      then _fix_imports original_line
      else if PyStr.contains "line too long" (PyStr.lower description)
      then _fix_line_length original_line
      else if PyStr.contains "naming" (PyStr.lower description)
              || PyStr.contains "convention" (PyStr.lower description)
      then _fix_naming_convention original_line problematic_code
      else PyStr.rstrip original_line ++ PyStr.nl
  | _ => original_line
  end.

(** [v is None] *)
Definition is_none (v : pyval) : bool :=
  match v with
  | PNone => true
  | _ => false
  end.

(** The value of an [int]; a [bool] is the integer it denotes. *)
Definition int_value (v : pyval) : option Z :=
  match v with
  | PInt z => Some z
  | PBool b => Some (Z.b2z b)
  | _ => None
  end.

(** The body of [_create_fix_from_violation], inside its [try].  A
    [line_number] that is a [float] either fails the range test (the source
    returns [None]) or raises [TypeError] as a list index, and a value that
    is no number raises at [<]: all of these leave
    [_create_fix_from_violation] with [None], and are [Raise] here. *)
Definition create_fix_body (violation : pyval) (lines : list string) (path : string)
  : result (option CodeFix) :=
  let* d := as_dict violation in
  let line_number := dict_get d "line_number" PNone in
  if is_none line_number then Ok None
  else
  match int_value line_number with
  | None => Raise
  | Some n =>
      if (n <? 1)%Z || (n >? Z.of_nat (length lines))%Z then Ok None
      else
        match lines !! Z.to_nat (n - 1) with
        | None => Raise
        | Some original_line =>
            let* suggested_fix := py_strip (dict_get d "suggested_fix" (PStr "")) in
            let* suggested_fix :=
              match suggested_fix with
              | EmptyString =>
                  let* problematic_code :=
                    py_strip (dict_get d "problematic_code" (PStr "")) in
                  match problematic_code with
                  | EmptyString => Ok suggested_fix
                  | _ =>
                      Ok (_generate_auto_fix original_line problematic_code
                            (dict_get d "violation_description" (PStr "")))
                  end
              | _ => Ok suggested_fix
              end in
            match suggested_fix with
            | EmptyString => Ok None
            | _ =>
                Ok (Some {| file_path := path;
                            line_number := n;
                            column_number := dict_get d "column_number" PNone;
                            original_code := original_line;
                            fixed_code := suggested_fix;
                            violation_description :=
                              dict_get d "violation_description" (PStr "");
                            rule_id := dict_get d "rule_id" (PStr "unknown");
                            confidence_score :=
                              dict_get d "confidence_score" (PFloat 0%float) |})
            end
        end
  end.

(** [_create_fix_from_violation]: [except Exception: return None] *)
Definition _create_fix_from_violation (violation : pyval) (lines : list string)
    (path : string) : option CodeFix :=
  try_except (create_fix_body violation lines path) None.

(** [fixes.sort(key=lambda x: x.line_number, reverse=True)].  Python's sort
    is stable, also with [reverse=True]: fixes with equal line numbers keep
    their order.  A stable sort is determined by the key order, so it is
    given as an insertion sort: the head goes before the first fix whose
    line number is not greater. *)
Fixpoint insert_desc (x : CodeFix) (l : list CodeFix) : list CodeFix :=
  match l with
  | [] => [x]
  | y :: l' =>
      if (line_number y <=? line_number x)%Z then x :: y :: l'
      else y :: insert_desc x l'
  end.

Fixpoint sort_desc (l : list CodeFix) : list CodeFix :=
  match l with
  | [] => []
  | x :: l' => insert_desc x (sort_desc l')
  end.

(** [_parse_violations_to_fixes] *)
Definition _parse_violations_to_fixes (path : string) (violations : list pyval)
    (file_content : string) : list CodeFix :=
  let lines := PyStr.split_char PyStr.LF file_content in
  let fixes := omap (fun violation => _create_fix_from_violation violation lines path)
                    violations in
  sort_desc fixes.

End Heuristics.

(** The loop of [_apply_fixes] over the list [lines]. *)
Definition apply_fix (lines : list string) (fx : CodeFix) : list string :=
  if (1 <=? line_number fx)%Z && (line_number fx <=? Z.of_nat (length lines))%Z
  then <[Z.to_nat (line_number fx - 1) := PyStr.rstrip (fixed_code fx)]> lines
  else lines.

Definition apply_fixes_lines (lines : list string) (fixes : list CodeFix) : list string :=
  fold_left apply_fix fixes lines.

(** [_apply_fixes] *)
Definition _apply_fixes (original_content : string) (fixes : list CodeFix) : string :=
  let lines := PyStr.split_char PyStr.LF original_content in
  PyStr.join PyStr.nl (apply_fixes_lines lines fixes).

(** [_generate_unified_diff] *)
Definition _generate_unified_diff {matcher : Difflib.SequenceMatcher} (path : string)
    (original_content modified_content : string) : string :=
  let original_lines := PyStr.splitlines_keepends_aux "" original_content in
  let modified_lines := PyStr.splitlines_keepends_aux "" modified_content in
  let diff := Difflib.unified_diff original_lines modified_lines
                ("a/" ++ path) ("b/" ++ path) "" in
  PyStr.join "" diff.

End DiffGenerator.

(** ** [src/git/git_manager.py]: the manual patch path *)

Module GitManager.

(** A hunk dictionary [{'type': 'hunk', 'old_range', 'new_range', 'lines'}] *)
Record Hunk : Type := {
  old_range : string;
  new_range : string;
  hunk_lines : list string
}.

(** [changes[key] = value] on a dictionary kept in insertion order *)
Fixpoint dict_set {V : Type} (key : string) (value : V) (d : list (string * V))
  : list (string * V) :=
  match d with
  | [] => [(key, value)]
  | (k, v) :: rest =>
      if String.eqb k key then (key, value) :: rest
      else (k, v) :: dict_set key value rest
  end.

(** The variables of [_parse_diff_content] *)
Record parse_state : Type := {
  changes : list (string * list Hunk);
  current_file : option string;
  current_changes : list Hunk
}.

(** [current_file and current_changes] *)
Definition file_and_changes (st : parse_state) : option string :=
  match current_file st, current_changes st with
  | Some EmptyString, _ => None
  | Some f, _ :: _ => Some f
  | _, _ => None
  end.

(** [if current_file and current_changes: changes[current_file] = current_changes],
    with [current_changes = []] in the header branch only. *)
Definition save_changes (reset : bool) (st : parse_state) : parse_state :=
  match file_and_changes st with
  | Some f =>
      {| changes := dict_set f (current_changes st) (changes st);
         current_file := current_file st;
         current_changes := if reset then [] else current_changes st |}
  | None => st
  end.

(** [current_changes[-1]['lines'].append(line)] *)
Fixpoint append_to_last (line : string) (hunks : list Hunk) : list Hunk :=
  match hunks with
  | [] => []
  | [h] => [{| old_range := old_range h; new_range := new_range h;
               hunk_lines := hunk_lines h ++ [line] |}]
  | h :: rest => h :: append_to_last line rest
  end.

(** One turn of the loop of [_parse_diff_content] *)
Definition parse_line (st : parse_state) (line : string) : parse_state :=
  if PyStr.startswith "--- " line then
    let st := save_changes true st in
    let f := PyStr.strip (PyStr.drop 4 line) in
    let f := if PyStr.startswith "a/" f then PyStr.drop 2 f else f in
    {| changes := changes st; current_file := Some f;
       current_changes := current_changes st |}
  else if PyStr.startswith "+++ " line then
    let file_path := PyStr.strip (PyStr.drop 4 line) in
    if PyStr.startswith "b/" file_path
    then {| changes := changes st; current_file := Some (PyStr.drop 2 file_path);
            current_changes := current_changes st |}
    else st
  else if PyStr.startswith "@@" line then
    let hunk_info := PyStr.strip (nth 1 (PyStr.split_on "@@" line) "") in
    let parts := PyStr.split_ws hunk_info in
    match parts with
    | p0 :: p1 :: _ =>
        {| changes := changes st; current_file := current_file st;
           current_changes :=
             current_changes st
               ++ [{| old_range := PyStr.drop 1 p0; new_range := PyStr.drop 1 p1;
                      hunk_lines := [] |}] |}
    | _ => st
    end
  else
    match current_changes st with
    | _ :: _ =>
        if PyStr.startswith "+" line || PyStr.startswith "-" line
           || PyStr.startswith " " line
        then {| changes := changes st; current_file := current_file st;
                current_changes := append_to_last line (current_changes st) |}
        else st
    | [] => st
    end.

(** [_parse_diff_content] *)
Definition _parse_diff_content (diff_content : string) : list (string * list Hunk) :=
  let lines := PyStr.split_char PyStr.LF diff_content in
  let st := fold_left parse_line lines
              {| changes := []; current_file := None; current_changes := [] |} in
  changes (save_changes false st).

(** The first loop of [_apply_hunk]: the hunk's lines by their first
    character, without it. *)
Definition with_prefix (p : string) (hunk_lines : list string) : list string :=
  omap (fun line => if PyStr.startswith p line then Some (PyStr.drop 1 line) else None)
       hunk_lines.

(** [any(line.strip() == del_line.strip() for del_line in deletions)] *)
Definition matches_deletion (line : string) (deletions : list string) : bool :=
  existsb (fun del_line => String.eqb (PyStr.strip line) (PyStr.strip del_line)) deletions.

(** The second loop of [_apply_hunk]: [additions] is emptied at the first
    matching line. *)
Fixpoint replace_lines (lines additions deletions : list string) : list string :=
  match lines with
  | [] => []
  | line :: rest =>
      if matches_deletion line deletions
      then additions ++ replace_lines rest [] deletions
      else line :: replace_lines rest additions deletions
  end.

(** [_apply_hunk] *)
Definition _apply_hunk (lines : list string) (hunk : Hunk) : list string :=
  let additions := with_prefix "+" (hunk_lines hunk) in
  let deletions := with_prefix "-" (hunk_lines hunk) in
  replace_lines lines additions deletions.

(** Reading in text mode with the default [newline=None]: CR LF and a lone
    CR become LF before the text is split into lines.  Writing translates LF
    into [os.linesep], which is LF itself here. *)
Fixpoint universal_newlines (s : string) : string :=
  match s with
  | EmptyString => EmptyString
  | String a s' =>
      if Ascii.eqb a "013"
      then
        match s' with
        | String b s'' =>
            if Ascii.eqb b PyStr.LF
            then String PyStr.LF (universal_newlines s'')
            else String PyStr.LF (universal_newlines s')
        | EmptyString => String PyStr.LF EmptyString
        end
      else String a (universal_newlines s')
  end.

(** [f.readlines()] on the translated text: the lines, each with its LF. *)
Fixpoint readlines_aux (cur : string) (s : string) : list string :=
  match s with
  | EmptyString => match cur with EmptyString => [] | _ => [cur] end
  | String a s' =>
      if Ascii.eqb a PyStr.LF
      then (cur ++ PyStr.nl) :: readlines_aux EmptyString s'
      else readlines_aux (cur ++ String a EmptyString) s'
  end.

Definition readlines (s : string) : list string := readlines_aux EmptyString s.

(** What the file system answers for a path of the working tree that exists.
    [readable path] tells whether [open(full_path, 'r', encoding='utf-8')]
    and [f.readlines()] return: the path is a regular file, may be read, and
    holds UTF-8.  [writable path] tells whether
    [open(full_path, 'w', encoding='utf-8')] and [f.writelines(lines)]
    return.  Where they do not, an exception is raised, and the handler of
    [_apply_file_changes] turns it into [False]. *)
Class FileAccess : Type := {
  readable : string -> bool;
  writable : string -> bool
}.

Section Files.

Context {access : FileAccess}.

(** [_apply_file_changes] over the working tree, a map from the path below
    [repo.working_dir] to the text of the file: the result and the tree
    afterwards.  Every dictionary of [changes] has type ['hunk'].  [False]
    is returned for a missing file, and by [except Exception] when the file
    cannot be read or cannot be written; the file is left as it was then. *)
Definition _apply_file_changes (tree : gmap string string) (path : string)
    (file_changes : list Hunk) : bool * gmap string string :=
  match tree !! path with
  | None => (false, tree)
  | Some text =>
      if negb (readable path) then (false, tree)
      else
        let lines := fold_left _apply_hunk file_changes
                       (readlines (universal_newlines text)) in
        if negb (writable path) then (false, tree)
        else (true, <[path := PyStr.join "" lines]> tree)
  end.

(** The loop of [_apply_diff_manually] over [changes.items()] *)
Fixpoint apply_all (tree : gmap string string) (items : list (string * list Hunk))
  : bool * gmap string string :=
  match items with
  | [] => (true, tree)
  | (path, file_changes) :: rest =>
      match _apply_file_changes tree path file_changes with
      | (true, tree') => apply_all tree' rest
      | (false, tree') => (false, tree')
      end
  end.

(** [_apply_diff_manually] *)
Definition _apply_diff_manually (tree : gmap string string) (diff_content : string)
  : bool * gmap string string :=
  apply_all tree (_parse_diff_content diff_content).

(** [apply_diff_file].  [repo] tells whether the repository is initialized;
    [files] holds, for the path of every diff file that exists and can be
    read, the text that [f.read()] returns; [git_apply tree diff_content]
    stands for [self.repo.git.apply('--whitespace=fix', '--', diff_file_path)]
    on the working tree: the tree afterwards, or [None] for
    [GitCommandError]. *)
Definition apply_diff_file (repo : bool)
    (git_apply : gmap string string -> string -> option (gmap string string))
    (files tree : gmap string string) (diff_file_path : string)
  : bool * gmap string string :=
  if negb repo then (false, tree)
  else
    match files !! diff_file_path with
    | None => (false, tree)
    | Some diff_content =>
        match git_apply tree diff_content with
        | Some tree => (true, tree)
        | None => _apply_diff_manually tree diff_content
        end
    end.

End Files.

End GitManager.

(** ** [src/agents/worker_agent.py] *)

(** Python's [json.loads]: a library of the host language, an interface
    here.  [Raise] is [json.JSONDecodeError]. *)
Class PyJson : Type := {
  json_loads : string -> result pyval
}.

Module WorkerAgent.

(** [@dataclass RelevantRule] of [src/analysis/rag_system.py] *)
Record RelevantRule : Type := {
  rule_id : string;
  title : string;
  description : string;
  category : string;
  severity : string;
  similarity : float;
  context : option string
}.

(** [@dataclass RAGContext], the two fields the worker reads *)
Record RAGContext : Type := {
  relevant_rules : list RelevantRule;
  analysis_prompt : string
}.

(** [@dataclass WorkerResult]; [processing_time] is wall-clock time and is
    left out. *)
Record WorkerResult : Type := {
  worker_id : string;
  file_path : string;
  success : bool;
  violations : pyval;
  error_message : option string
}.

(** The collaborators of a worker.  A call either raises, with the text of
    the exception, or returns.  [ainvoke] stands for [self.llm.ainvoke]
    followed by the extraction of the response text. *)
Class Collaborators : Type := {
  CodeAnalysis : Type;
  parse_file : string -> string + CodeAnalysis;
  generate_analysis_context : CodeAnalysis -> string + RAGContext;
  ainvoke : string -> string + string
}.

(** [bool(d)] for a dictionary *)
Definition dict_truthy (d : gmap string pyval) : bool :=
  match map_to_list d with
  | [] => false
  | _ :: _ => true
  end.

(** The dictionary built for a bullet line *)
Definition manual_violation (line : string) : gmap string pyval :=
  <["rule_id" := PStr "manual_extract"]>
  (<["violation_description" := PStr (PyStr.drop 2 line)]>
  (<["severity" := PStr "medium"]>
  (<["confidence_score" := PFloat 0.7%float]> ∅))).

(** One turn of the line loop of [_parse_llm_response]: the list
    [violations] and the dictionary [current_violation]. *)
Definition extract_line (st : list pyval * gmap string pyval) (line : string)
  : list pyval * gmap string pyval :=
  let '(violations, current_violation) := st in
  let line := PyStr.strip line in
  if PyStr.startswith "- " line || PyStr.startswith "* " line then
    let violations :=
      if dict_truthy current_violation
      then (violations ++ [PDict current_violation])%list else violations in
    (violations, manual_violation line)
  else (violations, current_violation).

(** The manual extraction of [_parse_llm_response] *)
Definition manual_extract (response : string) : list pyval :=
  let lines := PyStr.split_char PyStr.LF response in
  let '(violations, current_violation) := fold_left extract_line lines ([], ∅) in
  if dict_truthy current_violation
  then (violations ++ [PDict current_violation])%list else violations.

(** [if "violations" in parsed_response: return parsed_response["violations"]]:
    [Ok (Some v)] returns [v], [Ok None] goes on, [Raise] is the [TypeError]
    of [in] or of the subscript on a value that is not a dictionary. *)
Definition violations_entry (parsed_response : pyval) : result (option pyval) :=
  match parsed_response with
  | PDict d => Ok (d !! "violations")
  | PList l =>
      if existsb (fun v => match v with
                           | PStr s => String.eqb s "violations"
                           | _ => false
                           end) l
      then Raise else Ok None
  | PStr s => if PyStr.contains "violations" s then Raise else Ok None
  | _ => Raise
  end.

(** The body of [_parse_llm_response], inside its [try] *)
Definition parse_llm_response_body {JSON : PyJson} (response : string) : result pyval :=
  let json_start := PyStr.find_char "{" response in
  let json_end := match PyStr.rfind_char "}" response with
                  | Some i => S i
                  | None => 0%nat
                  end in
  let* found :=
    match json_start with
    | Some json_start =>
        if (json_start <? json_end)%nat then
          let json_str := PyStr.slice json_start json_end response in
          let* parsed_response := json_loads json_str in
          violations_entry parsed_response
        else Ok None
    | None => Ok None
    end in
  match found with
  | Some v => Ok v
  | None => Ok (PList (manual_extract response))
  end.

(** [_parse_llm_response]: [except Exception: return []] *)
Definition _parse_llm_response {JSON : PyJson} (response : string) : pyval :=
  try_except (parse_llm_response_body response) (PList []).

(** The dictionary the fallback builds for one rule *)
Definition fallback_violation (rule : RelevantRule) : pyval :=
  PDict
   (<["rule_id" := PStr (rule_id rule)]>
   (<["violation_description" := PStr ("Potential violation of: " ++ title rule)]>
   (<["severity" := PStr (severity rule)]>
   (<["suggested_fix" := PStr (description rule)]>
   (<["confidence_score" := PFloat (similarity rule)]>
   (<["line_number" := PNone]>
   (<["column_number" := PNone]> ∅))))))).

(** [len(violations)] is defined for a list, a string and a dictionary
    only. *)
Definition has_len (v : pyval) : bool :=
  match v with
  | PList _ | PStr _ | PDict _ => true
  | _ => false
  end.

(** The inner [try] of [process_file] and its handler: the violations of
    the file.  [_store_violations] and [_update_file_status] catch their own
    exceptions; [len(violations)] is evaluated by [process_file] itself. *)
Definition analyze {JSON : PyJson} {collaborators : Collaborators} (rag_context : RAGContext) : pyval :=
  let attempt : result pyval :=
    match ainvoke (analysis_prompt rag_context) with
    | inl _ => Raise
    | inr llm_response_text =>
        let violations := _parse_llm_response llm_response_text in
        if has_len violations then Ok violations else Raise
    end in
  try_except attempt (PList (map fallback_violation (relevant_rules rag_context))).

(** [process_file] of the worker [worker_id] *)
Definition process_file {JSON : PyJson} {collaborators : Collaborators} (worker_id : string) (path : string)
  : WorkerResult :=
  let failed (e : string) :=
    {| worker_id := worker_id; file_path := path; success := false;
       violations := PList [];
       error_message := Some ("Worker processing failed: " ++ e) |} in
  match parse_file path with
  | inl e => failed e
  | inr code_analysis =>
      match generate_analysis_context code_analysis with
      | inl e => failed e
      | inr rag_context =>
          {| worker_id := worker_id; file_path := path; success := true;
             violations := analyze rag_context;
             error_message := None |}
      end
  end.

End WorkerAgent.

(** ** [src/agents/master_orchestrator.py] *)

Module MasterOrchestrator.

Import WorkerAgent.

(** [@dataclass AnalysisSession]; the two timestamps are left out. *)
Record AnalysisSession : Type := {
  id : string;
  name : string;
  source_type : string;
  source_path : string;
  status : string;
  total_files : nat;
  processed_files : nat;
  failed_files : nat;
  worker_results : list WorkerResult
}.

(** What [asyncio.gather(..., return_exceptions=True)] holds for one task:
    an [Exception] that the task has raised, a [BaseException] that is no
    [Exception] (the [asyncio.CancelledError] of a cancelled task), or the
    value that the task has returned. *)
Inductive TaskOutcome : Type :=
| TaskException
| TaskCancelled
| TaskResult (r : WorkerResult).

(** The settings and collaborators of one run of [_process_files].
    [run_task i path] is the outcome of [workers[i].process_file(path)]. *)
Record Env : Type := {
  max_workers : nat;
  batch_size : Z;
  create_file_analysis_records_ok : bool;
  worker_initialize_ok : nat -> bool;
  run_task : nat -> string -> TaskOutcome
}.

(** The session object of [_create_session] *)
Definition _create_session (session_id session_name source_type source_path : string)
    (total_files : nat) : AnalysisSession :=
  {| id := session_id; name := session_name; source_type := source_type;
     source_path := source_path; status := "in_progress";
     total_files := total_files; processed_files := 0; failed_files := 0;
     worker_results := [] |}.

Definition set_counters (s : AnalysisSession) (processed failed : nat) : AnalysisSession :=
  {| id := id s; name := name s; source_type := source_type s;
     source_path := source_path s; status := status s;
     total_files := total_files s; processed_files := processed;
     failed_files := failed; worker_results := worker_results s |}.

Definition set_status (s : AnalysisSession) (st : string) : AnalysisSession :=
  {| id := id s; name := name s; source_type := source_type s;
     source_path := source_path s; status := st;
     total_files := total_files s; processed_files := processed_files s;
     failed_files := failed_files s; worker_results := worker_results s |}.

Definition set_worker_results (s : AnalysisSession) (rs : list WorkerResult)
  : AnalysisSession :=
  {| id := id s; name := name s; source_type := source_type s;
     source_path := source_path s; status := status s;
     total_files := total_files s; processed_files := processed_files s;
     failed_files := failed_files s; worker_results := rs |}.

(** [range(0, stop, step)] for a positive [step]; [fuel] bounds the number
    of items ([stop] is always enough). *)
Fixpoint range_from (fuel i stop step : nat) : list nat :=
  match fuel with
  | O => []
  | S fuel' =>
      if (i <? stop)%nat then i :: range_from fuel' (i + step) stop step else []
  end.

(** [range(0, stop, step)]: [ValueError] for a zero step, empty for a
    negative one. *)
Definition py_range (stop : nat) (step : Z) : result (list nat) :=
  if (step =? 0)%Z then Raise
  else if (step <? 0)%Z then Ok []
  else Ok (range_from stop 0 stop (Z.to_nat step)).

(** [file_paths[i:i + batch_size]] for a positive [batch_size] *)
Definition batch_at (file_paths : list string) (batch_size : Z) (i : nat) : list string :=
  take (Z.to_nat batch_size) (drop i file_paths).

(** One turn of the loop over [batch_results]: the session counters and
    [all_results].  A [CancelledError] is no instance of [Exception]: it is
    taken for a result and appended, and [result.success] raises
    [AttributeError]. *)
Definition count_result (st : AnalysisSession * list WorkerResult) (outcome : TaskOutcome)
  : result (AnalysisSession * list WorkerResult) :=
  let '(session, all_results) := st in
  match outcome with
  | TaskException =>
      Ok (set_counters session (processed_files session) (failed_files session + 1),
          all_results)
  | TaskCancelled => Raise
  | TaskResult r =>
      if success r
      then Ok (set_counters session (processed_files session + 1) (failed_files session),
               (all_results ++ [r])%list)
      else Ok (set_counters session (processed_files session) (failed_files session + 1),
               (all_results ++ [r])%list)
  end.

(** The loop over [batch_results]: the session and [all_results] when the
    loop ends, and whether it ended by an exception.  The session object is
    updated in place, so an exception leaves it as the results before have
    made it; [all_results] is not used after an exception. *)
Fixpoint count_results (st : AnalysisSession * list WorkerResult)
    (batch_results : list TaskOutcome) : AnalysisSession * list WorkerResult * bool :=
  match batch_results with
  | [] => (st, false)
  | outcome :: rest =>
      match count_result st outcome with
      | Ok st' => count_results st' rest
      | Raise => (st, true)
      end
  end.

(** One batch: the tasks are created ([j % len(workers)] raises
    [ZeroDivisionError] without workers), gathered, and counted. *)
Definition process_batch (env : Env) (n_workers : nat)
    (st : AnalysisSession * list WorkerResult) (batch_files : list string)
  : AnalysisSession * list WorkerResult * bool :=
  match batch_files, n_workers with
  | _ :: _, O => (st, true)
  | _, _ =>
      let batch_results :=
        imap (fun j file_path => run_task env (Nat.modulo j n_workers) file_path)
             batch_files in
      count_results st batch_results
  end.

(** The loop over the batches: the session and [all_results] when the loop
    ends, and whether it ended by an exception. *)
Fixpoint process_batches (env : Env) (n_workers : nat)
    (st : AnalysisSession * list WorkerResult) (batches : list (list string))
  : AnalysisSession * list WorkerResult * bool :=
  match batches with
  | [] => (st, false)
  | batch_files :: rest =>
      match process_batch env n_workers st batch_files with
      | (st', false) => process_batches env n_workers st' rest
      | (st', true) => (st', true)
      end
  end.

(** The batches of a run: [file_paths[i:i + batch_size]] for [i] in
    [range(0, len(file_paths), batch_size)] *)
Definition batches_of (env : Env) (file_paths : list string) : result (list (list string)) :=
  let* starts := py_range (length file_paths) (batch_size env) in
  Ok (map (batch_at file_paths (batch_size env)) starts).

(** The [try] of [_process_files] up to the last batch: the records, the
    workers, the batches. *)
Definition process_files_body (env : Env) (session : AnalysisSession)
    (file_paths : list string) : AnalysisSession * list WorkerResult * bool :=
  if negb (create_file_analysis_records_ok env) then (session, [], true)
  else if negb (forallb (worker_initialize_ok env) (seq 0 (max_workers env)))
  then (session, [], true)
  else
    match batches_of env file_paths with
    | Raise => (session, [], true)
    | Ok batches => process_batches env (max_workers env) (session, []) batches
    end.

(** The summary after the last batch, still inside the [try]:
    [len(result.violations)] of every successful result must be defined. *)
Definition summary_ok (all_results : list WorkerResult) : bool :=
  forallb (fun r => negb (success r) || has_len (violations r)) all_results.

(** [_process_files]: the session afterwards, and whether the exception was
    raised again. *)
Definition _process_files (env : Env) (session : AnalysisSession)
    (file_paths : list string) : AnalysisSession * bool :=
  match process_files_body env session file_paths with
  | (session, all_results, false) =>
      let session := set_status (set_worker_results session all_results) "completed" in
      if summary_ok all_results then (session, false)
      else (set_status session "failed", true)
  | (session, _, true) => (set_status session "failed", true)
  end.

(** The worker of every task of a batch: [worker_idx = j % len(workers)] *)
Definition batch_workers (n_workers : nat) (batch_files : list string) : list nat :=
  imap (fun j _ => Nat.modulo j n_workers) batch_files.

(** The name of the worker number [i]: [f"worker_{i+1:02d}"] *)
Definition worker_name (i : nat) : string :=
  "worker_" ++ (if (i + 1 <? 10)%nat then "0" else "") ++ PyStr.str_of_nat (i + 1).

(** [analyze_folder].  [folder_exists] is [Path(folder_path).exists()],
    [python_files] the paths that [rglob] or [glob] finds, [store_session_ok]
    tells whether [_create_session] can insert the session; [session_name] is
    the name after the default has been filled in.  The result is the session
    the caller gets, or [Raise]; next to it [self.current_session]. *)
Definition analyze_folder (env : Env) (folder_exists : bool) (python_files : list string)
    (store_session_ok : bool) (session_id session_name folder_path : string)
    (current_session : option AnalysisSession)
  : result AnalysisSession * option AnalysisSession :=
  if negb folder_exists then (Raise, current_session)
  else
    match python_files with
    | [] => (Raise, current_session)
    | _ :: _ =>
        if negb store_session_ok then (Raise, current_session)
        else
          let session := _create_session session_id session_name "folder" folder_path
                           (length python_files) in
          match _process_files env session python_files with
          | (session, false) => (Ok session, Some session)
          | (session, true) => (Raise, Some session)
          end
    end.

End MasterOrchestrator.

(** ** [src/analysis/code_parser.py]: the line counts of [parse_file] *)

Module CodeParser.

(** [not line.strip()] *)
Definition is_blank (line : string) : bool :=
  match PyStr.strip line with
  | EmptyString => true
  | _ => false
  end.

(** [line.strip().startswith('#')] *)
Definition is_comment (line : string) : bool := PyStr.startswith "#" (PyStr.strip line).

(** The four counts of [CodeAnalysis] *)
Record LineCounts : Type := {
  total_lines : nat;
  code_lines : Z;
  comment_lines : nat;
  blank_lines : nat
}.

(** The line counts that [parse_file] computes from the text of the file *)
Definition line_counts (content : string) : LineCounts :=
  let lines := PyStr.split_char PyStr.LF content in
  let total_lines := length lines in
  let blank_lines := length (filter (fun line => is_blank line = true) lines) in
  let comment_lines := length (filter (fun line => is_comment line = true) lines) in
  {| total_lines := total_lines;
     code_lines := Z.of_nat total_lines - Z.of_nat blank_lines - Z.of_nat comment_lines;
     comment_lines := comment_lines;
     blank_lines := blank_lines |}.

End CodeParser.

(** ** [src/diff/diff_generator.py]: the diff files *)

Module DiffFiles.

Import DiffGenerator WorkerAgent.

(** [@dataclass DiffFile]: [diff_file_path] is its field [file_path];
    [created_at] is wall-clock time and is left out. *)
Record DiffFile : Type := {
  diff_file_path : string;
  diff_content : string;
  fixes_applied : list CodeFix
}.

(** The host of the generator: [pathlib], the permission to write a file,
    and the text that [json.dump] writes for [diff_file.to_dict()]. *)
Class Host : Type := {
  path_name : string -> string;              (* Path(p).name *)
  path_join : string -> string -> string;    (* str(Path(d) / name) *)
  with_suffix : string -> string -> string;  (* str(Path(p).with_suffix(s)) *)
  writable : string -> bool;                 (* open(p, 'w') does not raise *)
  metadata_text : DiffFile -> string
}.

(** [bool(v)] *)
Definition truthy (v : pyval) : bool :=
  match v with
  | PNone => false
  | PBool b => b
  | PInt z => negb (z =? 0)%Z
  | PFloat f => negb (PrimFloat.eqb f 0%float)
  | PStr s => negb (String.eqb s "")
  | PList l => match l with [] => false | _ :: _ => true end
  | PDict d => dict_truthy d
  end.

(** [for violation in violations]: the items.  A [str] gives its characters,
    a [dict] its keys, in some order; [Raise] is the [TypeError] of a value
    that is not iterable. *)
Definition iterate (v : pyval) : result (list pyval) :=
  match v with
  | PList l => Ok l
  | PStr s => Ok (map (fun c => PStr (String c "")) (list_ascii_of_string s))
  | PDict d => Ok (map (fun item => PStr item.1) (map_to_list d))
  | _ => Raise
  end.

Section Generator.
Context {RE : PyRe} {matcher : Difflib.SequenceMatcher} {host : Host}.

(** [_get_diff_file_name]; [now] is
    [datetime.now().strftime("%Y%m%d_%H%M%S")]. *)
Definition _get_diff_file_name (now file_path : string) : string :=
  path_name file_path ++ "_" ++ now ++ ".diff".

(** [with open(path, 'w') as f: f.write(text)] on the file system, a map
    from paths to texts: [None] when it raises. *)
Definition write_file (fs : gmap string string) (path text : string)
  : option (gmap string string) :=
  if writable path then Some (<[path := text]> fs) else None.

(** [generate_file_diff]: the diff file, if any, and the file system
    afterwards.  [_read_file] is the lookup in [fs]; every exception ends in
    [return None]. *)
Definition generate_file_diff (fs : gmap string string) (now : string)
    (worker_result : WorkerResult) (output_dir : string)
  : option DiffFile * gmap string string :=
  if negb (truthy (violations worker_result)) then (None, fs)
  else
    match fs !! file_path worker_result with
    | None => (None, fs)
    | Some original_content =>
        match iterate (violations worker_result) with
        | Raise => (None, fs)
        | Ok violations =>
            match _parse_violations_to_fixes (file_path worker_result) violations
                    original_content with
            | [] => (None, fs)
            | fixes =>
                let modified_content := _apply_fixes original_content fixes in
                let diff_content :=
                  _generate_unified_diff (file_path worker_result) original_content
                    modified_content in
                let diff_file_path :=
                  path_join output_dir
                    (_get_diff_file_name now (file_path worker_result)) in
                match write_file fs diff_file_path diff_content with
                | None => (None, fs)
                | Some fs =>
                    let diff_file := {| diff_file_path := diff_file_path;
                                        diff_content := diff_content;
                                        fixes_applied := fixes |} in
                    match write_file fs (with_suffix diff_file_path ".json")
                            (metadata_text diff_file) with
                    | None => (None, fs)
                    | Some fs => (Some diff_file, fs)
                    end
                end
            end
        end
    end.



End Generator.

End DiffFiles.

(** ** Reference implementations of the library interfaces

    Executable models of the three libraries, used where a property is
    evaluated on concrete inputs.  The general theorems below hold for every
    implementation of the interfaces. *)

(** *** A backtracking matcher for the patterns of the sources *)

Module Regex.

Inductive re : Type :=
| Chr (p : ascii -> bool)      (* one character of a class *)
| Cat (r1 r2 : re)             (* r1 r2 *)
| Star (r : re)                (* r*, greedy *)
| Opt (r : re)                 (* r?, greedy *)
| Group (n : nat) (r : re)     (* the n-th capturing group *)
| WordBoundary.                (* \b *)

Definition Plus (r : re) : re := Cat r (Star r).

(** A match in progress: the character before the position, the text from
    the position on, and the groups captured so far. *)
Definition captures : Type := list (nat * string).
Definition outcome : Type := option (option ascii * string * captures).
Definition cont : Type := option ascii -> string -> captures -> outcome.

Definition is_word (c : option ascii) : bool :=
  match c with
  | Some a => PyStr.is_lower a || PyStr.is_upper a || PyStr.is_digit a || Ascii.eqb a "_"
  | None => false
  end.

Definition head_char (s : string) : option ascii :=
  match s with
  | String a _ => Some a
  | EmptyString => None
  end.

(** Leftmost alternative first, longest repetition first; one turn of a
    repetition must consume a character. *)
Fixpoint run (r : re) (prev : option ascii) (s : string) (caps : captures) (k : cont)
  : outcome :=
  match r with
  | Chr p =>
      match s with
      | String a s' => if p a then k (Some a) s' caps else None
      | EmptyString => None
      end
  | Cat r1 r2 => run r1 prev s caps (fun prev' s' caps' => run r2 prev' s' caps' k)
  | Opt r1 =>
      match run r1 prev s caps k with
      | Some m => Some m
      | None => k prev s caps
      end
  | Star r1 =>
      (fix star (fuel : nat) (prev : option ascii) (s : string) (caps : captures)
         : outcome :=
         match fuel with
         | O => k prev s caps
         | S fuel' =>
             match run r1 prev s caps
                     (fun prev' s' caps' =>
                        if (String.length s' <? String.length s)%nat
                        then star fuel' prev' s' caps' else None) with
             | Some m => Some m
             | None => k prev s caps
             end
         end) (S (String.length s)) prev s caps
  | Group n r1 =>
      run r1 prev s caps
        (fun prev' s' caps' =>
           k prev' s' ((n, PyStr.take (String.length s - String.length s') s) :: caps'))
  | WordBoundary =>
      if xorb (is_word prev) (is_word (head_char s)) then k prev s caps else None
  end.

Definition match_at (r : re) (prev : option ascii) (s : string) : outcome :=
  run r prev s [] (fun prev' s' caps' => Some (prev', s', caps')).

Fixpoint group (n : nat) (caps : captures) : string :=
  match caps with
  | [] => EmptyString
  | (m, text) :: rest => if (m =? n)%nat then text else group n rest
  end.

(** The replacement template: [\1] ... [\9] stand for the groups. *)
Fixpoint expand (repl : string) (caps : captures) : string :=
  match repl with
  | EmptyString => EmptyString
  | String a rest =>
      match rest with
      | String d rest' =>
          if Ascii.eqb a "\" && PyStr.is_digit d
          then group (nat_of_ascii d - 48) caps ++ expand rest' caps
          else String a (expand rest caps)
      | EmptyString => String a EmptyString
      end
  end.

(** [re.sub]: the matches from left to right, without overlap. *)
Fixpoint sub_loop (fuel : nat) (r : re) (repl : string) (prev : option ascii)
    (s : string) : string :=
  match fuel with
  | O => s
  | S fuel' =>
      let skip :=
        match s with
        | EmptyString => EmptyString
        | String a s' => String a (sub_loop fuel' r repl (Some a) s')
        end in
      match match_at r prev s with
      | Some (prev', rest, caps) =>
          if (String.length rest <? String.length s)%nat
          then expand repl caps ++ sub_loop fuel' r repl prev' rest
          else expand repl caps ++ skip
      | None => skip
      end
  end.

Definition sub (r : re) (repl s : string) : string :=
  sub_loop (S (String.length s)) r repl None s.

(** [re.findall] for a pattern whose matches are not empty *)
Fixpoint findall_loop (fuel : nat) (r : re) (prev : option ascii) (s : string)
  : list string :=
  match fuel with
  | O => []
  | S fuel' =>
      let skip :=
        match s with
        | EmptyString => []
        | String a s' => findall_loop fuel' r (Some a) s'
        end in
      match match_at r prev s with
      | Some (prev', rest, _) =>
          if (String.length rest <? String.length s)%nat
          then PyStr.take (String.length s - String.length rest) s
                 :: findall_loop fuel' r prev' rest
          else skip
      | None => skip
      end
  end.

Definition findall (r : re) (s : string) : list string :=
  findall_loop (S (String.length s)) r None s.

Definition one_of (chars : string) (c : ascii) : bool :=
  existsb (Ascii.eqb c) (list_ascii_of_string chars).

Definition operator : re := Cat (Chr (one_of "=+-*/%<>!")) (Opt (Chr (one_of "="))).
Definition space : re := Chr PyStr.is_space.
Definition alnum (c : ascii) : bool :=
  PyStr.is_lower c || PyStr.is_upper c || PyStr.is_digit c.

(** The patterns of [diff_generator.py], compiled by hand. *)
Definition compile (pattern : string) : option re :=
  if String.eqb pattern "([=+\-*/%<>!]=?)\s*"
  then Some (Cat (Group 1 operator) (Star space))
  else if String.eqb pattern "\s*([=+\-*/%<>!]=?)"
  then Some (Cat (Star space) (Group 1 operator))
  else if String.eqb pattern ",(\S)"
  then Some (Cat (Chr (one_of ",")) (Group 1 (Chr (fun c => negb (PyStr.is_space c)))))
  else if String.eqb pattern "\(\s+"
  then Some (Cat (Chr (one_of "(")) (Plus space))
  else if String.eqb pattern "\s+\)"
  then Some (Cat (Plus space) (Chr (one_of ")")))
  else if String.eqb pattern "(.)([A-Z][a-z]+)"
  then Some (Cat (Group 1 (Chr (fun c => negb (Ascii.eqb c PyStr.LF))))
                 (Group 2 (Cat (Chr PyStr.is_upper) (Plus (Chr PyStr.is_lower)))))
  else if String.eqb pattern "([a-z0-9])([A-Z])"
  then Some (Cat (Group 1 (Chr (fun c => PyStr.is_lower c || PyStr.is_digit c)))
                 (Group 2 (Chr PyStr.is_upper)))
  else if String.eqb pattern "\b[a-z][a-zA-Z0-9]*[A-Z][a-zA-Z0-9]*\b"
  then Some (Cat WordBoundary
            (Cat (Chr PyStr.is_lower)
            (Cat (Star (Chr alnum))
            (Cat (Chr PyStr.is_upper)
            (Cat (Star (Chr alnum)) WordBoundary)))))
  else None.

#[export] Instance engine : PyRe := {|
  re_sub pattern repl s :=
    match compile pattern with
    | Some r => sub r repl s
    | None => s
    end;
  re_findall pattern s :=
    match compile pattern with
    | Some r => findall r s
    | None => []
    end
|}.

End Regex.

(** *** A decoder for JSON texts

    [json.loads] after the library's scanner: objects, arrays, strings with
    their escapes, numbers, [true], [false], [null], [NaN], [Infinity],
    [-Infinity].  A number with a fraction or an exponent is converted by
    one floating-point multiplication or division of the digits by a power
    of ten, which is the correctly rounded value when the digits are below
    2^53 and the power is at most 10^22. *)

Module Json.

Definition is_ws (c : ascii) : bool :=
  Ascii.eqb c " " || Ascii.eqb c "009" || Ascii.eqb c "010" || Ascii.eqb c "013".

Fixpoint skip_ws (s : string) : string :=
  match s with
  | String c s' => if is_ws c then skip_ws s' else s
  | EmptyString => s
  end.

Definition hex_value (c : ascii) : option Z :=
  let n := Z.of_nat (nat_of_ascii c) in
  if PyStr.is_digit c then Some (n - 48)%Z
  else if ((97 <=? n) && (n <=? 102))%Z then Some (n - 87)%Z
  else if ((65 <=? n) && (n <=? 70))%Z then Some (n - 55)%Z
  else None.

(** Four hexadecimal digits *)
Definition hex4 (s : string) : option (Z * string) :=
  match s with
  | String a (String b (String c (String d rest))) =>
      match hex_value a, hex_value b, hex_value c, hex_value d with
      | Some x, Some y, Some z, Some w => Some (((x * 16 + y) * 16 + z) * 16 + w, rest)%Z
      | _, _, _, _ => None
      end
  | _ => None
  end.

(** The UTF-8 bytes of a code point *)
Definition utf8 (cp : Z) : string :=
  let byte (n : Z) := String (ascii_of_nat (Z.to_nat n)) EmptyString in
  let tail (n : Z) := byte (128 + n mod 64)%Z in
  if (cp <? 128)%Z then byte cp
  else if (cp <? 2048)%Z then byte (192 + cp / 64)%Z ++ tail cp
  else if (cp <? 65536)%Z
  then byte (224 + cp / 4096)%Z ++ tail (cp / 64)%Z ++ tail cp
  else byte (240 + cp / 262144)%Z ++ tail (cp / 4096)%Z
         ++ tail (cp / 64)%Z ++ tail cp.

(** [\uXXXX], with a low surrogate after a high one *)
Definition unicode_escape (s : string) : option (string * string) :=
  match hex4 s with
  | None => None
  | Some (hi, rest) =>
      let single := Some (utf8 hi, rest) in
      if ((55296 <=? hi) && (hi <=? 56319))%Z then
        match rest with
        | String "\" (String "u" rest') =>
            match hex4 rest' with
            | Some (lo, rest'') =>
                if ((56320 <=? lo) && (lo <=? 57343))%Z
                then Some (utf8 (65536 + (hi - 55296) * 1024 + (lo - 56320))%Z, rest'')
                else single
            | None => single
            end
        | _ => single
        end
      else single
  end.

(** The characters of a string after its opening quote, and the text after
    the closing quote. *)
Fixpoint scan_string (fuel : nat) (s : string) : option (string * string) :=
  match fuel with
  | O => None
  | S fuel' =>
      match s with
      | EmptyString => None
      | String c s' =>
          if Ascii.eqb c "034" then Some (EmptyString, s')
          else if Ascii.eqb c "\" then
            match s' with
            | EmptyString => None
            | String e s'' =>
                let simple (decoded : string) :=
                  match scan_string fuel' s'' with
                  | Some (text, rest) => Some (decoded ++ text, rest)
                  | None => None
                  end in
                if Ascii.eqb e "034" then simple (String "034" EmptyString)
                else if Ascii.eqb e "\" then simple "\"
                else if Ascii.eqb e "/" then simple "/"
                else if Ascii.eqb e "b" then simple (String "008" EmptyString)
                else if Ascii.eqb e "f" then simple (String "012" EmptyString)
                else if Ascii.eqb e "n" then simple (String "010" EmptyString)
                else if Ascii.eqb e "r" then simple (String "013" EmptyString)
                else if Ascii.eqb e "t" then simple (String "009" EmptyString)
                else if Ascii.eqb e "u" then
                  match unicode_escape s'' with
                  | Some (decoded, rest) =>
                      match scan_string fuel' rest with
                      | Some (text, rest') => Some (decoded ++ text, rest')
                      | None => None
                      end
                  | None => None
                  end
                else None
            end
          else if (nat_of_ascii c <? 32)%nat then None
          else
            match scan_string fuel' s' with
            | Some (text, rest) => Some (String c text, rest)
            | None => None
            end
      end
  end.

(** A maximal run of digits *)
Fixpoint digits (s : string) : string * string :=
  match s with
  | String c s' =>
      if PyStr.is_digit c then let '(ds, rest) := digits s' in (String c ds, rest)
      else (EmptyString, s)
  | EmptyString => (EmptyString, s)
  end.

Fixpoint nat_of_digits (acc : Z) (ds : string) : Z :=
  match ds with
  | String c ds' => nat_of_digits (acc * 10 + Z.of_nat (nat_of_ascii c - 48)) ds'
  | EmptyString => acc
  end.

Definition float_of_digit (c : ascii) : float :=
  match (nat_of_ascii c - 48)%nat with
  | 0%nat => 0%float | 1%nat => 1%float | 2%nat => 2%float | 3%nat => 3%float
  | 4%nat => 4%float | 5%nat => 5%float | 6%nat => 6%float | 7%nat => 7%float
  | 8%nat => 8%float | _ => 9%float
  end.

Fixpoint float_of_digits (acc : float) (ds : string) : float :=
  match ds with
  | String c ds' => float_of_digits (acc * 10 + float_of_digit c)%float ds'
  | EmptyString => acc
  end.

Fixpoint pow10 (n : nat) : float :=
  match n with
  | O => 1%float
  | S n' => (10 * pow10 n')%float
  end.

(** [float(integer + frac + exp)] *)
Definition float_of_parts (negative : bool) (int_digits frac_digits : string)
    (exponent : Z) : float :=
  let mantissa := float_of_digits 0%float (int_digits ++ frac_digits) in
  let e := (exponent - Z.of_nat (String.length frac_digits))%Z in
  let magnitude :=
    if (e <? 0)%Z then (mantissa / pow10 (Z.to_nat (- e)))%float
    else (mantissa * pow10 (Z.to_nat e))%float in
  if negative then (- magnitude)%float else magnitude.

(** A number: an optional minus, [0] or digits without a leading zero, an
    optional fraction, an optional exponent; a fraction or an exponent makes
    it a [float]. *)
Definition scan_number (s : string) : option (pyval * string) :=
  let '(negative, s1) :=
    match s with
    | String "-" s' => (true, s')
    | _ => (false, s)
    end in
  let int_part : option (string * string) :=
    match s1 with
    | String "0" rest => Some ("0", rest)
    | _ => match digits s1 with
           | (EmptyString, _) => None
           | (ds, rest) => Some (ds, rest)
           end
    end in
  match int_part with
  | None => None
  | Some (int_digits, s2) =>
      let '(frac, s3) :=
        match s2 with
        | String "." s' =>
            match digits s' with
            | (EmptyString, _) => (None, s2)
            | (ds, rest) => (Some ds, rest)
            end
        | _ => (None, s2)
        end in
      let '(exponent, s4) :=
        match s3 with
        | String c s' =>
            if Ascii.eqb c "e" || Ascii.eqb c "E" then
              let '(minus, s'') :=
                match s' with
                | String "-" t => (true, t)
                | String "+" t => (false, t)
                | _ => (false, s')
                end in
              match digits s'' with
              | (EmptyString, _) => (None, s3)
              | (ds, rest) =>
                  (Some (if minus then (- nat_of_digits 0 ds)%Z else nat_of_digits 0 ds),
                   rest)
              end
            else (None, s3)
        | EmptyString => (None, s3)
        end in
      match frac, exponent with
      | None, None =>
          let n := nat_of_digits 0 int_digits in
          Some (PInt (if negative then (- n)%Z else n), s4)
      | _, _ =>
          Some (PFloat (float_of_parts negative int_digits
                          (default EmptyString frac) (default 0%Z exponent)), s4)
      end
  end.

Definition literal (word : string) (v : pyval) (s : string) : option (pyval * string) :=
  if String.prefix word s then Some (v, PyStr.drop (String.length word) s) else None.

Definition first_some {A : Type} (a b : option A) : option A :=
  match a with
  | Some _ => a
  | None => b
  end.

(** One value at the head of [s], the items of an array after its first
    bracket or after a comma, and the pairs of an object likewise. *)
Fixpoint value (fuel : nat) (s : string) : option (pyval * string) :=
  match fuel with
  | O => None
  | S fuel' =>
      match s with
      | String "034" s' =>
          match scan_string (S (String.length s')) s' with
          | Some (text, rest) => Some (PStr text, rest)
          | None => None
          end
      | String "{" s' =>
          match skip_ws s' with
          | String "}" rest => Some (PDict ∅, rest)
          | s'' =>
              match members fuel' s'' ∅ with
              | Some (d, rest) => Some (PDict d, rest)
              | None => None
              end
          end
      | String "[" s' =>
          match skip_ws s' with
          | String "]" rest => Some (PList [], rest)
          | s'' =>
              match elements fuel' s'' with
              | Some (l, rest) => Some (PList l, rest)
              | None => None
              end
          end
      | _ =>
          first_some (literal "null" PNone s)
          (first_some (literal "true" (PBool true) s)
          (first_some (literal "false" (PBool false) s)
          (first_some (literal "NaN" (PFloat nan) s)
          (first_some (literal "Infinity" (PFloat infinity) s)
          (first_some (literal "-Infinity" (PFloat neg_infinity) s)
                      (scan_number s))))))
      end
  end
with elements (fuel : nat) (s : string) : option (list pyval * string) :=
  match fuel with
  | O => None
  | S fuel' =>
      match value fuel' s with
      | None => None
      | Some (v, rest) =>
          match skip_ws rest with
          | String "]" rest' => Some ([v], rest')
          | String "," rest' =>
              match elements fuel' (skip_ws rest') with
              | Some (l, rest'') => Some (v :: l, rest'')
              | None => None
              end
          | _ => None
          end
      end
  end
with members (fuel : nat) (s : string) (acc : gmap string pyval)
  : option (gmap string pyval * string) :=
  match fuel with
  | O => None
  | S fuel' =>
      match s with
      | String "034" s' =>
          match scan_string (S (String.length s')) s' with
          | None => None
          | Some (key, rest) =>
              match skip_ws rest with
              | String ":" rest' =>
                  match value fuel' (skip_ws rest') with
                  | None => None
                  | Some (v, rest'') =>
                      let acc := <[key := v]> acc in
                      match skip_ws rest'' with
                      | String "}" rest3 => Some (acc, rest3)
                      | String "," rest3 => members fuel' (skip_ws rest3) acc
                      | _ => None
                      end
                  end
              | _ => None
              end
          end
      | _ => None
      end
  end.

(** [json.loads(s)]: one value between optional white space, and nothing
    else. *)
Definition loads (s : string) : result pyval :=
  match value (2 * String.length s + 2) (skip_ws s) with
  | Some (v, rest) =>
      match skip_ws rest with
      | EmptyString => Ok v
      | _ => Raise
      end
  | None => Raise
  end.

#[export] Instance decoder : PyJson := {| json_loads := loads |}.

End Json.

(** *** The sequence matcher of [difflib]

    [SequenceMatcher(None, a, b)]: no junk, and the automatic junk heuristic
    for a second sequence of 200 lines or more. *)

Module Matcher.

Import Difflib.
#[local] Open Scope list_scope.

Definition count_of (x : string) (l : list string) : nat :=
  length (filter (fun y => x = y) l).

(** An element that [b2j] drops as popular *)
Definition popular (b : list string) (x : string) : bool :=
  let n := length b in
  (200 <=? n)%nat && (Nat.div n 100 + 1 <? count_of x b)%nat.

Definition same (a b : list string) (i j : nat) : bool :=
  match a !! i, b !! j with
  | Some x, Some y => String.eqb x y
  | _, _ => false
  end.

(** One row of [find_longest_match]: [prev] is [j2len] of the row before,
    as a list over the indices of [b]; the best match so far is updated from
    left to right. *)
Fixpoint scan_row (a b : list string) (i blo bhi : nat) (prev : list nat)
    (js : list nat) (best : nat * nat * nat) : list nat * (nat * nat * nat) :=
  match js with
  | [] => ([], best)
  | j :: js' =>
      let in_b2j := match a !! i, b !! j with
                    | Some x, Some y => String.eqb x y && negb (popular b y)
                    | _, _ => false
                    end in
      let k := if in_b2j && (blo <=? j)%nat && (j <? bhi)%nat
               then (match j with O => O | S j' => nth j' prev O end + 1)%nat
               else O in
      let '(besti, bestj, bestsize) := best in
      let best' := if (bestsize <? k)%nat then (i + 1 - k, j + 1 - k, k)%nat else best in
      let '(row, best'') := scan_row a b i blo bhi prev js' best' in
      (k :: row, best'')
  end.

Fixpoint scan_rows (a b : list string) (blo bhi : nat) (rows : list nat) (prev : list nat)
    (best : nat * nat * nat) : nat * nat * nat :=
  match rows with
  | [] => best
  | i :: rows' =>
      let '(row, best') := scan_row a b i blo bhi prev (seq 0 (length b)) best in
      scan_rows a b blo bhi rows' row best'
  end.

(** The two extension loops of [find_longest_match] without junk *)
Fixpoint extend_left (fuel : nat) (a b : list string) (alo blo : nat)
    (m : nat * nat * nat) : nat * nat * nat :=
  match fuel with
  | O => m
  | S fuel' =>
      let '(besti, bestj, bestsize) := m in
      if (alo <? besti)%nat && (blo <? bestj)%nat && same a b (besti - 1) (bestj - 1)
      then extend_left fuel' a b alo blo (besti - 1, bestj - 1, bestsize + 1)%nat
      else m
  end.

Fixpoint extend_right (fuel : nat) (a b : list string) (ahi bhi : nat)
    (m : nat * nat * nat) : nat * nat * nat :=
  match fuel with
  | O => m
  | S fuel' =>
      let '(besti, bestj, bestsize) := m in
      if (besti + bestsize <? ahi)%nat && (bestj + bestsize <? bhi)%nat
         && same a b (besti + bestsize) (bestj + bestsize)
      then extend_right fuel' a b ahi bhi (besti, bestj, bestsize + 1)%nat
      else m
  end.

Definition find_longest_match (a b : list string) (alo ahi blo bhi : nat)
  : nat * nat * nat :=
  let best := scan_rows a b blo bhi (seq alo (ahi - alo)) [] (alo, blo, O) in
  extend_right (length a) a b ahi bhi (extend_left (length a) a b alo blo best).

(** The matching blocks of a region, in increasing order: the longest match,
    then the regions on its two sides. *)
Fixpoint blocks (fuel : nat) (a b : list string) (alo ahi blo bhi : nat)
  : list (nat * nat * nat) :=
  match fuel with
  | O => []
  | S fuel' =>
      let '(i, j, k) := find_longest_match a b alo ahi blo bhi in
      match k with
      | O => []
      | _ =>
          (if (alo <? i)%nat && (blo <? j)%nat then blocks fuel' a b alo i blo j else [])
          ++ (i, j, k)
          :: (if (i + k <? ahi)%nat && (j + k <? bhi)%nat
              then blocks fuel' a b (i + k) ahi (j + k) bhi else [])
      end
  end.

(** Adjacent blocks are merged. *)
Fixpoint collapse (cur : nat * nat * nat) (bs : list (nat * nat * nat))
  : list (nat * nat * nat) :=
  let '(i1, j1, k1) := cur in
  match bs with
  | [] => match k1 with O => [] | _ => [cur] end
  | (i2, j2, k2) :: rest =>
      if (i1 + k1 =? i2)%nat && (j1 + k1 =? j2)%nat
      then collapse (i1, j1, k1 + k2)%nat rest
      else match k1 with
           | O => collapse (i2, j2, k2) rest
           | _ => cur :: collapse (i2, j2, k2) rest
           end
  end.

Definition get_matching_blocks (a b : list string) : list (nat * nat * nat) :=
  let la := length a in
  let lb := length b in
  collapse (O, O, O) (blocks (S (la + lb)) a b 0 la 0 lb) ++ [(la, lb, O)].

Fixpoint opcodes_from (i j : nat) (bs : list (nat * nat * nat)) : list opcode :=
  match bs with
  | [] => []
  | (ai, bj, size) :: rest =>
      let change :=
        if (i <? ai)%nat && (j <? bj)%nat then [Op Replace i ai j bj]
        else if (i <? ai)%nat then [Op Delete i ai j bj]
        else if (j <? bj)%nat then [Op Insert i ai j bj]
        else [] in
      let equal :=
        match size with
        | O => []
        | _ => [Op Equal ai (ai + size) bj (bj + size)]
        end in
      change ++ equal ++ opcodes_from (ai + size) (bj + size) rest
  end.

Definition get_opcodes (a b : list string) : list opcode :=
  opcodes_from 0 0 (get_matching_blocks a b).

(** The fix-up of the first and of the last opcode in [get_grouped_opcodes] *)
Definition trim_first (n : nat) (codes : list opcode) : list opcode :=
  match codes with
  | Op Equal i1 i2 j1 j2 :: rest =>
      Op Equal (Nat.max i1 (i2 - n)) i2 (Nat.max j1 (j2 - n)) j2 :: rest
  | _ => codes
  end.

Fixpoint trim_last (n : nat) (codes : list opcode) : list opcode :=
  match codes with
  | [] => []
  | [Op Equal i1 i2 j1 j2] => [Op Equal i1 (Nat.min i2 (i1 + n)) j1 (Nat.min j2 (j1 + n))]
  | c :: rest => c :: trim_last n rest
  end.

(** The loop of [get_grouped_opcodes]: [group] is the group being built. *)
Fixpoint group_codes (n : nat) (group : list opcode) (codes : list opcode)
  : list (list opcode) :=
  match codes with
  | [] =>
      match group with
      | [] => []
      | [Op Equal _ _ _ _] => []
      | _ => [group]
      end
  | Op tag i1 i2 j1 j2 :: rest =>
      match tag with
      | Equal =>
          if (n + n <? i2 - i1)%nat
          then (group ++ [Op tag i1 (Nat.min i2 (i1 + n)) j1 (Nat.min j2 (j1 + n))])
                 :: group_codes n [Op tag (Nat.max i1 (i2 - n)) i2 (Nat.max j1 (j2 - n)) j2]
                      rest
          else group_codes n (group ++ [Op tag i1 i2 j1 j2]) rest
      | _ => group_codes n (group ++ [Op tag i1 i2 j1 j2]) rest
      end
  end.

Definition grouped_opcodes (a b : list string) (n : nat) : list (list opcode) :=
  let codes := match get_opcodes a b with
               | [] => [Op Equal 0 1 0 1]
               | codes => codes
               end in
  group_codes n [] (trim_last n (trim_first n codes)).

#[export] Instance matcher : SequenceMatcher := {| get_grouped_opcodes := grouped_opcodes |}.

End Matcher.

(** * The vocabulary of the statements *)

Section FixOrder.

Import DiffGenerator.

(** The order of the output: line numbers do not increase. *)
Definition line_ge (f g : CodeFix) : Prop := (line_number g <= line_number f)%Z.

End FixOrder.

Section Keywords.

Import DiffGenerator.

(** The keywords of [_generate_auto_fix], none of which the description
    holds. *)
Definition no_heuristic_keyword (description : string) : Prop :=
  PyStr.contains "indentation" (PyStr.lower description) = false
  /\ PyStr.contains "space" (PyStr.lower description) = false
  /\ PyStr.contains "import" (PyStr.lower description) = false
  /\ PyStr.contains "line too long" (PyStr.lower description) = false
  /\ PyStr.contains "naming" (PyStr.lower description) = false
  /\ PyStr.contains "convention" (PyStr.lower description) = false.

End Keywords.

Section Counters.

Import WorkerAgent MasterOrchestrator.

(** The number of files the counters account for *)
Definition files_done (s : AnalysisSession) : nat :=
  (processed_files s + failed_files s)%nat.

End Counters.

Section BulletLines.

Import WorkerAgent.

(** A bullet line, after [strip] *)
Definition is_bullet (line : string) : bool :=
  PyStr.startswith "- " (PyStr.strip line) || PyStr.startswith "* " (PyStr.strip line).

(** The last step of the manual extraction: the pending record is added. *)
Definition flush (st : list pyval * gmap string pyval) : list pyval :=
  if dict_truthy st.2 then (st.1 ++ [PDict st.2])%list else st.1.

End BulletLines.

Section DiffLines.

Import GitManager.

(** A line of a diff text that does not open a hunk *)
Definition no_hunk_marker (line : string) : Prop := PyStr.startswith "@@" line = false.

(** A line of [splitlines(keepends=True)]: a line feed can only be its last
    character. *)
Definition linefeed_last (l : string) : Prop :=
  exists l0 : string,
    PyStr.find_char PyStr.LF l0 = None /\ (l = l0 \/ l = l0 ++ PyStr.nl).

(** A line of a hunk: a first character that is neither a line feed nor the
    hunk marker, then a line of the file. *)
Definition hunk_body_line (l : string) : Prop :=
  exists (c : ascii) (r : string),
    l = String c r /\ Ascii.eqb c "@" = false /\ Ascii.eqb c PyStr.LF = false
    /\ linefeed_last r.

(** The start of a diff line: no line feed, and a first character that is
    not the hunk marker. *)
Definition line_start (h : string) : Prop :=
  PyStr.find_char PyStr.LF h = None
  /\ exists (c : ascii) (r : string), h = String c r /\ Ascii.eqb c "@" = false.

End DiffLines.

Section OneHunkDiffs.

Import GitManager.

(** No white space and no [@]: the characters of a line range *)
Fixpoint plain (s : string) : bool :=
  match s with
  | EmptyString => true
  | String c s' => negb (PyStr.is_space c) && negb (Ascii.eqb c "@") && plain s'
  end.

(** A line of a hunk as [_parse_diff_content] accepts it: it starts with
    [+], [-] or a blank, and is no file header. *)
Definition hunk_line (line : string) : bool :=
  (PyStr.startswith "+" line || PyStr.startswith "-" line || PyStr.startswith " " line)
  && negb (PyStr.startswith "--- " line) && negb (PyStr.startswith "+++ " line).

(** A diff of one file and one hunk, every line on a line of its own *)
Definition one_hunk_diff (path old new : string) (body : list string) : string :=
  PyStr.join PyStr.nl
    (("--- a/" ++ path) :: ("+++ b/" ++ path)
     :: ("@@ -" ++ old ++ " +" ++ new ++ " @@") :: body).

End OneHunkDiffs.

Section Outcomes.

Import WorkerAgent MasterOrchestrator.

(** The outcomes of the tasks of a batch, in the order of its files *)
Definition batch_outcomes (env : Env) (n_workers : nat) (batch_files : list string)
  : list TaskOutcome :=
  imap (fun j file_path => run_task env (Nat.modulo j n_workers) file_path) batch_files.

(** A task that returned a successful result *)
Definition succeeded (outcome : TaskOutcome) : bool :=
  match outcome with
  | TaskResult r => success r
  | TaskException | TaskCancelled => false
  end.

(** The result of a task that returned *)
Definition returned (outcome : TaskOutcome) : option WorkerResult :=
  match outcome with
  | TaskResult r => Some r
  | TaskException | TaskCancelled => None
  end.

End Outcomes.

Section DiffFileOrigin.

Import DiffGenerator WorkerAgent DiffFiles.
Context {RE : PyRe} {matcher : Difflib.SequenceMatcher} {host : Host}.
Context {JSON : PyJson} {collaborators : Collaborators}.


End DiffFileOrigin.

Section LineEndTerms.

Import GitManager.

(** The number of line feeds of a text *)
Fixpoint line_feeds (s : string) : nat :=
  match s with
  | EmptyString => 0
  | String a s' => (if Ascii.eqb a PyStr.LF then 1 else 0) + line_feeds s'
  end.

(** The hunks of a parse state hold no line feed *)
Definition hunks_without_linefeed (hunks : list Hunk) : Prop :=
  Forall (fun hunk => Forall (fun line => PyStr.find_char PyStr.LF line = None)
                             (hunk_lines hunk)) hunks.

End LineEndTerms.

(** * Concrete inputs

    The inputs of the runs at the end of the file. *)

(** A violation with a suggested fix, as the model returns it. *)
Definition suggested (line : Z) (replacement : string) : pyval :=
  PDict (<["line_number" := PInt line]> (<["suggested_fix" := PStr replacement]> ∅)).

(** The fix that the synthesizer builds from [suggested line replacement]
    when [original] is the text of the line. *)
Definition suggested_fix_of (line : Z) (original replacement : string)
  : DiffGenerator.CodeFix :=
  {| DiffGenerator.file_path := "t.py"; DiffGenerator.line_number := line;
     DiffGenerator.column_number := PNone; DiffGenerator.original_code := original;
     DiffGenerator.fixed_code := replacement;
     DiffGenerator.violation_description := PStr "";
     DiffGenerator.rule_id := PStr "unknown";
     DiffGenerator.confidence_score := PFloat 0%float |}.

(** A violation without a suggested fix, with problematic code and a
    description that names no heuristic. *)
Definition undocumented : gmap string pyval :=
  <["line_number" := PInt 1]>
  (<["problematic_code" := PStr "x = 1"]>
  (<["violation_description" := PStr "Missing docstring"]> ∅)).

(** A worker result for [path] *)
Definition result_for (path : string) (ok : bool) : WorkerAgent.WorkerResult :=
  {| WorkerAgent.worker_id := "worker_01"; WorkerAgent.file_path := path;
     WorkerAgent.success := ok; WorkerAgent.violations := PList [];
     WorkerAgent.error_message :=
       if ok then None else Some "Worker processing failed: unreadable" |}.

(** A run whose session store cannot be written when the file records are
    created: four workers, batches of ten. *)
Definition store_unreachable : MasterOrchestrator.Env :=
  {| MasterOrchestrator.max_workers := 4;
     MasterOrchestrator.batch_size := 10;
     MasterOrchestrator.create_file_analysis_records_ok := false;
     MasterOrchestrator.worker_initialize_ok := fun _ => true;
     MasterOrchestrator.run_task :=
       fun _ path => MasterOrchestrator.TaskResult (result_for path true) |}.

(** A run of three files in batches of two with two workers: one file is
    analysed, one fails in the worker, one task raises. *)
Definition mixed_run : MasterOrchestrator.Env :=
  {| MasterOrchestrator.max_workers := 2;
     MasterOrchestrator.batch_size := 2;
     MasterOrchestrator.create_file_analysis_records_ok := true;
     MasterOrchestrator.worker_initialize_ok := fun _ => true;
     MasterOrchestrator.run_task :=
       fun _ path =>
         if String.eqb path "a.py"
         then MasterOrchestrator.TaskResult (result_for path true)
         else if String.eqb path "b.py"
         then MasterOrchestrator.TaskResult (result_for path false)
         else MasterOrchestrator.TaskException |}.

(** A working tree with one file in which the line [a] occurs twice. *)
Definition tree_with_repeated_line : gmap string string :=
  <["f.py" := "a" ++ PyStr.nl ++ "b" ++ PyStr.nl ++ "a" ++ PyStr.nl]> ∅.

(** A run in which the task of every file but [a.py] is cancelled *)
Definition cancelled_run : MasterOrchestrator.Env :=
  {| MasterOrchestrator.max_workers := 2;
     MasterOrchestrator.batch_size := 2;
     MasterOrchestrator.create_file_analysis_records_ok := true;
     MasterOrchestrator.worker_initialize_ok := fun _ => true;
     MasterOrchestrator.run_task :=
       fun _ path =>
         if String.eqb path "a.py"
         then MasterOrchestrator.TaskResult (result_for path true)
         else MasterOrchestrator.TaskCancelled |}.

(** A file system on which every file that exists is read and written
    without an exception, and one whose files are read-only. *)
Definition full_access : GitManager.FileAccess :=
  {| GitManager.readable := fun _ => true; GitManager.writable := fun _ => true |}.

Definition read_only : GitManager.FileAccess :=
  {| GitManager.readable := fun _ => true; GitManager.writable := fun _ => false |}.

(** The texts of [test_generate_unified_diff] *)
Definition original_text : string :=
  "line 1" ++ PyStr.nl ++ "line 2" ++ PyStr.nl ++ "line 3".

Definition modified_text : string :=
  "line 1" ++ PyStr.nl ++ "modified line 2" ++ PyStr.nl ++ "line 3".

(** Two retrieved rules *)
Definition rule_naming : WorkerAgent.RelevantRule :=
  {| WorkerAgent.rule_id := "PEP8-N806"; WorkerAgent.title := "Variable names";
     WorkerAgent.description := "Use snake_case"; WorkerAgent.category := "naming";
     WorkerAgent.severity := "low"; WorkerAgent.similarity := 0.8%float;
     WorkerAgent.context := None |}.

Definition rule_spacing : WorkerAgent.RelevantRule :=
  {| WorkerAgent.rule_id := "PEP8-E225"; WorkerAgent.title := "Operator spacing";
     WorkerAgent.description := "Surround operators with spaces";
     WorkerAgent.category := "style"; WorkerAgent.severity := "medium";
     WorkerAgent.similarity := 0.9%float; WorkerAgent.context := None |}.

(** Collaborators whose model invocation always raises: every file parses,
    and retrieval returns the two rules. *)
Definition model_down : WorkerAgent.Collaborators :=
  {| WorkerAgent.CodeAnalysis := string;
     WorkerAgent.parse_file := fun path => inr path;
     WorkerAgent.generate_analysis_context := fun _ =>
       inr {| WorkerAgent.relevant_rules := [rule_naming; rule_spacing];
              WorkerAgent.analysis_prompt := "Analyse the file" |};
     WorkerAgent.ainvoke := fun _ => inl "timeout" |}.

(** The double quote *)
Definition dq : string := String "034" "".

(** An answer of the model: one violation on line 1, with a suggested fix *)
Definition answer : string :=
  "Here is the analysis: {" ++ dq ++ "violations" ++ dq ++ ": [{" ++ dq ++ "line_number"
  ++ dq ++ ": 1, " ++ dq ++ "suggested_fix" ++ dq ++ ": " ++ dq ++ "x = 1" ++ dq
  ++ "}]} - one issue".

(** A run whose batch size is negative *)
Definition negative_batches : MasterOrchestrator.Env :=
  {| MasterOrchestrator.max_workers := 4;
     MasterOrchestrator.batch_size := (-1)%Z;
     MasterOrchestrator.create_file_analysis_records_ok := true;
     MasterOrchestrator.worker_initialize_ok := fun _ => true;
     MasterOrchestrator.run_task :=
       fun _ path => MasterOrchestrator.TaskResult (result_for path true) |}.

(** A run in which every task is a call of [process_file], with a model that
    is down *)
Definition worker_run : MasterOrchestrator.Env :=
  {| MasterOrchestrator.max_workers := 2;
     MasterOrchestrator.batch_size := 2;
     MasterOrchestrator.create_file_analysis_records_ok := true;
     MasterOrchestrator.worker_initialize_ok := fun _ => true;
     MasterOrchestrator.run_task :=
       fun i path =>
         MasterOrchestrator.TaskResult
           (WorkerAgent.process_file (JSON := Json.decoder) (collaborators := model_down)
              (MasterOrchestrator.worker_name i) path) |}.

(** A host on which every file can be written: names without directories,
    and an empty metadata object. *)
Definition plain_host : DiffFiles.Host :=
  {| DiffFiles.path_name := fun p => p;
     DiffFiles.path_join := fun d name => d ++ "/" ++ name;
     DiffFiles.with_suffix := fun p suffix => PyStr.take (String.length p - 5) p ++ suffix;
     DiffFiles.writable := fun _ => true;
     DiffFiles.metadata_text := fun _ => "{}" |}.

(** Collaborators whose model gives [answer] *)
Definition model_answers : WorkerAgent.Collaborators :=
  {| WorkerAgent.CodeAnalysis := string;
     WorkerAgent.parse_file := fun path => inr path;
     WorkerAgent.generate_analysis_context := fun _ =>
       inr {| WorkerAgent.relevant_rules := [rule_naming; rule_spacing];
              WorkerAgent.analysis_prompt := "Analyse the file" |};
     WorkerAgent.ainvoke := fun _ => inr answer |}.

(** A file system with one source file *)
Definition sources : gmap string string := <["a.py" := "x=1" ++ PyStr.nl ++ "y = 2"]> ∅.

(** * Properties *)

(** ** Strings *)

Section StringFacts.

Import PyStr.

Lemma split_char_nonempty (c : ascii) (s : string) : split_char c s <> [].
Proof.
  destruct s as [|a s]; simpl; [discriminate|].
  destruct (Ascii.eqb a c); [discriminate|].
  destruct (split_char c s); discriminate.
Qed.

Lemma split_char_no_sep (c : ascii) (s : string) :
  find_char c s = None -> split_char c s = [s].
Proof.
  induction s as [|a s IH]; simpl; [reflexivity|].
  destruct (Ascii.eqb a c); [discriminate|].
  destruct (find_char c s); [discriminate|].
  intros _. rewrite IH; reflexivity.
Qed.

Lemma split_char_app (c : ascii) (s t : string) :
  find_char c s = None ->
  split_char c (s ++ String c t) = s :: split_char c t.
Proof.
  induction s as [|a s IH]; simpl.
  - intros _. rewrite Ascii.eqb_refl. reflexivity.
  - destruct (Ascii.eqb a c); [discriminate|].
    destruct (find_char c s); [discriminate|].
    intros _. rewrite IH; reflexivity.
Qed.

(** Splitting a joined list of lines gives the lines back, when no line
    holds a line feed. *)
Lemma split_join_lines (ls : list string) :
  ls <> [] ->
  Forall (fun l => find_char LF l = None) ls ->
  split_char LF (join nl ls) = ls.
Proof.
  induction ls as [|l ls IH]; [congruence|].
  intros _ Hall. inversion Hall as [|? ? Hl Hls]; subst.
  destruct ls as [|l' ls].
  - simpl. apply split_char_no_sep; assumption.
  - change (join nl (l :: l' :: ls)) with (l ++ String LF (join nl (l' :: ls))).
    rewrite split_char_app by assumption.
    rewrite IH; [reflexivity|discriminate|assumption].
Qed.

Lemma app_cons_string (a : ascii) (s t : string) : String a s ++ t = String a (s ++ t).
Proof. reflexivity. Qed.

Lemma join_cons_cons (sep x y : string) (l : list string) :
  PyStr.join sep (x :: y :: l) = x ++ sep ++ PyStr.join sep (y :: l).
Proof. reflexivity. Qed.

(** [split] then [join] gives the text back. *)
Lemma join_split_char (s : string) :
  PyStr.join PyStr.nl (PyStr.split_char PyStr.LF s) = s.
Proof.
  induction s as [|a s IH]; [reflexivity|].
  cbn [PyStr.split_char]. destruct (Ascii.eqb a PyStr.LF) eqn:Ha.
  - apply Ascii.eqb_eq in Ha. subst a.
    destruct (PyStr.split_char PyStr.LF s) as [|h t] eqn:Hs;
      [exfalso; exact (split_char_nonempty _ _ Hs)|].
    rewrite join_cons_cons, IH. reflexivity.
  - destruct (PyStr.split_char PyStr.LF s) as [|h t] eqn:Hs;
      [exfalso; exact (split_char_nonempty _ _ Hs)|].
    destruct t as [|h' t].
    + simpl in IH. subst s. reflexivity.
    + rewrite join_cons_cons in *. rewrite <- IH. reflexivity.
Qed.

Lemma rstrip_idempotent (s : string) : PyStr.rstrip (PyStr.rstrip s) = PyStr.rstrip s.
Proof.
  induction s as [|c s IH]; [reflexivity|].
  cbn [PyStr.rstrip]. destruct (PyStr.rstrip s) as [|a r] eqn:Hr.
  - destruct (PyStr.is_space c) eqn:Hc; [reflexivity|].
    cbn [PyStr.rstrip]. rewrite Hc. reflexivity.
  - change (PyStr.rstrip (String c (String a r)))
      with (match PyStr.rstrip (String a r) with
            | EmptyString =>
                if PyStr.is_space c then EmptyString else String c EmptyString
            | String a' r' => String c (String a' r')
            end).
    rewrite IH. reflexivity.
Qed.

(** A line feed at the end is white space for [rstrip]. *)
Lemma rstrip_app_linefeed (s : string) : PyStr.rstrip (s ++ PyStr.nl) = PyStr.rstrip s.
Proof.
  induction s as [|c s IH]; [reflexivity|].
  rewrite app_cons_string. cbn [PyStr.rstrip]. rewrite IH. reflexivity.
Qed.

End StringFacts.

(** ** The fix synthesizer and the application of fixes *)

Section DiffGeneratorFacts.

Import DiffGenerator.
Context {RE : PyRe}.

Lemma insert_desc_perm (x : CodeFix) (l : list CodeFix) :
  Permutation (insert_desc x l) (x :: l).
Proof.
  induction l as [|y l IH]; simpl; [reflexivity|].
  destruct (line_number y <=? line_number x)%Z; [reflexivity|].
  rewrite IH. apply perm_swap.
Qed.

Lemma sort_desc_perm (l : list CodeFix) : Permutation (sort_desc l) l.
Proof.
  induction l as [|x l IH]; simpl; [reflexivity|].
  rewrite insert_desc_perm, IH. reflexivity.
Qed.

Lemma insert_desc_hd (x a : CodeFix) (l : list CodeFix) :
  line_ge a x -> HdRel line_ge a l -> HdRel line_ge a (insert_desc x l).
Proof.
  intros Hax Hal. destruct l as [|y l]; simpl.
  - constructor; assumption.
  - destruct (line_number y <=? line_number x)%Z; constructor; try assumption.
    inversion Hal; assumption.
Qed.

Lemma insert_desc_sorted (x : CodeFix) (l : list CodeFix) :
  Sorted line_ge l -> Sorted line_ge (insert_desc x l).
Proof.
  induction l as [|y l IH]; simpl; intros Hs.
  - repeat constructor.
  - inversion Hs as [|? ? Hl Hhd]; subst.
    destruct (Z.leb_spec (line_number y) (line_number x)).
    + constructor; [assumption|]. constructor. assumption.
    + constructor; [apply IH; assumption|].
      apply insert_desc_hd; [unfold line_ge; lia|assumption].
Qed.

Lemma sort_desc_sorted (l : list CodeFix) : Sorted line_ge (sort_desc l).
Proof.
  induction l as [|x l IH]; simpl; [constructor|].
  apply insert_desc_sorted; assumption.
Qed.

Lemma line_ge_transitive : Relations_1.Transitive line_ge.
Proof. intros f g h. unfold line_ge. lia. Qed.

(** The sort is stable: the fixes of one line keep their order. *)
Lemma insert_desc_stable (n : Z) (x : CodeFix) (l : list CodeFix) :
  filter (fun f => line_number f = n) (insert_desc x l)
  = filter (fun f => line_number f = n) (x :: l).
Proof.
  induction l as [|y l IH]; simpl; [reflexivity|].
  destruct (Z.leb_spec (line_number y) (line_number x)); [reflexivity|].
  rewrite (filter_cons _ y (insert_desc x l)), IH.
  rewrite !filter_cons.
  repeat case_decide; try reflexivity; lia.
Qed.

Lemma sort_desc_stable (n : Z) (l : list CodeFix) :
  filter (fun f => line_number f = n) (sort_desc l)
  = filter (fun f => line_number f = n) l.
Proof.
  induction l as [|x l IH]; simpl; [reflexivity|].
  rewrite insert_desc_stable, !filter_cons, IH. reflexivity.
Qed.

(** What a created fix holds. *)
Lemma create_fix_some (violation : pyval) (lines : list string) (path : string)
    (f : CodeFix) :
  _create_fix_from_violation violation lines path = Some f ->
  (1 <= line_number f <= Z.of_nat (length lines))%Z
  /\ lines !! Z.to_nat (line_number f - 1) = Some (original_code f)
  /\ file_path f = path
  /\ fixed_code f <> EmptyString.
Proof.
  unfold _create_fix_from_violation, create_fix_body, try_except, bind, as_dict.
  intros Hc.
  repeat (case_match; simplify_eq; try discriminate);
    simpl; repeat split; try lia; try assumption; try discriminate.
Qed.

Lemma synthesized_in_range (path : string) (violations : list pyval) (content : string) :
  Forall (fun f => (1 <= line_number f
                    <= Z.of_nat (length (PyStr.split_char PyStr.LF content)))%Z)
         (_parse_violations_to_fixes path violations content).
Proof.
  unfold _parse_violations_to_fixes.
  eapply Permutation_Forall; [symmetry; apply sort_desc_perm|].
  apply Forall_forall. intros f Hin.
  apply list_elem_of_omap in Hin.
  destruct Hin as (v & _ & Hv).
  apply create_fix_some in Hv. tauto.
Qed.

(** Applying fixes, on the list of lines. *)
Lemma length_apply_fix (lines : list string) (f : CodeFix) :
  length (apply_fix lines f) = length lines.
Proof. unfold apply_fix. case_match; [apply length_insert|reflexivity]. Qed.

Lemma length_apply_fixes_lines (fixes : list CodeFix) (lines : list string) :
  length (apply_fixes_lines lines fixes) = length lines.
Proof.
  unfold apply_fixes_lines. revert lines.
  induction fixes as [|f fixes IH]; intros lines; simpl; [reflexivity|].
  rewrite IH. apply length_apply_fix.
Qed.

Lemma apply_fixes_lines_snoc (lines : list string) (fixes : list CodeFix) (f : CodeFix) :
  apply_fixes_lines lines (fixes ++ [f]) = apply_fix (apply_fixes_lines lines fixes) f.
Proof. unfold apply_fixes_lines. rewrite fold_left_app. reflexivity. Qed.

Lemma apply_fix_other (lines : list string) (f : CodeFix) (i : nat) :
  line_number f <> (Z.of_nat i + 1)%Z ->
  apply_fix lines f !! i = lines !! i.
Proof.
  intros Hne. unfold apply_fix. case_match; [|reflexivity].
  apply list_lookup_insert_ne. lia.
Qed.

Lemma apply_fix_target (lines : list string) (f : CodeFix) (i : nat) :
  line_number f = (Z.of_nat i + 1)%Z -> (i < length lines)%nat ->
  apply_fix lines f !! i = Some (PyStr.rstrip (fixed_code f)).
Proof.
  intros Heq Hlt. unfold apply_fix.
  replace (Z.to_nat (line_number f - 1)) with i by lia.
  case_match eqn:Hg.
  - apply list_lookup_insert_eq. assumption.
  - apply andb_false_iff in Hg. destruct Hg as [Hg|Hg];
      [apply Z.leb_gt in Hg|apply Z.leb_gt in Hg]; lia.
Qed.

(** A line that no fix targets is unchanged. *)
Lemma apply_fixes_lines_other (fixes : list CodeFix) (lines : list string) (i : nat) :
  Forall (fun f => line_number f <> (Z.of_nat i + 1)%Z) fixes ->
  apply_fixes_lines lines fixes !! i = lines !! i.
Proof.
  induction fixes as [|f fixes IH] using rev_ind; intros Hall; [reflexivity|].
  apply Forall_app in Hall. destruct Hall as [Hfixes Hf].
  inversion Hf; subst.
  rewrite apply_fixes_lines_snoc, apply_fix_other by assumption.
  apply IH; assumption.
Qed.

(** A targeted line holds the replacement of the last fix that targets
    it. *)
Lemma apply_fixes_lines_last (fixes : list CodeFix) (lines : list string) (i : nat)
    (f : CodeFix) :
  (i < length lines)%nat ->
  last (filter (fun g => line_number g = (Z.of_nat i + 1)%Z) fixes) = Some f ->
  apply_fixes_lines lines fixes !! i = Some (PyStr.rstrip (fixed_code f)).
Proof.
  intros Hlt.
  induction fixes as [|g fixes IH] using rev_ind; [discriminate|].
  rewrite filter_app, filter_cons, filter_nil, apply_fixes_lines_snoc.
  case_decide as Hg.
  - rewrite last_snoc. intros [= ->].
    apply apply_fix_target; [assumption|].
    rewrite length_apply_fixes_lines. assumption.
  - rewrite app_nil_r. intros Hlast.
    rewrite apply_fix_other by assumption. apply IH; assumption.
Qed.

End DiffGeneratorFacts.

Section FixSynthesizer.

Import DiffGenerator.
Context {RE : PyRe}.

(** C8: for every violation list and file content, the fixes that
    [_parse_violations_to_fixes] returns are sorted by non-increasing line
    number: every fix is followed only by fixes whose line number is not
    greater. *)
Theorem C8_fixes_sorted_by_descending_line (path : string) (violations : list pyval)
    (content : string) :
  StronglySorted (fun f g => (line_number g <= line_number f)%Z)
                 (_parse_violations_to_fixes path violations content).
Proof.
  unfold _parse_violations_to_fixes.
  apply (Sorted_StronglySorted line_ge_transitive).
  apply sort_desc_sorted.
Qed.

(** C9: a violation whose line number is null (or absent), zero (or any
    integer below one), or greater than the number of lines yields no fix:
    the body of [_create_fix_from_violation] returns [None] without raising,
    so does the function, and the violation adds nothing to the output of
    [_parse_violations_to_fixes]. *)
Theorem C9_out_of_range_violation_dropped (d : gmap string pyval) (path content : string)
    (before after : list pyval) :
  dict_get d "line_number" PNone = PNone
  \/ (exists z : Z, int_value (dict_get d "line_number" PNone) = Some z
        /\ (z < 1 \/ Z.of_nat (length (PyStr.split_char PyStr.LF content)) < z)%Z) ->
  create_fix_body (PDict d) (PyStr.split_char PyStr.LF content) path = Ok None
  /\ _create_fix_from_violation (PDict d) (PyStr.split_char PyStr.LF content) path = None
  /\ _parse_violations_to_fixes path (before ++ PDict d :: after) content
     = _parse_violations_to_fixes path (before ++ after) content.
Proof.
  intros Hline.
  assert (Hbody : create_fix_body (PDict d) (PyStr.split_char PyStr.LF content) path
                  = Ok None).
  { unfold create_fix_body, as_dict, bind. cbv zeta.
    destruct Hline as [-> | (z & Hint & Hz)]; [reflexivity|].
    rewrite Hint.
    destruct (is_none (dict_get d "line_number" PNone)); [reflexivity|].
    assert (Hrange : (z <? 1)%Z
                     || (z >? Z.of_nat (length (PyStr.split_char PyStr.LF content)))%Z
                     = true).
    { apply orb_true_iff. destruct Hz as [Hz|Hz]; [left|right].
      - apply Z.ltb_lt. assumption.
      - apply Z.gtb_lt. assumption. }
    rewrite Hrange. reflexivity. }
  assert (Hnone : _create_fix_from_violation (PDict d)
                    (PyStr.split_char PyStr.LF content) path = None).
  { unfold _create_fix_from_violation. rewrite Hbody. reflexivity. }
  repeat split; try assumption.
  unfold _parse_violations_to_fixes.
  rewrite !omap_app. simpl. rewrite Hnone. reflexivity.
Qed.

End FixSynthesizer.

Section PatchApplication.

Import DiffGenerator.

Lemma split_char_parts_no_sep (c : ascii) (s : string) :
  Forall (fun l => PyStr.find_char c l = None) (PyStr.split_char c s).
Proof.
  induction s as [|a s IH]; simpl.
  - repeat constructor.
  - destruct (Ascii.eqb a c) eqn:Hac.
    + constructor; [reflexivity|assumption].
    + destruct (PyStr.split_char c s) as [|h t]; inversion IH; subst.
      * repeat constructor. simpl. rewrite Hac. reflexivity.
      * constructor; [|assumption]. simpl. rewrite Hac.
        match goal with Hh : PyStr.find_char c h = None |- _ => rewrite Hh end.
        reflexivity.
Qed.

Lemma apply_fix_no_linefeed (lines : list string) (f : CodeFix) :
  PyStr.find_char PyStr.LF (PyStr.rstrip (fixed_code f)) = None ->
  Forall (fun l => PyStr.find_char PyStr.LF l = None) lines ->
  Forall (fun l => PyStr.find_char PyStr.LF l = None) (apply_fix lines f).
Proof.
  intros Hf Hlines. unfold apply_fix. case_match; [|assumption].
  apply Forall_insert; assumption.
Qed.

Lemma apply_fixes_no_linefeed (fixes : list CodeFix) (lines : list string) :
  Forall (fun f => PyStr.find_char PyStr.LF (PyStr.rstrip (fixed_code f)) = None) fixes ->
  Forall (fun l => PyStr.find_char PyStr.LF l = None) lines ->
  Forall (fun l => PyStr.find_char PyStr.LF l = None) (apply_fixes_lines lines fixes).
Proof.
  unfold apply_fixes_lines. revert lines.
  induction fixes as [|f fixes IH]; intros lines Hfixes Hlines; simpl; [assumption|].
  inversion Hfixes; subst.
  apply IH; [assumption|]. apply apply_fix_no_linefeed; assumption.
Qed.

(** C10: applying a fix list keeps the number of entries of the list of
    lines; an entry that no fix targets is unchanged; an entry that a fix
    targets holds the replacement of the last such fix with its trailing
    white space removed; and when no trimmed replacement holds a line feed,
    the lines of the edited text are exactly these entries, so that the text
    has as many lines as the original. *)
Theorem C10_apply_fixes_overwrites_in_place (content : string) (fixes : list CodeFix) :
  let lines := PyStr.split_char PyStr.LF content in
  length (apply_fixes_lines lines fixes) = length lines
  /\ (forall i : nat,
        Forall (fun f => line_number f <> (Z.of_nat i + 1)%Z) fixes ->
        apply_fixes_lines lines fixes !! i = lines !! i)
  /\ (forall (i : nat) (f : CodeFix),
        (i < length lines)%nat ->
        last (filter (fun g => line_number g = (Z.of_nat i + 1)%Z) fixes) = Some f ->
        apply_fixes_lines lines fixes !! i = Some (PyStr.rstrip (fixed_code f)))
  /\ (Forall (fun f => PyStr.find_char PyStr.LF (PyStr.rstrip (fixed_code f)) = None)
             fixes ->
      PyStr.split_char PyStr.LF (_apply_fixes content fixes)
        = apply_fixes_lines lines fixes
      /\ length (PyStr.split_char PyStr.LF (_apply_fixes content fixes)) = length lines).
Proof.
  intros lines. split; [apply length_apply_fixes_lines|].
  split; [intros i; apply apply_fixes_lines_other|].
  split; [intros i f; apply apply_fixes_lines_last|].
  intros Hfixes.
  assert (Heq : PyStr.split_char PyStr.LF (_apply_fixes content fixes)
                = apply_fixes_lines lines fixes).
  { unfold _apply_fixes. fold lines. apply split_join_lines.
    - intros Hnil. apply (f_equal length) in Hnil.
      rewrite length_apply_fixes_lines in Hnil.
      pose proof (split_char_nonempty PyStr.LF content) as Hne.
      fold lines in Hne. destruct lines; [congruence|discriminate].
    - apply apply_fixes_no_linefeed; [assumption|].
      apply split_char_parts_no_sep. }
  split; [assumption|].
  rewrite Heq. apply length_apply_fixes_lines.
Qed.

End PatchApplication.

Section SameLineAndDefaultFix.

Import DiffGenerator.
Context {RE : PyRe}.

(** C4 (as the code has it): the fixes created for one line all stay in the
    output of [_parse_violations_to_fixes], in the order of their violations;
    after the fixes are applied in output order, that line holds the
    replacement of the last of them, which is the last same-line fix of the
    sorted list. *)
Theorem C4_same_line_last_fix_survives (path : string) (violations : list pyval)
    (content : string) (i : nat) :
  filter (fun f => line_number f = (Z.of_nat i + 1)%Z)
         (_parse_violations_to_fixes path violations content)
  = filter (fun f => line_number f = (Z.of_nat i + 1)%Z)
           (omap (fun v => _create_fix_from_violation v
                             (PyStr.split_char PyStr.LF content) path) violations)
  /\ forall f : CodeFix,
       last (filter (fun f => line_number f = (Z.of_nat i + 1)%Z)
                    (_parse_violations_to_fixes path violations content)) = Some f ->
       apply_fixes_lines (PyStr.split_char PyStr.LF content)
                         (_parse_violations_to_fixes path violations content) !! i
       = Some (PyStr.rstrip (fixed_code f)).
Proof.
  split.
  - unfold _parse_violations_to_fixes. apply sort_desc_stable.
  - intros f Hlast. apply apply_fixes_lines_last; [|assumption].
    assert (Hf : f ∈ filter (fun f => line_number f = (Z.of_nat i + 1)%Z)
                   (_parse_violations_to_fixes path violations content)).
    { apply last_Some_elem_of. assumption. }
    apply list_elem_of_filter in Hf. destruct Hf as [Hline Hin].
    pose proof (synthesized_in_range path violations content) as Hrange.
    rewrite Forall_forall in Hrange. specialize (Hrange f Hin). lia.
Qed.

Lemma find_char_app_sep (c : ascii) (s t : string) :
  PyStr.find_char c (s ++ String c t) <> None.
Proof.
  induction s as [|a s IH]; simpl.
  - rewrite Ascii.eqb_refl. discriminate.
  - destruct (Ascii.eqb a c); [discriminate|].
    destruct (PyStr.find_char c (s ++ String c t)); [discriminate|contradiction].
Qed.

(** C5 (as the code has it): for a violation with a line number in range, an
    empty suggested fix, and a description without any keyword of the
    heuristics.  When the problematic code is empty after [strip()], no fix
    is created.  Otherwise the [fixed_code] of the fix is the original line
    with its trailing white space removed and a line feed appended; it
    differs from [original_code], and the fix is not filtered out: it is the
    output of [_parse_violations_to_fixes] for that violation.  Applied by
    [_apply_fixes], the fix puts the original line without its trailing white
    space in the place of the line, so the text comes back unchanged when the
    line has no trailing white space. *)
Theorem C5_default_auto_fix_is_kept (d : gmap string pyval) (path content : string)
    (n : Z) (original_line suggested problematic_code description : string) :
  int_value (dict_get d "line_number" PNone) = Some n ->
  (1 <= n)%Z ->
  PyStr.split_char PyStr.LF content !! Z.to_nat (n - 1) = Some original_line ->
  dict_get d "suggested_fix" (PStr "") = PStr suggested ->
  PyStr.strip suggested = "" ->
  dict_get d "problematic_code" (PStr "") = PStr problematic_code ->
  dict_get d "violation_description" (PStr "") = PStr description ->
  no_heuristic_keyword description ->
  let fx := {| file_path := path;
               line_number := n;
               column_number := dict_get d "column_number" PNone;
               original_code := original_line;
               fixed_code := PyStr.rstrip original_line ++ PyStr.nl;
               violation_description := PStr description;
               rule_id := dict_get d "rule_id" (PStr "unknown");
               confidence_score := dict_get d "confidence_score" (PFloat 0%float) |} in
  (PyStr.strip problematic_code = "" ->
   _create_fix_from_violation (PDict d) (PyStr.split_char PyStr.LF content) path = None
   /\ _parse_violations_to_fixes path [PDict d] content = [])
  /\ (PyStr.strip problematic_code <> "" ->
      _generate_auto_fix original_line (PyStr.strip problematic_code) (PStr description)
        = PyStr.rstrip original_line ++ PyStr.nl
      /\ _create_fix_from_violation (PDict d) (PyStr.split_char PyStr.LF content) path
         = Some fx
      /\ _parse_violations_to_fixes path [PDict d] content = [fx]
      /\ fixed_code fx <> original_code fx
      /\ apply_fixes_lines (PyStr.split_char PyStr.LF content) [fx]
         = <[Z.to_nat (n - 1) := PyStr.rstrip original_line]>
             (PyStr.split_char PyStr.LF content)
      /\ (PyStr.rstrip original_line = original_line ->
          _apply_fixes content [fx] = content)).
Proof.
  intros Hline Hn Horig Hsugg Hstrip Hprob Hdesc Hkw fx.
  destruct Hkw as (K1 & K2 & K3 & K4 & K5 & K6).
  assert (Hauto : _generate_auto_fix original_line (PyStr.strip problematic_code)
                    (PStr description) = PyStr.rstrip original_line ++ PyStr.nl).
  { unfold _generate_auto_fix. rewrite K1, K2, K3, K4, K5, K6. reflexivity. }
  assert (Hlen : (n <= Z.of_nat (length (PyStr.split_char PyStr.LF content)))%Z).
  { apply lookup_lt_Some in Horig. lia. }
  assert (Hnot_none : is_none (dict_get d "line_number" PNone) = false).
  { destruct (dict_get d "line_number" PNone); try reflexivity. discriminate. }
  assert (Hstart : create_fix_body (PDict d) (PyStr.split_char PyStr.LF content) path
            = match PyStr.strip problematic_code with
              | EmptyString => Ok None
              | _ =>
                  match _generate_auto_fix original_line
                          (PyStr.strip problematic_code) (PStr description) with
                  | EmptyString => Ok None
                  | _ =>
                      Ok (Some {| file_path := path;
                                  line_number := n;
                                  column_number := dict_get d "column_number" PNone;
                                  original_code := original_line;
                                  fixed_code :=
                                    _generate_auto_fix original_line
                                      (PyStr.strip problematic_code) (PStr description);
                                  violation_description := PStr description;
                                  rule_id := dict_get d "rule_id" (PStr "unknown");
                                  confidence_score :=
                                    dict_get d "confidence_score" (PFloat 0%float) |})
                  end
              end).
  { unfold create_fix_body, as_dict, bind. cbv zeta. rewrite Hline, Hnot_none.
    destruct (Z.ltb_spec n 1); [lia|].
    destruct (Z.gtb_spec n (Z.of_nat (length (PyStr.split_char PyStr.LF content))));
      [lia|].
    simpl. rewrite Horig, Hsugg. simpl. rewrite Hstrip, Hprob. simpl.
    rewrite Hdesc.
    destruct (PyStr.strip problematic_code); reflexivity. }
  split.
  - intros Hempty. rewrite Hempty in Hstart.
    assert (Hcreate : _create_fix_from_violation (PDict d)
                        (PyStr.split_char PyStr.LF content) path = None).
    { unfold _create_fix_from_violation. rewrite Hstart. reflexivity. }
    split; [assumption|].
    unfold _parse_violations_to_fixes. simpl. rewrite Hcreate. reflexivity.
  - intros Hpstrip.
    assert (Hcreate : _create_fix_from_violation (PDict d)
                        (PyStr.split_char PyStr.LF content) path = Some fx).
    { unfold _create_fix_from_violation. rewrite Hstart, Hauto.
      destruct (PyStr.strip problematic_code); [congruence|].
      destruct (PyStr.rstrip original_line ++ PyStr.nl) eqn:Hfixed.
      - destruct (PyStr.rstrip original_line); discriminate.
      - subst fx. rewrite <- Hfixed. reflexivity. }
    assert (Happlied : apply_fixes_lines (PyStr.split_char PyStr.LF content) [fx]
                       = <[Z.to_nat (n - 1) := PyStr.rstrip original_line]>
                           (PyStr.split_char PyStr.LF content)).
    { unfold apply_fixes_lines. cbn [fold_left]. unfold apply_fix.
      cbn [line_number fixed_code fx].
      destruct (Z.leb_spec 1 n); [|lia].
      destruct (Z.leb_spec n (Z.of_nat (length (PyStr.split_char PyStr.LF content))));
        [|lia].
      cbn [andb]. rewrite rstrip_app_linefeed, rstrip_idempotent. reflexivity. }
    split; [assumption|]. split; [assumption|]. split; [|split; [|split]].
    + unfold _parse_violations_to_fixes. simpl. rewrite Hcreate. reflexivity.
    + simpl. intros Heq.
      pose proof (split_char_parts_no_sep PyStr.LF content) as Hno.
      rewrite Forall_forall in Hno.
      assert (Hin : original_line ∈ PyStr.split_char PyStr.LF content).
      { eapply list_elem_of_lookup_2; eassumption. }
      specialize (Hno _ Hin). rewrite <- Heq in Hno.
      exact (find_char_app_sep PyStr.LF (PyStr.rstrip original_line) "" Hno).
    + exact Happlied.
    + intros Hclean. unfold _apply_fixes. cbv zeta. rewrite Happlied, Hclean.
      rewrite list_insert_id by exact Horig. apply join_split_char.
Qed.

End SameLineAndDefaultFix.

(** ** The session counters *)

Section SessionCounters.

Import WorkerAgent MasterOrchestrator.

Lemma count_result_done (st st' : AnalysisSession * list WorkerResult) (r : TaskOutcome) :
  count_result st r = Ok st' ->
  files_done st'.1 = S (files_done st.1)
  /\ total_files st'.1 = total_files st.1.
Proof.
  destruct st as [s rs]. unfold files_done.
  destruct r as [| |r]; simpl; [| discriminate |].
  - intros [= <-]. simpl. split; [lia|reflexivity].
  - destruct (success r); intros [= <-]; simpl; split; try lia; reflexivity.
Qed.

Lemma count_results_done (rs : list TaskOutcome)
    (st st' : AnalysisSession * list WorkerResult) (raised : bool) :
  count_results st rs = (st', raised) ->
  total_files st'.1 = total_files st.1
  /\ (files_done st'.1 <= files_done st.1 + length rs)%nat
  /\ (raised = false -> files_done st'.1 = (files_done st.1 + length rs)%nat).
Proof.
  revert st. induction rs as [|r rs IH]; intros st; cbn [count_results length].
  - intros [= <- <-]. repeat split; lia.
  - destruct (count_result st r) as [st1|] eqn:Hr.
    + intros Hrest. apply count_result_done in Hr. destruct Hr as [Hd Ht].
      destruct (IH _ Hrest) as (Ht' & Hle & Heq).
      repeat split; [congruence|lia|]. intros Hraised. specialize (Heq Hraised). lia.
    + intros [= <- <-]. repeat split; [lia|discriminate].
Qed.

Lemma process_batch_done (env : Env) (n_workers : nat)
    (st st' : AnalysisSession * list WorkerResult) (batch_files : list string)
    (raised : bool) :
  process_batch env n_workers st batch_files = (st', raised) ->
  total_files st'.1 = total_files st.1
  /\ (files_done st'.1 <= files_done st.1 + length batch_files)%nat
  /\ (raised = false ->
      files_done st'.1 = (files_done st.1 + length batch_files)%nat).
Proof.
  unfold process_batch. intros Hb.
  assert (Hcases : (st', raised) = (st, true)
                   \/ count_results st
                        (imap (fun j file_path =>
                                 run_task env (Nat.modulo j n_workers) file_path)
                              batch_files) = (st', raised)).
  { destruct batch_files, n_workers; auto. }
  destruct Hcases as [[= -> ->]|Hcount].
  - repeat split; [lia|discriminate].
  - apply count_results_done in Hcount. rewrite length_imap in Hcount. exact Hcount.
Qed.

Lemma process_batches_done (env : Env) (n_workers : nat) (batches : list (list string))
    (st st' : AnalysisSession * list WorkerResult) (raised : bool) :
  process_batches env n_workers st batches = (st', raised) ->
  total_files st'.1 = total_files st.1
  /\ (files_done st'.1 <= files_done st.1 + length (concat batches))%nat
  /\ (raised = false ->
      files_done st'.1 = (files_done st.1 + length (concat batches))%nat).
Proof.
  revert st. induction batches as [|b batches IH]; intros st; simpl.
  - intros [= <- <-]. repeat split; lia.
  - destruct (process_batch env n_workers st b) as [st1 [|]] eqn:Hb;
      apply process_batch_done in Hb; destruct Hb as (Ht & Hle & Heq).
    + intros [= <- <-]. rewrite length_app. repeat split; [assumption|lia|discriminate].
    + intros Hrest. specialize (Heq eq_refl).
      destruct (IH _ Hrest) as (Ht' & Hle' & Heq').
      rewrite length_app. repeat split; [congruence|lia|].
      intros Hr. specialize (Heq' Hr). lia.
Qed.

(** The batches of a positive batch size are the file list, cut up. *)
Lemma concat_batches_from (file_paths : list string) (b fuel i : nat) :
  (0 < b)%nat -> (length file_paths - i <= fuel)%nat ->
  concat (map (fun i => take b (drop i file_paths))
              (range_from fuel i (length file_paths) b))
  = drop i file_paths.
Proof.
  intros Hb. revert i. induction fuel as [|fuel IH]; intros i Hfuel; simpl.
  - rewrite drop_ge by lia. reflexivity.
  - destruct (Nat.ltb_spec i (length file_paths)).
    + simpl. rewrite IH by lia.
      rewrite <- drop_drop. apply take_drop.
    + rewrite drop_ge by lia. reflexivity.
Qed.

Lemma batches_of_concat (env : Env) (file_paths : list string)
    (batches : list (list string)) :
  (0 < batch_size env)%Z ->
  batches_of env file_paths = Ok batches ->
  concat batches = file_paths.
Proof.
  intros Hpos. unfold batches_of, py_range, batch_at.
  destruct (Z.eqb_spec (batch_size env) 0); [lia|].
  destruct (Z.ltb_spec (batch_size env) 0); [lia|].
  simpl. intros [= <-].
  rewrite (concat_batches_from file_paths (Z.to_nat (batch_size env))) by lia.
  reflexivity.
Qed.

(** C1 (as the code has it): in a run of [_process_files] on a session whose
    counters are zero and whose [total_files] is the number of file paths,
    with a positive batch size: once the first [k] batches have completed,
    [processed_files + failed_files] is the number of files in them;
    [total_files] never changes; the run ends with status [completed] or
    [failed]; with status [completed] the two counters add up to
    [total_files]; with status [failed] they do not exceed it. *)
Theorem C1_session_counters (env : Env) (session : AnalysisSession)
    (file_paths : list string) :
  processed_files session = 0%nat ->
  failed_files session = 0%nat ->
  total_files session = length file_paths ->
  (0 < batch_size env)%Z ->
  (forall (batches : list (list string)) (k : nat)
          (st : AnalysisSession * list WorkerResult),
      batches_of env file_paths = Ok batches ->
      process_batches env (max_workers env) (session, []) (take k batches) = (st, false) ->
      (processed_files st.1 + failed_files st.1)%nat = length (concat (take k batches))
      /\ total_files st.1 = total_files session)
  /\ total_files (_process_files env session file_paths).1 = total_files session
  /\ (status (_process_files env session file_paths).1 = "completed"
      \/ status (_process_files env session file_paths).1 = "failed")
  /\ (status (_process_files env session file_paths).1 = "completed" ->
      (processed_files (_process_files env session file_paths).1
       + failed_files (_process_files env session file_paths).1)%nat
      = total_files (_process_files env session file_paths).1)
  /\ (status (_process_files env session file_paths).1 = "failed" ->
      (processed_files (_process_files env session file_paths).1
       + failed_files (_process_files env session file_paths).1
       <= total_files (_process_files env session file_paths).1)%nat).
Proof.
  intros Hp Hf Htotal Hpos.
  assert (Hzero : files_done session = 0%nat) by (unfold files_done; lia).
  split.
  { intros batches k st _ Hrun.
    apply process_batches_done in Hrun. destruct Hrun as (Ht & _ & Heq).
    specialize (Heq eq_refl). unfold files_done in Heq. simpl in Heq, Ht.
    split; [lia|assumption]. }
  assert (Hbody : exists s rs raised,
             process_files_body env session file_paths = (s, rs, raised)
             /\ total_files s = total_files session
             /\ (files_done s <= length file_paths)%nat
             /\ (raised = false -> files_done s = length file_paths)).
  { unfold process_files_body.
    destruct (create_file_analysis_records_ok env); simpl;
      [|exists session, [], true; repeat split; [lia|discriminate]].
    destruct (forallb (worker_initialize_ok env) (seq 0 (max_workers env))); simpl;
      [|exists session, [], true; repeat split; [lia|discriminate]].
    destruct (batches_of env file_paths) as [batches|] eqn:Hb;
      [|exists session, [], true; repeat split; [lia|discriminate]].
    destruct (process_batches env (max_workers env) (session, []) batches)
      as [[s rs] raised] eqn:Hrun.
    apply process_batches_done in Hrun. destruct Hrun as (Ht & Hle & Heq).
    rewrite (batches_of_concat env file_paths batches Hpos Hb) in Hle, Heq.
    simpl in Ht, Hle, Heq.
    exists s, rs, raised. repeat split; [assumption|lia|].
    intros Hr. specialize (Heq Hr). lia. }
  destruct Hbody as (s & rs & raised & Hbody & Ht & Hle & Heq).
  unfold _process_files. rewrite Hbody.
  unfold files_done in Hle, Heq.
  destruct raised; simpl.
  - repeat split; [assumption|right; reflexivity|discriminate|].
    intros _. rewrite Ht, Htotal. assumption.
  - specialize (Heq eq_refl). destruct (summary_ok rs); simpl.
    + repeat split; [assumption|left; reflexivity| |discriminate].
      intros _. rewrite Ht, Htotal. assumption.
    + repeat split; [assumption|right; reflexivity|discriminate|].
      intros _. rewrite Ht, Htotal, Heq. reflexivity.
Qed.

End SessionCounters.

(** ** Manual patch application *)

Section ManualApply.

Import GitManager.

Context {access : FileAccess}.

Lemma replace_lines_no_match (lines additions deletions : list string) :
  Forall (fun line => matches_deletion line deletions = false) lines ->
  replace_lines lines additions deletions = lines.
Proof.
  induction 1 as [|line lines Hline _ IH]; simpl; [reflexivity|].
  rewrite Hline, IH. reflexivity.
Qed.

Lemma apply_file_changes_result (tree : gmap string string) (path : string)
    (file_changes : list Hunk) :
  (_apply_file_changes tree path file_changes).1 = true
  <-> is_Some (tree !! path) /\ readable path = true /\ writable path = true.
Proof.
  unfold _apply_file_changes. destruct (tree !! path) as [text|].
  - destruct (readable path), (writable path); simpl;
      (split; [intros H; try discriminate H; repeat split; eauto
              |intros (_ & Hr & Hw); try discriminate Hr; try discriminate Hw;
               reflexivity]).
  - simpl. split; [discriminate|]. intros ([x Hx] & _). discriminate.
Qed.

(** C3 (as the code has it): a hunk has no failure outcome.  A hunk whose
    deletion lines match no line of the file returns the lines unchanged; and
    [_apply_file_changes] returns success exactly when the file is in the
    working tree, can be read and can be written, whatever its hunks did:
    it returns failure only for a missing file and for an exception of the
    file system. *)
Theorem C3_manual_apply_succeeds_when_file_exists (tree : gmap string string)
    (path : string) (file_changes : list Hunk) :
  ((_apply_file_changes tree path file_changes).1 = true
   <-> is_Some (tree !! path) /\ readable path = true /\ writable path = true)
  /\ forall (lines : list string) (hunk : Hunk),
       Forall (fun line =>
                 matches_deletion line (with_prefix "-" (hunk_lines hunk)) = false)
              lines ->
       _apply_hunk lines hunk = lines.
Proof.
  split.
  - apply apply_file_changes_result.
  - intros lines hunk Hno. unfold _apply_hunk.
    apply replace_lines_no_match. assumption.
Qed.

End ManualApply.

(** ** The worker *)

Section ResponseParsing.

Import WorkerAgent.
Context {JSON : PyJson}.

(** Without an opening brace, or without a closing brace after it, the
    response goes to the manual extraction. *)
Lemma parse_llm_response_without_json (response : string) :
  PyStr.find_char "{" response = None ->
  _parse_llm_response response = PList (manual_extract response).
Proof.
  intros Hfind. unfold _parse_llm_response, parse_llm_response_body.
  rewrite Hfind. reflexivity.
Qed.

(** When the text between the first opening and the last closing brace does
    not decode, the response parses to the empty list: the manual extraction
    is not reached. *)
Lemma parse_llm_response_decode_error (response : string) (json_start last_brace : nat) :
  PyStr.find_char "{" response = Some json_start ->
  PyStr.rfind_char "}" response = Some last_brace ->
  (json_start <= last_brace)%nat ->
  json_loads (PyStr.slice json_start (S last_brace) response) = Raise ->
  _parse_llm_response response = PList [].
Proof.
  intros Hfind Hrfind Hle Hdecode.
  unfold _parse_llm_response, parse_llm_response_body.
  rewrite Hfind, Hrfind.
  destruct (Nat.ltb_spec json_start (S last_brace)); [|lia].
  rewrite Hdecode. reflexivity.
Qed.

Lemma dict_truthy_manual_violation (line : string) :
  dict_truthy (manual_violation line) = true.
Proof.
  unfold dict_truthy, manual_violation.
  destruct (map_to_list _) eqn:Hl; [|reflexivity].
  apply map_to_list_empty_iff in Hl.
  apply (f_equal (fun m => m !! "rule_id")) in Hl.
  rewrite lookup_insert_eq, lookup_empty in Hl. discriminate.
Qed.

Lemma extract_line_bullet (violations : list pyval) (current : gmap string pyval)
    (line : string) :
  is_bullet line = true ->
  extract_line (violations, current) line
  = (if dict_truthy current then (violations ++ [PDict current])%list else violations,
     manual_violation (PyStr.strip line)).
Proof. unfold is_bullet, extract_line. intros ->. reflexivity. Qed.

Lemma extract_line_other (st : list pyval * gmap string pyval) (line : string) :
  is_bullet line = false -> extract_line st line = st.
Proof. destruct st. unfold is_bullet, extract_line. intros ->. reflexivity. Qed.

Lemma extract_lines_fold (lines : list string) (st : list pyval * gmap string pyval) :
  flush (fold_left extract_line lines st)
  = (flush st
     ++ map (fun line => PDict (manual_violation (PyStr.strip line)))
            (filter is_bullet lines))%list.
Proof.
  revert st. induction lines as [|line lines IH]; intros st; simpl.
  - rewrite app_nil_r. reflexivity.
  - rewrite filter_cons. destruct (is_bullet line) eqn:Hb.
    + rewrite decide_True by exact I.
      destruct st as [violations current].
      rewrite extract_line_bullet by assumption.
      rewrite IH. unfold flush at 1. simpl.
      rewrite dict_truthy_manual_violation, <- app_assoc. reflexivity.
    + rewrite decide_False by exact id.
      rewrite extract_line_other by assumption. apply IH.
Qed.

(** The manual extraction yields one record for each bullet line, in order,
    with the fixed rule id, severity and confidence. *)
Lemma manual_extract_bullets (response : string) :
  manual_extract response
  = map (fun line => PDict (manual_violation (PyStr.strip line)))
        (filter is_bullet (PyStr.split_char PyStr.LF response)).
Proof.
  unfold manual_extract.
  pose proof (extract_lines_fold (PyStr.split_char PyStr.LF response) ([], ∅)) as Hfold.
  unfold flush in Hfold.
  destruct (fold_left extract_line (PyStr.split_char PyStr.LF response) ([], ∅))
    as [violations current].
  exact Hfold.
Qed.

Lemma manual_violation_fields (line : string) :
  manual_violation line !! "rule_id" = Some (PStr "manual_extract")
  /\ manual_violation line !! "severity" = Some (PStr "medium")
  /\ manual_violation line !! "confidence_score" = Some (PFloat 0.7%float)
  /\ manual_violation line !! "violation_description" = Some (PStr (PyStr.drop 2 line)).
Proof.
  unfold manual_violation. repeat split;
    repeat (rewrite lookup_insert_eq || (rewrite lookup_insert_ne by discriminate));
    reflexivity.
Qed.

End ResponseParsing.

Section Fallback.

Import WorkerAgent.
Context {JSON : PyJson} {collaborators : Collaborators}.

Lemma fallback_violation_fields (rule : RelevantRule) :
  exists d : gmap string pyval,
    fallback_violation rule = PDict d
    /\ d !! "rule_id" = Some (PStr (rule_id rule))
    /\ d !! "confidence_score" = Some (PFloat (similarity rule))
    /\ d !! "violation_description"
       = Some (PStr ("Potential violation of: " ++ title rule))
    /\ d !! "line_number" = Some PNone.
Proof.
  eexists. split; [reflexivity|].
  repeat split;
    repeat (rewrite lookup_insert_eq || (rewrite lookup_insert_ne by discriminate));
    reflexivity.
Qed.

(** C7: when the file parses, the context is retrieved and the model
    invocation raises, [process_file] reports success with no error message,
    and its violations are the fallback records of the retrieved rules, one
    for each rule and in their order; a record holds the rule's id, the
    rule's similarity as confidence, and the description built from the
    rule's title.  The records are a function of the retrieved rules alone. *)
Theorem C7_invocation_failure_falls_back_to_rules (worker : string) (path : string)
    (code_analysis : CodeAnalysis) (rag_context : RAGContext) (e : string) :
  parse_file path = inr code_analysis ->
  generate_analysis_context code_analysis = inr rag_context ->
  ainvoke (analysis_prompt rag_context) = inl e ->
  success (process_file worker path) = true
  /\ error_message (process_file worker path) = None
  /\ violations (process_file worker path)
     = PList (map fallback_violation (relevant_rules rag_context))
  /\ length (map fallback_violation (relevant_rules rag_context))
     = length (relevant_rules rag_context)
  /\ forall rule : RelevantRule,
       exists d : gmap string pyval,
         fallback_violation rule = PDict d
         /\ d !! "rule_id" = Some (PStr (rule_id rule))
         /\ d !! "confidence_score" = Some (PFloat (similarity rule))
         /\ d !! "violation_description"
            = Some (PStr ("Potential violation of: " ++ title rule)).
Proof.
  intros Hparse Hcontext Hinvoke.
  unfold process_file. rewrite Hparse, Hcontext. simpl.
  unfold analyze. rewrite Hinvoke. simpl.
  repeat split; [apply length_map|].
  intros rule. destruct (fallback_violation_fields rule) as (d & Hd & H1 & H2 & H3 & _).
  exists d. repeat split; assumption.
Qed.

End Fallback.

(** ** Rendering a diff and parsing it back *)

Section RenderAndParse.

Import GitManager.

Lemma save_changes_no_hunks (reset : bool) (st : parse_state) :
  current_changes st = [] -> save_changes reset st = st.
Proof.
  intros Hcc. unfold save_changes, file_and_changes. rewrite Hcc.
  destruct (current_file st) as [[|c f]|]; reflexivity.
Qed.

Lemma parse_line_no_marker (st : parse_state) (line : string) :
  no_hunk_marker line ->
  changes st = [] -> current_changes st = [] ->
  changes (parse_line st line) = [] /\ current_changes (parse_line st line) = [].
Proof.
  intros Hline Hch Hcc. unfold parse_line.
  rewrite (save_changes_no_hunks true st Hcc), Hline, Hcc.
  repeat case_match; simpl; split; assumption || reflexivity.
Qed.

(** Without a line that opens a hunk the parser returns no change. *)
Lemma parse_without_hunk_marker (diff_content : string) :
  Forall no_hunk_marker (PyStr.split_char PyStr.LF diff_content) ->
  _parse_diff_content diff_content = [].
Proof.
  intros Hlines. unfold _parse_diff_content.
  assert (Hfold : forall lines st,
             Forall no_hunk_marker lines ->
             changes st = [] -> current_changes st = [] ->
             changes (fold_left parse_line lines st) = []
             /\ current_changes (fold_left parse_line lines st) = []).
  { induction lines as [|line lines IH]; intros st Hall Hch Hcc; simpl.
    - split; assumption.
    - inversion Hall; subst.
      destruct (parse_line_no_marker st line) as [Hch' Hcc']; try assumption.
      apply IH; assumption. }
  destruct (Hfold (PyStr.split_char PyStr.LF diff_content)
              {| changes := []; current_file := None; current_changes := [] |}
              Hlines eq_refl eq_refl) as [Hch Hcc].
  rewrite save_changes_no_hunks by assumption. assumption.
Qed.

Lemma find_char_app (c : ascii) (s t : string) :
  PyStr.find_char c s = None -> PyStr.find_char c t = None ->
  PyStr.find_char c (s ++ t) = None.
Proof.
  induction s as [|a s IH]; simpl; [intros _ Ht; exact Ht|].
  destruct (Ascii.eqb a c); [discriminate|].
  destruct (PyStr.find_char c s); [discriminate|].
  intros _ Ht. rewrite IH by (reflexivity || assumption). reflexivity.
Qed.

Lemma str_of_nat_no_linefeed (n : nat) :
  PyStr.find_char PyStr.LF (PyStr.str_of_nat n) = None.
Proof.
  unfold PyStr.str_of_nat.
  assert (Hgen : forall fuel n acc,
             PyStr.find_char PyStr.LF acc = None ->
             PyStr.find_char PyStr.LF (PyStr.digits_fuel fuel n acc) = None).
  { induction fuel as [|fuel IH]; intros m acc Hacc; simpl; [assumption|].
    assert (Hd : PyStr.find_char PyStr.LF
                   (String (ascii_of_nat (48 + Nat.modulo m 10)) acc) = None).
    { pose proof (Nat.mod_upper_bound m 10 ltac:(lia)) as Hlt.
      remember (Nat.modulo m 10) as k eqn:Hk. clear Hk.
      do 10 (destruct k as [|k]; [simpl; rewrite Hacc; reflexivity|]). lia. }
    destruct (m <? 10)%nat; [assumption|]. apply IH. assumption. }
  apply Hgen. reflexivity.
Qed.

Lemma format_range_no_linefeed (start stop : nat) :
  PyStr.find_char PyStr.LF (Difflib.format_range_unified start stop) = None.
Proof.
  unfold Difflib.format_range_unified.
  destruct (stop - start =? 1)%nat; [apply str_of_nat_no_linefeed|].
  repeat apply find_char_app; try apply str_of_nat_no_linefeed; reflexivity.
Qed.

Lemma find_char_snoc (c a : ascii) (s : string) :
  PyStr.find_char c s = None -> Ascii.eqb a c = false ->
  PyStr.find_char c (s ++ String a EmptyString) = None.
Proof.
  intros Hs Ha. apply find_char_app; [assumption|]. simpl. rewrite Ha. reflexivity.
Qed.

Lemma app_assoc_string (s t u : string) : (s ++ t) ++ u = s ++ (t ++ u).
Proof.
  induction s as [|a s IH]; [reflexivity|].
  change (String a ((s ++ t) ++ u) = String a (s ++ (t ++ u))). f_equal. exact IH.
Qed.

Lemma splitlines_linefeed_last (n : nat) (s cur : string) :
  (String.length s <= n)%nat ->
  PyStr.find_char PyStr.LF cur = None ->
  Forall linefeed_last (PyStr.splitlines_keepends_aux cur s).
Proof.
  revert s cur. induction n as [|n IH]; intros s cur Hlen Hcur.
  - destruct s; [|simpl in Hlen; lia]. simpl.
    destruct cur; constructor; [|constructor].
    exists (String a cur). split; [assumption|left; reflexivity].
  - destruct s as [|a s]; simpl.
    { destruct cur; constructor; [|constructor].
      exists (String a cur). split; [assumption|left; reflexivity]. }
    simpl in Hlen.
    destruct (Ascii.eqb a "013") eqn:Hcr.
    + apply Ascii.eqb_eq in Hcr. subst a.
      destruct s as [|b s].
      * constructor; [|constructor].
        exists (cur ++ String "013" EmptyString).
        split; [apply find_char_snoc; [assumption|reflexivity]|left; reflexivity].
      * destruct (Ascii.eqb b "010") eqn:Hlf.
        -- apply Ascii.eqb_eq in Hlf. subst b. constructor.
           ++ exists (cur ++ String "013" EmptyString).
              split; [apply find_char_snoc; [assumption|reflexivity]|].
              right. rewrite app_assoc_string. reflexivity.
           ++ apply IH; [simpl in Hlen; lia|reflexivity].
        -- constructor.
           ++ exists (cur ++ String "013" EmptyString).
              split; [apply find_char_snoc; [assumption|reflexivity]|left; reflexivity].
           ++ apply IH; [simpl in *; lia|reflexivity].
    + destruct (PyStr.is_linebreak a) eqn:Hbreak.
      * constructor; [|apply IH; [lia|reflexivity]].
        destruct (Ascii.eqb a PyStr.LF) eqn:Hlf.
        -- apply Ascii.eqb_eq in Hlf. subst a.
           exists cur. split; [assumption|right; reflexivity].
        -- exists (cur ++ String a EmptyString).
           split; [apply find_char_snoc; assumption|left; reflexivity].
      * apply IH; [lia|]. apply find_char_snoc; [assumption|].
        destruct (Ascii.eqb a PyStr.LF) eqn:Hlf; [|reflexivity].
        apply Ascii.eqb_eq in Hlf. subst a. discriminate.
Qed.

Lemma line_start_no_marker (h x : string) : line_start h -> no_hunk_marker (h ++ x).
Proof.
  intros (_ & c & r & -> & Hc). unfold no_hunk_marker, PyStr.startswith.
  change (String c r ++ x) with (String c (r ++ x)). cbn [String.prefix].
  destruct (ascii_dec "@" c) as [<-|_]; [discriminate|reflexivity].
Qed.

Lemma line_start_app (h l : string) :
  line_start h -> PyStr.find_char PyStr.LF l = None -> line_start (h ++ l).
Proof.
  intros (Hh & c & r & -> & Hc) Hl. split; [apply find_char_app; assumption|].
  exists c, (r ++ l). split; [reflexivity|assumption].
Qed.

(** A hunk line is the start of a line, with or without a line feed after
    it. *)
Lemma hunk_body_line_cases (l : string) :
  hunk_body_line l ->
  exists l0 : string, line_start l0 /\ (l = l0 \/ l = l0 ++ PyStr.nl).
Proof.
  intros (c & r & -> & Hat & Hlf & r0 & Hr0 & Hr).
  exists (String c r0). split.
  - split; [simpl; rewrite Hlf, Hr0; reflexivity|].
    exists c, r0. split; [reflexivity|assumption].
  - destruct Hr as [-> | ->]; [left|right]; reflexivity.
Qed.

Lemma app_empty_string (s : string) : s ++ "" = s.
Proof.
  induction s as [|a s IH]; [reflexivity|].
  change (String a (s ++ "") = String a s). f_equal. exact IH.
Qed.

Lemma join_empty_cons (x : string) (l : list string) :
  PyStr.join "" (x :: l) = x ++ PyStr.join "" l.
Proof.
  destruct l as [|y l]; [|reflexivity].
  symmetry. apply app_empty_string.
Qed.

Lemma split_char_prefix (c : ascii) (h t : string) :
  PyStr.find_char c h = None ->
  exists (first : string) (rest : list string),
    PyStr.split_char c t = first :: rest
    /\ PyStr.split_char c (h ++ t) = (h ++ first) :: rest.
Proof.
  intros Hh.
  destruct (PyStr.split_char c t) as [|first rest] eqn:Ht;
    [exfalso; exact (split_char_nonempty c t Ht)|].
  exists first, rest. split; [reflexivity|].
  induction h as [|a h IH]; simpl in *; [assumption|].
  destruct (Ascii.eqb a c); [discriminate|].
  destruct (PyStr.find_char c h); [discriminate|].
  rewrite IH by reflexivity. reflexivity.
Qed.

(** The lines of a hunk, joined: no piece between two line feeds opens a
    hunk, also after the start of a line. *)
Lemma hunk_body_no_marker (body : list string) :
  Forall hunk_body_line body ->
  Forall no_hunk_marker (PyStr.split_char PyStr.LF (PyStr.join "" body))
  /\ forall h : string,
       line_start h ->
       Forall no_hunk_marker (PyStr.split_char PyStr.LF (h ++ PyStr.join "" body)).
Proof.
  induction 1 as [|l body Hl _ [IH0 IH]].
  - split.
    + simpl. repeat constructor.
    + intros h Hh. simpl.
      rewrite app_empty_string.
      rewrite split_char_no_sep by apply Hh.
      constructor; [|constructor].
      rewrite <- (app_empty_string h).
      apply line_start_no_marker. assumption.
  - apply hunk_body_line_cases in Hl. destruct Hl as (l0 & Hl0 & Hl).
    assert (Hafter : forall h, line_start h ->
              Forall no_hunk_marker
                (PyStr.split_char PyStr.LF (h ++ PyStr.nl ++ PyStr.join "" body))).
    { intros h Hh. change (PyStr.nl ++ PyStr.join "" body)
        with (String PyStr.LF (PyStr.join "" body)).
      rewrite split_char_app by apply Hh.
      constructor; [|assumption].
      rewrite <- (app_empty_string h).
      apply line_start_no_marker. assumption. }
    split.
    + rewrite join_empty_cons. destruct Hl as [-> | ->].
      * apply IH. assumption.
      * rewrite app_assoc_string. apply Hafter. assumption.
    + intros h Hh. rewrite join_empty_cons. destruct Hl as [-> | ->].
      * rewrite <- app_assoc_string. apply IH.
        apply line_start_app; [assumption|apply Hl0].
      * rewrite app_assoc_string, <- app_assoc_string.
        apply Hafter. apply line_start_app; [assumption|apply Hl0].
Qed.

End RenderAndParse.

Section RoundTrip.

Import GitManager.
Context {matcher : Difflib.SequenceMatcher}.

Lemma prefixed_lines_body (c : ascii) (lines : list string) :
  Ascii.eqb c "@" = false -> Ascii.eqb c PyStr.LF = false ->
  Forall linefeed_last lines ->
  Forall hunk_body_line (map (fun line => String c EmptyString ++ line) lines).
Proof.
  intros Hat Hlf. induction 1 as [|l lines Hl _ IH]; simpl; constructor.
  - exists c, l. repeat split; assumption.
  - assumption.
Qed.

Lemma opcode_lines_body (a b : list string) (o : Difflib.opcode) :
  Forall linefeed_last a -> Forall linefeed_last b ->
  Forall hunk_body_line (Difflib.opcode_lines a b o).
Proof.
  intros Ha Hb. unfold Difflib.opcode_lines, Difflib.slice.
  destruct (Difflib.op_tag o);
    repeat apply Forall_app_2;
    apply prefixed_lines_body; try reflexivity;
    apply Forall_take, Forall_drop; assumption.
Qed.

Lemma group_body (a b : list string) (group : list Difflib.opcode) :
  Forall linefeed_last a -> Forall linefeed_last b ->
  Forall hunk_body_line (concat (map (Difflib.opcode_lines a b) group)).
Proof.
  intros Ha Hb. induction group as [|o group IH]; simpl; [constructor|].
  apply Forall_app_2; [apply opcode_lines_body; assumption|assumption].
Qed.

(** A rendered diff of one hunk holds no change for the parser: whatever the
    path (without a line feed) and the two texts, when the matcher finds one
    group of changes the text parses to no file at all.  The two file headers
    and the hunk header are rendered without a line terminator, so that they
    share a line with the first line of the hunk, and no line of the text
    opens a hunk. *)
Lemma single_hunk_diff_parses_to_nothing (path original modified : string)
    (group : list Difflib.opcode) :
  PyStr.find_char PyStr.LF path = None ->
  Difflib.get_grouped_opcodes (PyStr.splitlines_keepends_aux "" original)
                              (PyStr.splitlines_keepends_aux "" modified) 3
  = [group] ->
  _parse_diff_content (DiffGenerator._generate_unified_diff path original modified) = [].
Proof.
  intros Hpath Hgroups.
  unfold DiffGenerator._generate_unified_diff, Difflib.unified_diff.
  rewrite Hgroups. unfold Difflib.unified_diff_of_groups. simpl concat.
  rewrite app_nil_r. unfold Difflib.group_lines.
  rewrite !join_empty_cons.
  apply parse_without_hunk_marker.
  rewrite <- !app_assoc_string.
  apply hunk_body_no_marker.
  - apply group_body; apply (splitlines_linefeed_last _ _ _ (Nat.le_refl _)); reflexivity.
  - split.
    + repeat apply find_char_app;
        try assumption; try apply format_range_no_linefeed; reflexivity.
    + eexists _, _. split; [reflexivity|reflexivity].
Qed.

End RoundTrip.

(** * Further properties *)

(** ** Further properties of the fix synthesizer *)

Section SynthesizedFixes.

Import DiffGenerator WorkerAgent.
Context {RE : PyRe}.

(** X1: every fix that [_parse_violations_to_fixes] returns was created from
    one of the violations; its line number is a line of the file, its
    original code is the text of that line, its file path is the path given,
    and its replacement is not empty. *)
Theorem synthesized_fix_invariant (path : string) (violations : list pyval)
    (content : string) (f : CodeFix) :
  f ∈ _parse_violations_to_fixes path violations content ->
  let lines := PyStr.split_char PyStr.LF content in
  (1 <= line_number f <= Z.of_nat (length lines))%Z
  /\ lines !! Z.to_nat (line_number f - 1) = Some (original_code f)
  /\ DiffGenerator.file_path f = path
  /\ fixed_code f <> ""
  /\ exists violation : pyval,
       violation ∈ violations
       /\ _create_fix_from_violation violation lines path = Some f.
Proof.
  intros Hf lines. unfold _parse_violations_to_fixes in Hf.
  rewrite (sort_desc_perm _) in Hf.
  apply list_elem_of_omap in Hf. destruct Hf as (v & Hv & Hcreate).
  destruct (create_fix_some _ _ _ _ Hcreate) as (Hrange & Horig & Hpath & Hfixed).
  repeat split; try assumption; try apply Hrange.
  exists v. split; assumption.
Qed.

(** X2: [_parse_violations_to_fixes] neither loses nor duplicates a fix: its
    output is a permutation of the fixes that [_create_fix_from_violation]
    creates, one violation after the other, so it never holds more fixes than
    there are violations. *)
Theorem synthesized_fixes_are_the_created_ones (path : string) (violations : list pyval)
    (content : string) :
  Permutation (_parse_violations_to_fixes path violations content)
              (omap (fun violation =>
                       _create_fix_from_violation violation
                         (PyStr.split_char PyStr.LF content) path) violations)
  /\ (length (_parse_violations_to_fixes path violations content) <= length violations)%nat.
Proof.
  unfold _parse_violations_to_fixes. split; [apply sort_desc_perm|].
  rewrite (Permutation_length (sort_desc_perm _)).
  induction violations as [|v vs IH]; [simpl; lia|].
  cbn [omap list_omap length].
  destruct (_create_fix_from_violation v _ path); cbn [length]; lia.
Qed.

Lemma no_line_number_no_fix (d : gmap string pyval) (lines : list string) (path : string) :
  dict_get d "line_number" PNone = PNone ->
  _create_fix_from_violation (PDict d) lines path = None.
Proof.
  intros Hd. unfold _create_fix_from_violation, create_fix_body. simpl.
  rewrite Hd. reflexivity.
Qed.

Lemma synthesize_none (path content : string) (violations : list pyval) :
  Forall (fun v => _create_fix_from_violation v (PyStr.split_char PyStr.LF content) path
                   = None) violations ->
  _parse_violations_to_fixes path violations content = [].
Proof.
  intros H. unfold _parse_violations_to_fixes.
  replace (omap _ violations) with (@nil CodeFix); [reflexivity|].
  induction H as [|v vs Hv _ IH]; simpl; [reflexivity|]. rewrite Hv. exact IH.
Qed.

Lemma fallback_no_fix (path content : string) (rules : list RelevantRule) :
  _parse_violations_to_fixes path (map fallback_violation rules) content = [].
Proof.
  apply synthesize_none, Forall_map, Forall_forall. intros rule _. simpl.
  apply no_line_number_no_fix. reflexivity.
Qed.

Lemma manual_extract_no_fix (path content response : string) :
  _parse_violations_to_fixes path (manual_extract response) content = [].
Proof.
  apply synthesize_none. rewrite manual_extract_bullets.
  apply Forall_map, Forall_forall. intros line _. simpl.
  apply no_line_number_no_fix. reflexivity.
Qed.

(** X3: the violations that the worker builds itself carry no line number,
    and the fix synthesizer makes no fix of them: neither of the rule-based
    violations of the fallback, nor of the violations extracted from the
    bullet lines of a response. *)
Theorem violations_without_line_number_yield_no_fix (path content response : string)
    (rules : list RelevantRule) :
  _parse_violations_to_fixes path (map fallback_violation rules) content = []
  /\ _parse_violations_to_fixes path (manual_extract response) content = [].
Proof. split; [apply fallback_no_fix|apply manual_extract_no_fix]. Qed.

End SynthesizedFixes.

(** ** Applying fixes again *)

Section ReapplyingFixes.

Import DiffGenerator.

Lemma apply_fix_out_of_range (lines : list string) (f : CodeFix) :
  (line_number f < 1 \/ Z.of_nat (length lines) < line_number f)%Z ->
  apply_fix lines f = lines.
Proof.
  intros H. unfold apply_fix.
  destruct (1 <=? line_number f)%Z eqn:H1; [|reflexivity].
  destruct (line_number f <=? Z.of_nat (length lines))%Z eqn:H2; [|reflexivity].
  lia.
Qed.

(** X4: [_apply_fixes] ignores a fix whose line number is outside the file:
    when every fix is, the text comes back unchanged (so does it without any
    fix). *)
Theorem apply_fixes_out_of_range_is_identity (content : string) (fixes : list CodeFix) :
  Forall (fun f =>
            (line_number f < 1
             \/ Z.of_nat (length (PyStr.split_char PyStr.LF content)) < line_number f)%Z)
         fixes ->
  _apply_fixes content fixes = content.
Proof.
  intros H. unfold _apply_fixes, apply_fixes_lines.
  replace (fold_left apply_fix fixes (PyStr.split_char PyStr.LF content))
    with (PyStr.split_char PyStr.LF content); [apply join_split_char|].
  induction H as [|f fixes Hf _ IH]; [reflexivity|].
  simpl. rewrite apply_fix_out_of_range by exact Hf. exact IH.
Qed.

Lemma apply_fixes_lines_idempotent (lines : list string) (fixes : list CodeFix) :
  apply_fixes_lines (apply_fixes_lines lines fixes) fixes = apply_fixes_lines lines fixes.
Proof.
  apply list_eq. intros i.
  destruct (decide (i < length lines)%nat) as [Hi|Hi].
  - destruct (last (filter (fun g => line_number g = (Z.of_nat i + 1)%Z) fixes))
      as [f|] eqn:Hlast.
    + rewrite (apply_fixes_lines_last fixes _ i f);
        [|rewrite length_apply_fixes_lines; exact Hi|exact Hlast].
      symmetry. apply apply_fixes_lines_last; assumption.
    + apply last_None in Hlast.
      assert (Hno : Forall (fun f => line_number f <> (Z.of_nat i + 1)%Z) fixes).
      { apply Forall_forall. intros g Hg Heq.
        assert (Hin : g ∈ filter (fun g => line_number g = (Z.of_nat i + 1)%Z) fixes)
          by (apply list_elem_of_filter; split; assumption).
        rewrite Hlast in Hin. inversion Hin. }
      rewrite !apply_fixes_lines_other by exact Hno. reflexivity.
  - rewrite !lookup_ge_None_2; [reflexivity| |];
      rewrite ?length_apply_fixes_lines; lia.
Qed.

(** X5: when no replacement holds a line feed, applying the same fixes to
    the patched text gives the patched text again. *)
Theorem apply_fixes_idempotent (content : string) (fixes : list CodeFix) :
  Forall (fun f => PyStr.find_char PyStr.LF (PyStr.rstrip (fixed_code f)) = None) fixes ->
  _apply_fixes (_apply_fixes content fixes) fixes = _apply_fixes content fixes.
Proof.
  intros Hlf. unfold _apply_fixes at 1 3.
  assert (Hsplit : PyStr.split_char PyStr.LF (_apply_fixes content fixes)
                   = apply_fixes_lines (PyStr.split_char PyStr.LF content) fixes).
  { unfold _apply_fixes. apply split_join_lines.
    - intros Hnil. apply (f_equal (@length string)) in Hnil.
      rewrite length_apply_fixes_lines in Hnil.
      destruct (PyStr.split_char PyStr.LF content) eqn:Hs;
        [exact (split_char_nonempty _ _ Hs)|discriminate].
    - apply apply_fixes_no_linefeed; [exact Hlf|apply split_char_parts_no_sep]. }
  rewrite Hsplit, apply_fixes_lines_idempotent. reflexivity.
Qed.

End ReapplyingFixes.

(** ** The heuristics *)

Section HeuristicFacts.

Import DiffGenerator.
Context {RE : PyRe}.

Lemma length_app_string (s t : string) :
  String.length (s ++ t) = (String.length s + String.length t)%nat.
Proof.
  induction s as [|a s IH]; [reflexivity|].
  rewrite app_cons_string. simpl. rewrite IH. reflexivity.
Qed.

Lemma repeat_space_no_tab (n : nat) :
  PyStr.find_char "009" (PyStr.repeat_str " " n) = None.
Proof.
  induction n as [|n IH]; [reflexivity|].
  cbn [PyStr.repeat_str]. apply find_char_app; [reflexivity|exact IH].
Qed.

Lemma repeat_indent_no_tab (n : nat) :
  PyStr.find_char "009" (PyStr.repeat_str "    " n) = None.
Proof.
  induction n as [|n IH]; [reflexivity|].
  cbn [PyStr.repeat_str]. apply find_char_app; [reflexivity|exact IH].
Qed.

Lemma find_char_cons (c a : ascii) (s : string) :
  Ascii.eqb a c = false -> PyStr.find_char c s = None ->
  PyStr.find_char c (String a s) = None.
Proof. intros Ha Hs. simpl. rewrite Ha, Hs. reflexivity. Qed.

Lemma find_char_cons_inv (c a : ascii) (s : string) :
  PyStr.find_char c (String a s) = None ->
  Ascii.eqb a c = false /\ PyStr.find_char c s = None.
Proof.
  simpl. destruct (Ascii.eqb a c); [discriminate|].
  destruct (PyStr.find_char c s); [discriminate|]. split; reflexivity.
Qed.

Lemma expandtabs_no_tab (tabsize : nat) (s : string) (col : nat) :
  PyStr.find_char "009" (PyStr.expandtabs_aux tabsize col s) = None.
Proof.
  revert col. induction s as [|a s IH]; intros col; [reflexivity|].
  cbn [PyStr.expandtabs_aux].
  destruct (Ascii.eqb a "009") eqn:Ha.
  - apply find_char_app; [apply repeat_space_no_tab|apply IH].
  - destruct (Ascii.eqb a "010" || Ascii.eqb a "013");
      apply find_char_cons; try exact Ha; apply IH.
Qed.

Lemma expandtabs_without_tab (tabsize : nat) (s : string) (col : nat) :
  PyStr.find_char "009" s = None -> PyStr.expandtabs_aux tabsize col s = s.
Proof.
  revert col. induction s as [|a s IH]; intros col Hs; [reflexivity|].
  apply find_char_cons_inv in Hs. destruct Hs as [Ha Hs].
  cbn [PyStr.expandtabs_aux]. rewrite Ha.
  destruct (Ascii.eqb a "010" || Ascii.eqb a "013"); rewrite IH by exact Hs; reflexivity.
Qed.

Lemma lstrip_no_tab (s : string) :
  PyStr.find_char "009" s = None -> PyStr.find_char "009" (PyStr.lstrip s) = None.
Proof.
  induction s as [|a s IH]; intros Hs; [reflexivity|].
  cbn [PyStr.lstrip]. destruct (PyStr.is_space a); [|exact Hs].
  apply IH. apply find_char_cons_inv in Hs. apply Hs.
Qed.

Lemma lstrip_idempotent (s : string) : PyStr.lstrip (PyStr.lstrip s) = PyStr.lstrip s.
Proof.
  induction s as [|a s IH]; [reflexivity|].
  cbn [PyStr.lstrip]. destruct (PyStr.is_space a) eqn:Ha; [exact IH|].
  cbn [PyStr.lstrip]. rewrite Ha. reflexivity.
Qed.

Lemma lstrip_indent (n : nat) (s : string) :
  PyStr.lstrip (PyStr.repeat_str "    " n ++ s) = PyStr.lstrip s.
Proof.
  induction n as [|n IH]; [reflexivity|].
  cbn [PyStr.repeat_str]. rewrite app_assoc_string. exact IH.
Qed.

Lemma length_repeat_indent (n : nat) :
  String.length (PyStr.repeat_str "    " n) = (4 * n)%nat.
Proof.
  induction n as [|n IH]; [reflexivity|].
  cbn [PyStr.repeat_str]. rewrite length_app_string, IH. simpl. lia.
Qed.

Lemma fix_indentation_no_tab (line : string) :
  PyStr.find_char "009" (_fix_indentation line) = None.
Proof.
  unfold _fix_indentation.
  pose proof (expandtabs_no_tab 4 line 0) as He.
  fold (PyStr.expandtabs 4 line) in He.
  pose proof (lstrip_no_tab _ He) as Hs.
  destruct (PyStr.lstrip (PyStr.expandtabs 4 line)) as [|c stripped] eqn:Hstripped;
    [exact He|].
  apply find_char_app; [apply repeat_indent_no_tab|exact Hs].
Qed.

(** X6: [_fix_indentation] leaves no tab character in the line. *)
Theorem fix_indentation_leaves_no_tab (line : string) :
  PyStr.find_char "009" (_fix_indentation line) = None.
Proof. apply fix_indentation_no_tab. Qed.

(** X7: [_fix_indentation] changes nothing in a line it has fixed. *)
Theorem fix_indentation_idempotent (line : string) :
  _fix_indentation (_fix_indentation line) = _fix_indentation line.
Proof.
  pose proof (fix_indentation_no_tab line) as Hnotab.
  unfold _fix_indentation at 1.
  unfold PyStr.expandtabs. rewrite expandtabs_without_tab by exact Hnotab.
  unfold _fix_indentation.
  destruct (PyStr.lstrip (PyStr.expandtabs 4 line)) as [|c stripped] eqn:Hstripped.
  - fold (PyStr.expandtabs 4 line). rewrite Hstripped. reflexivity.
  - rewrite lstrip_indent.
    assert (Hidem : PyStr.lstrip (String c stripped) = String c stripped)
      by (rewrite <- Hstripped; apply lstrip_idempotent).
    rewrite Hidem.
    rewrite length_app_string, length_repeat_indent.
    set (k := ((String.length (PyStr.expandtabs 4 line)
                - String.length (String c stripped)) / 4)%nat).
    replace (4 * k + String.length (String c stripped)
             - String.length (String c stripped))%nat with (k * 4)%nat by lia.
    rewrite Nat.div_mul by lia. reflexivity.
Qed.

Lemma prefix_drop (p s : string) :
  String.prefix p s = true -> s = p ++ PyStr.drop (String.length p) s.
Proof.
  revert s. induction p as [|a p IH]; intros s Hp; [destruct s; reflexivity|].
  destruct s as [|b s]; [discriminate|].
  cbn [String.prefix] in Hp. destruct (ascii_dec a b) as [<-|]; [|discriminate].
  rewrite app_cons_string. cbn [String.length PyStr.drop]. f_equal. apply IH, Hp.
Qed.

Lemma split_on_fuel_nonempty (fuel : nat) (sep cur s : string) :
  PyStr.split_on_fuel fuel sep cur s <> [].
Proof.
  revert cur s. induction fuel as [|fuel IH]; intros cur s; [discriminate|].
  cbn [PyStr.split_on_fuel]. destruct s as [|a s]; [discriminate|].
  destruct (String.prefix sep (String a s)); [discriminate|apply IH].
Qed.

Lemma join_cons_nonempty (sep x : string) (l : list string) :
  l <> [] -> PyStr.join sep (x :: l) = x ++ sep ++ PyStr.join sep l.
Proof. destruct l; [congruence|reflexivity]. Qed.

(** [sep.join(s.split(sep))] is [s]. *)
Lemma join_split_on_fuel (fuel : nat) (sep cur s : string) :
  PyStr.join sep (PyStr.split_on_fuel fuel sep cur s) = cur ++ s.
Proof.
  revert cur s. induction fuel as [|fuel IH]; intros cur s; [reflexivity|].
  cbn [PyStr.split_on_fuel]. destruct s as [|a s].
  - simpl. symmetry. apply app_empty_string.
  - destruct (String.prefix sep (String a s)) eqn:Hp.
    + rewrite join_cons_nonempty by apply split_on_fuel_nonempty.
      rewrite IH. change ("" ++ ?x) with x.
      rewrite <- (prefix_drop _ _ Hp). reflexivity.
    + rewrite IH, app_assoc_string. reflexivity.
Qed.

Lemma join_split_on (sep s : string) : PyStr.join sep (PyStr.split_on sep s) = s.
Proof. unfold PyStr.split_on. apply join_split_on_fuel. Qed.

Lemma join_take_drop (sep : string) (parts : list string) (i : nat) :
  (0 < i < length parts)%nat ->
  PyStr.join sep (take i parts) ++ sep ++ PyStr.join sep (drop i parts)
  = PyStr.join sep parts.
Proof.
  revert i. induction parts as [|x parts IH]; intros i Hi; [simpl in Hi; lia|].
  destruct i as [|i]; [lia|]. cbn [take drop]. cbn [length] in Hi.
  destruct i as [|i].
  - rewrite take_0. cbn [drop]. destruct parts; [simpl in Hi; lia|]. reflexivity.
  - assert (Hi' : (0 < S i < length parts)%nat) by lia.
    rewrite !join_cons_nonempty.
    + rewrite !app_assoc_string. rewrite IH by exact Hi'. reflexivity.
    + destruct parts; [simpl in Hi'; lia|discriminate].
    + destruct parts; [simpl in Hi'; lia|discriminate].
Qed.

Lemma break_at_some (break_point : string) (parts : list string) (max_length : nat)
    (candidates : list nat) (fixed : string) :
  break_at break_point parts max_length candidates = Some fixed ->
  exists i : nat,
    i ∈ candidates
    /\ (String.length (PyStr.join break_point (take i parts)) < max_length)%nat
    /\ fixed = PyStr.join break_point (take i parts) ++ PyStr.rstrip break_point
               ++ PyStr.nl ++ "    " ++ PyStr.join break_point (drop i parts).
Proof.
  induction candidates as [|i rest IH]; [discriminate|].
  cbn [break_at].
  destruct (String.length (PyStr.join break_point (take i parts)) <? max_length)%nat
    eqn:Hlen.
  - intros [= <-]. exists i. split; [left|].
    split; [apply Nat.ltb_lt, Hlen|reflexivity].
  - intros H. destruct (IH H) as (j & Hj & Hrest). exists j. split; [right; exact Hj|exact Hrest].
Qed.

Lemma break_line_some (stripped : string) (max_length : nat) (break_points : list string)
    (fixed : string) :
  break_line stripped max_length break_points = Some fixed ->
  exists (break_point first_part remaining : string),
    break_point ∈ break_points
    /\ fixed = first_part ++ PyStr.rstrip break_point ++ PyStr.nl ++ "    " ++ remaining
    /\ first_part ++ break_point ++ remaining = stripped
    /\ (String.length first_part < max_length)%nat.
Proof.
  induction break_points as [|bp rest IH]; [discriminate|].
  cbn [break_line].
  destruct (PyStr.contains bp stripped).
  - destruct (1 <? length (PyStr.split_on bp stripped))%nat eqn:Hparts.
    + destruct (break_at bp (PyStr.split_on bp stripped) max_length
                  (seq 1 (length (PyStr.split_on bp stripped) - 1))) as [fx|] eqn:Hat.
      * intros [= <-]. apply break_at_some in Hat.
        destruct Hat as (i & Hi & Hlen & ->).
        apply elem_of_seq in Hi.
        exists bp, (PyStr.join bp (take i (PyStr.split_on bp stripped))),
          (PyStr.join bp (drop i (PyStr.split_on bp stripped))).
        split; [left|]. split; [reflexivity|]. split; [|exact Hlen].
        rewrite join_take_drop by lia. apply join_split_on.
      * intros H. destruct (IH H) as (b & f & r & Hb & Hrest).
        exists b, f, r. split; [right; exact Hb|exact Hrest].
    + intros H. destruct (IH H) as (b & f & r & Hb & Hrest).
      exists b, f, r. split; [right; exact Hb|exact Hrest].
  - intros H. destruct (IH H) as (b & f & r & Hb & Hrest).
    exists b, f, r. split; [right; exact Hb|exact Hrest].
Qed.

(** X8: [_fix_line_length] returns the line unchanged, or it breaks the
    stripped line, which is longer than 88 characters, at one occurrence of a
    break point: the part before it is shorter than 88 characters, the break
    point loses its trailing blanks, and the part after it goes to a new line
    behind four blanks.  No other text is lost or added. *)
Theorem fix_line_length_keeps_the_text (line : string) :
  _fix_line_length line = line
  \/ exists (break_point first_part remaining : string),
       break_point ∈ [", "; " and "; " or "; " + "; " - "]
       /\ _fix_line_length line
          = first_part ++ PyStr.rstrip break_point ++ PyStr.nl ++ "    " ++ remaining
       /\ first_part ++ break_point ++ remaining = PyStr.strip line
       /\ (String.length first_part < 88)%nat
       /\ (88 < String.length line)%nat.
Proof.
  unfold _fix_line_length.
  destruct (String.length line <=? 88)%nat eqn:Hlen; [left; reflexivity|].
  apply Nat.leb_gt in Hlen.
  destruct (break_line (PyStr.strip line) 88 [", "; " and "; " or "; " + "; " - "])
    as [fixed|] eqn:Hbreak; [|left; reflexivity].
  right. apply break_line_some in Hbreak.
  destruct Hbreak as (bp & first & remaining & Hbp & -> & Htext & Hfirst).
  exists bp, first, remaining. repeat split; assumption.
Qed.

End HeuristicFacts.

(** ** Hunks and files *)

Section HunkApplication.

Import GitManager.

Context {access : FileAccess}.

Lemma replace_lines_without_additions (lines deletions : list string) :
  replace_lines lines [] deletions
  = filter (fun line => matches_deletion line deletions = false) lines.
Proof.
  induction lines as [|line rest IH]; [reflexivity|].
  cbn [replace_lines]. rewrite filter_cons.
  destruct (matches_deletion line deletions) eqn:Hm.
  - rewrite decide_False by discriminate. exact IH.
  - rewrite decide_True by reflexivity. rewrite IH. reflexivity.
Qed.

Lemma replace_lines_first_match (lines additions deletions : list string) :
  replace_lines lines additions deletions
  = match list_find (fun line => matches_deletion line deletions = true) lines with
    | None => lines
    | Some (i, _) =>
        (take i lines ++ additions
         ++ filter (fun line => matches_deletion line deletions = false)
                   (drop (S i) lines))%list
    end.
Proof.
  induction lines as [|line rest IH]; [reflexivity|].
  cbn [replace_lines list_find].
  destruct (matches_deletion line deletions) eqn:Hm.
  - rewrite decide_True by reflexivity.
    rewrite replace_lines_without_additions. reflexivity.
  - rewrite decide_False by discriminate. rewrite IH.
    destruct (list_find _ rest) as [[i x]|]; reflexivity.
Qed.

(** X9: [_apply_hunk] looks for the first line whose stripped text is the
    stripped text of a deletion of the hunk.  Without one the lines stay as
    they are; otherwise the lines before it are kept, the additions of the
    hunk take its place, and of the lines after it those that match no
    deletion are kept.  The ranges and the context lines of the hunk play no
    part. *)
Theorem apply_hunk_rewrites_at_first_match (lines : list string) (hunk : Hunk) :
  let additions := with_prefix "+" (hunk_lines hunk) in
  let deletions := with_prefix "-" (hunk_lines hunk) in
  _apply_hunk lines hunk
  = match list_find (fun line => matches_deletion line deletions = true) lines with
    | None => lines
    | Some (i, _) =>
        (take i lines ++ additions
         ++ filter (fun line => matches_deletion line deletions = false)
                   (drop (S i) lines))%list
    end.
Proof. apply replace_lines_first_match. Qed.

Lemma join_readlines_aux (cur s : string) :
  PyStr.join "" (readlines_aux cur s) = cur ++ s.
Proof.
  revert cur. induction s as [|a s IH]; intros cur.
  - destruct cur; [reflexivity|]. simpl. symmetry. apply app_empty_string.
  - cbn [readlines_aux]. destruct (Ascii.eqb a PyStr.LF) eqn:Ha.
    + apply Ascii.eqb_eq in Ha. subst a.
      rewrite join_empty_cons, IH, app_assoc_string. reflexivity.
    + rewrite IH, app_assoc_string. reflexivity.
Qed.

Lemma join_readlines (s : string) : PyStr.join "" (readlines s) = s.
Proof. apply join_readlines_aux. Qed.

Lemma apply_hunks_no_match (hunks : list Hunk) (lines : list string) :
  Forall (fun hunk =>
            Forall (fun line =>
                      matches_deletion line (with_prefix "-" (hunk_lines hunk)) = false)
                   lines) hunks ->
  fold_left _apply_hunk hunks lines = lines.
Proof.
  induction 1 as [|hunk hunks Hh _ IH]; [reflexivity|].
  cbn [fold_left]. unfold _apply_hunk at 2.
  rewrite replace_lines_no_match by exact Hh. exact IH.
Qed.

Lemma universal_newlines_without_cr (s : string) :
  PyStr.find_char "013" s = None -> universal_newlines s = s.
Proof.
  induction s as [|a s IH]; [reflexivity|].
  cbn [PyStr.find_char universal_newlines].
  destruct (Ascii.eqb a "013"); [discriminate|].
  intros Hs. rewrite IH; [reflexivity|].
  destruct (PyStr.find_char "013" s); [discriminate|reflexivity].
Qed.

(** X10: when a file exists, can be read and written and holds no carriage
    return, and no line of it matches a deletion of any of the hunks,
    [_apply_file_changes] succeeds and the tree is what it was. *)
Theorem apply_file_changes_without_match (tree : gmap string string) (path text : string)
    (file_changes : list Hunk) :
  tree !! path = Some text ->
  readable path = true ->
  writable path = true ->
  PyStr.find_char "013" text = None ->
  Forall (fun hunk =>
            Forall (fun line =>
                      matches_deletion line (with_prefix "-" (hunk_lines hunk)) = false)
                   (readlines text)) file_changes ->
  _apply_file_changes tree path file_changes = (true, tree).
Proof.
  intros Hpath Hread Hwrite Hcr Hno. unfold _apply_file_changes.
  rewrite Hpath, Hread, Hwrite. simpl.
  rewrite universal_newlines_without_cr by exact Hcr.
  rewrite apply_hunks_no_match by exact Hno.
  rewrite join_readlines, insert_id by exact Hpath. reflexivity.
Qed.

Lemma apply_file_changes_frame (tree : gmap string string) (path : string)
    (file_changes : list Hunk) :
  (forall other : string,
      other <> path ->
      (_apply_file_changes tree path file_changes).2 !! other = tree !! other)
  /\ (forall other : string,
        is_Some ((_apply_file_changes tree path file_changes).2 !! other)
        <-> is_Some (tree !! other))
  /\ ((_apply_file_changes tree path file_changes).1 = false ->
      (_apply_file_changes tree path file_changes).2 = tree).
Proof.
  unfold _apply_file_changes. destruct (tree !! path) as [text|] eqn:Hpath;
    [destruct (readable path); [destruct (writable path)|]|]; simpl;
    try (split; [|split]; reflexivity).
  split; [|split; [|discriminate]].
  - intros other Hother. apply lookup_insert_ne. congruence.
  - intros other. destruct (decide (other = path)) as [->|Hother].
    + rewrite lookup_insert_eq, Hpath. split; eauto.
    + rewrite lookup_insert_ne by congruence. reflexivity.
Qed.


Lemma apply_all_app (items1 items2 : list (string * list Hunk)) (tree : gmap string string) :
  apply_all tree (items1 ++ items2)
  = match apply_all tree items1 with
    | (true, tree') => apply_all tree' items2
    | (false, tree') => (false, tree')
    end.
Proof.
  revert tree. induction items1 as [|[path hunks] items1 IH]; intros tree; [reflexivity|].
  cbn [app apply_all]. destruct (_apply_file_changes tree path hunks) as [[|] tree'].
  - apply IH.
  - reflexivity.
Qed.

Lemma apply_all_present (items : list (string * list Hunk)) (tree : gmap string string)
    (other : string) :
  is_Some ((apply_all tree items).2 !! other) <-> is_Some (tree !! other).
Proof.
  revert tree. induction items as [|[path hunks] items IH]; intros tree; [reflexivity|].
  cbn [apply_all].
  pose proof (apply_file_changes_frame tree path hunks) as (_ & Hdom & _).
  destruct (_apply_file_changes tree path hunks) as [[|] tree'] eqn:Happly; simpl in *.
  - rewrite IH. apply Hdom.
  - apply Hdom.
Qed.

Lemma apply_all_succeeds (items : list (string * list Hunk)) (tree : gmap string string) :
  (apply_all tree items).1 = true
  <-> Forall (fun item =>
                is_Some (tree !! item.1)
                /\ readable item.1 = true /\ writable item.1 = true) items.
Proof.
  revert tree. induction items as [|[path hunks] items IH]; intros tree.
  - split; [constructor|reflexivity].
  - cbn [apply_all].
    pose proof (apply_file_changes_frame tree path hunks) as (_ & Hdom & _).
    pose proof (apply_file_changes_result tree path hunks) as Hresult.
    destruct (_apply_file_changes tree path hunks) as [[|] tree'] eqn:Happly;
      simpl in *.
    + rewrite IH. split.
      * intros H. constructor; [apply Hresult; reflexivity|].
        eapply Forall_impl; [exact H|].
        intros item (Hitem & Hr & Hw). split; [apply Hdom, Hitem|split; assumption].
      * intros H. inversion H as [|? ? _ Hrest]; subst.
        eapply Forall_impl; [exact Hrest|].
        intros item (Hitem & Hr & Hw). split; [apply Hdom, Hitem|split; assumption].
    + split; [discriminate|]. intros H. inversion H as [|? ? Hhead _]; subst.
      apply Hresult in Hhead. discriminate.
Qed.

(** X12: [_apply_diff_manually] returns [True] exactly when every file that
    the parsed diff names exists in the working tree, can be read and can be
    written. *)
Theorem manual_apply_succeeds_iff_files_exist (tree : gmap string string)
    (diff_content : string) :
  (_apply_diff_manually tree diff_content).1 = true
  <-> Forall (fun item =>
                is_Some (tree !! item.1)
                /\ readable item.1 = true /\ writable item.1 = true)
             (_parse_diff_content diff_content).
Proof. apply apply_all_succeeds. Qed.

(** X13: the loop of [_apply_diff_manually] stops at the first file that does
    not exist and returns [False]; the files rewritten before it stay
    rewritten. *)
Theorem manual_apply_keeps_changes_before_failure (tree : gmap string string)
    (done rest : list (string * list Hunk)) (path : string) (file_changes : list Hunk) :
  Forall (fun item => is_Some (tree !! item.1)) done ->
  tree !! path = None ->
  apply_all tree (done ++ (path, file_changes) :: rest)
  = (false, (apply_all tree done).2).
Proof.
  intros _ Hpath. rewrite apply_all_app.
  destruct (apply_all tree done) as [[|] tree'] eqn:Happly; [|reflexivity]. simpl.
  cbn [apply_all]. unfold _apply_file_changes.
  assert (Hnone : tree' !! path = None).
  { apply eq_None_not_Some. intros Hsome.
    pose proof (apply_all_present done tree path) as Hdom.
    rewrite Happly in Hdom. simpl in Hdom. apply Hdom in Hsome.
    rewrite Hpath in Hsome. destruct Hsome as [? [=]]. }
  rewrite Hnone. reflexivity.
Qed.

End HunkApplication.

(** ** Diffs with every line on a line of its own *)

Section WellFormedDiff.

Import GitManager.

Context {access : FileAccess}.

Lemma length_lstrip (s : string) : (String.length (PyStr.lstrip s) <= String.length s)%nat.
Proof.
  induction s as [|c s IH]; [reflexivity|].
  cbn [PyStr.lstrip]. destruct (PyStr.is_space c); simpl; lia.
Qed.

Lemma lstrip_same_length (s : string) :
  String.length (PyStr.lstrip s) = String.length s -> PyStr.lstrip s = s.
Proof.
  destruct s as [|c s]; [reflexivity|].
  cbn [PyStr.lstrip]. destruct (PyStr.is_space c); [|reflexivity].
  pose proof (length_lstrip s). simpl. lia.
Qed.

Lemma length_rstrip (s : string) : (String.length (PyStr.rstrip s) <= String.length s)%nat.
Proof.
  induction s as [|c s IH]; [reflexivity|].
  cbn [PyStr.rstrip]. destruct (PyStr.rstrip s); [destruct (PyStr.is_space c)|];
    simpl in *; lia.
Qed.

Lemma strip_fixed (s : string) :
  PyStr.strip s = s -> PyStr.lstrip s = s /\ PyStr.rstrip s = s.
Proof.
  unfold PyStr.strip. intros H.
  assert (Hl : PyStr.lstrip s = s).
  { apply lstrip_same_length.
    pose proof (length_lstrip s). pose proof (length_rstrip (PyStr.lstrip s)).
    rewrite H in *. lia. }
  rewrite Hl in H. split; assumption.
Qed.

Lemma rstrip_app (s t : string) :
  PyStr.rstrip t = t -> t <> "" -> PyStr.rstrip (s ++ t) = s ++ t.
Proof.
  intros Ht Hne. induction s as [|c s IH]; [exact Ht|].
  rewrite app_cons_string. cbn [PyStr.rstrip]. rewrite IH.
  destruct (s ++ t) eqn:Hst; [|reflexivity].
  destruct s; [|rewrite app_cons_string in Hst; discriminate].
  change ("" ++ t) with t in Hst. congruence.
Qed.

Lemma rstrip_app_space (s : string) : PyStr.rstrip (s ++ " ") = PyStr.rstrip s.
Proof.
  induction s as [|c s IH]; [reflexivity|].
  rewrite app_cons_string. cbn [PyStr.rstrip]. rewrite IH. reflexivity.
Qed.

Lemma plain_cons (c : ascii) (s : string) :
  plain (String c s) = true ->
  PyStr.is_space c = false /\ Ascii.eqb c "@" = false /\ plain s = true.
Proof.
  cbn [plain]. destruct (PyStr.is_space c); [discriminate|].
  destruct (Ascii.eqb c "@"); [discriminate|]. simpl. auto.
Qed.

Lemma rstrip_plain (s : string) : plain s = true -> PyStr.rstrip s = s.
Proof.
  induction s as [|c s IH]; [reflexivity|]. intros H.
  apply plain_cons in H. destruct H as (Hsp & _ & Hs).
  cbn [PyStr.rstrip]. rewrite IH by exact Hs. rewrite Hsp. destruct s; reflexivity.
Qed.

Lemma plain_no_at (s : string) : plain s = true -> PyStr.find_char "@" s = None.
Proof.
  induction s as [|c s IH]; [reflexivity|]. intros H.
  apply plain_cons in H. destruct H as (_ & Hat & Hs).
  simpl. rewrite Hat, IH by exact Hs. reflexivity.
Qed.

Lemma plain_no_linefeed (s : string) : plain s = true -> PyStr.find_char PyStr.LF s = None.
Proof.
  induction s as [|c s IH]; [reflexivity|]. intros H.
  apply plain_cons in H. destruct H as (Hsp & _ & Hs).
  simpl. rewrite IH by exact Hs.
  destruct (Ascii.eqb c PyStr.LF) eqn:Hc; [|reflexivity].
  apply Ascii.eqb_eq in Hc. subst c. discriminate.
Qed.

Lemma split_on_fuel_at_marker (fuel : nat) (cur rest : string) :
  PyStr.split_on_fuel (S fuel) "@@" cur (String "@" (String "@" rest))
  = cur :: PyStr.split_on_fuel fuel "@@" "" rest.
Proof. destruct rest; reflexivity. Qed.

Lemma split_on_fuel_before_marker (fuel : nat) (cur s : string) (a : ascii) :
  Ascii.eqb a "@" = false ->
  PyStr.split_on_fuel (S fuel) "@@" cur (String a s)
  = PyStr.split_on_fuel fuel "@@" (cur ++ String a "") s.
Proof.
  intros Ha. cbn [PyStr.split_on_fuel String.prefix].
  destruct (ascii_dec "@" a) as [<-|_]; [discriminate|reflexivity].
Qed.

(** [split('@@')] up to the first separator *)
Lemma split_on_marker (x rest cur : string) (fuel : nat) :
  PyStr.find_char "@" x = None -> (String.length x < fuel)%nat ->
  exists tail : list string,
    PyStr.split_on_fuel fuel "@@" cur (x ++ "@@" ++ rest) = (cur ++ x) :: tail.
Proof.
  revert cur fuel. induction x as [|a x IH]; intros cur fuel Hx Hfuel.
  - destruct fuel as [|fuel]; [simpl in Hfuel; lia|].
    change ("" ++ "@@" ++ rest) with (String "@" (String "@" rest)).
    rewrite split_on_fuel_at_marker.
    eexists. rewrite app_empty_string. reflexivity.
  - destruct fuel as [|fuel]; [simpl in Hfuel; lia|].
    simpl in Hx. destruct (Ascii.eqb a "@") eqn:Ha; [discriminate|].
    destruct (PyStr.find_char "@" x) eqn:Hx'; [discriminate|].
    rewrite app_cons_string, split_on_fuel_before_marker by exact Ha.
    destruct (IH (cur ++ String a "") fuel eq_refl ltac:(simpl in Hfuel; lia))
      as [tail Htail].
    exists tail. rewrite Htail, app_assoc_string. reflexivity.
Qed.

(** [split()] over a word without white space *)
Lemma split_ws_word (w rest cur : string) :
  plain w = true ->
  PyStr.split_ws_aux cur (w ++ rest) = PyStr.split_ws_aux (cur ++ w) rest.
Proof.
  revert cur. induction w as [|c w IH]; intros cur Hw.
  - rewrite app_empty_string. reflexivity.
  - apply plain_cons in Hw. destruct Hw as (Hsp & _ & Hw).
    rewrite app_cons_string. cbn [PyStr.split_ws_aux]. rewrite Hsp.
    rewrite IH by exact Hw. rewrite app_assoc_string. reflexivity.
Qed.

Lemma split_ws_ranges (old new : string) :
  plain old = true -> plain new = true ->
  PyStr.split_ws ("-" ++ old ++ " +" ++ new) = ["-" ++ old; "+" ++ new].
Proof.
  intros Hold Hnew. unfold PyStr.split_ws.
  change ("-" ++ old ++ " +" ++ new) with (String "-" (old ++ " +" ++ new)).
  cbn [PyStr.split_ws_aux]. change (PyStr.is_space "-") with false. cbv iota.
  rewrite split_ws_word by exact Hold.
  change (" +" ++ new) with (String " " (String "+" new)).
  cbn [PyStr.split_ws_aux]. change (PyStr.is_space " ") with true.
  change (PyStr.is_space "+") with false. cbv iota.
  change ("" ++ "-") with "-".
  change (("-" ++ old)) with (String "-" old). cbv iota. f_equal.
  replace new with (new ++ "") at 1 by apply app_empty_string.
  rewrite split_ws_word by exact Hnew.
  change ("" ++ "+") with "+". change ("+" ++ new) with (String "+" new).
  reflexivity.
Qed.

Lemma header_ranges (old new : string) :
  plain old = true -> plain new = true ->
  PyStr.split_ws
    (PyStr.strip (nth 1 (PyStr.split_on "@@" ("@@ -" ++ old ++ " +" ++ new ++ " @@")) ""))
  = ["-" ++ old; "+" ++ new].
Proof.
  intros Hold Hnew.
  set (x := " -" ++ old ++ " +" ++ new ++ " ").
  assert (Hx : PyStr.find_char "@" x = None).
  { unfold x. apply find_char_app; [reflexivity|].
    apply find_char_app; [apply plain_no_at, Hold|].
    apply find_char_app; [reflexivity|].
    apply find_char_app; [apply plain_no_at, Hnew|reflexivity]. }
  assert (Hheader : "@@ -" ++ old ++ " +" ++ new ++ " @@" = "@@" ++ x ++ "@@" ++ "").
  { unfold x. change ("@@ -" ++ ?r) with ("@@" ++ " -" ++ r).
    rewrite !app_assoc_string. reflexivity. }
  rewrite Hheader. unfold PyStr.split_on.
  change ("@@" ++ x ++ "@@" ++ "") with (String "@" (String "@" (x ++ "@@" ++ ""))).
  rewrite split_on_fuel_at_marker.
  destruct (split_on_marker x "" ""
              (String.length (String "@" (String "@" (x ++ "@@" ++ "")))) Hx)
    as [tail Htail].
  { cbn [String.length]. clear. induction x as [|a x IH]; [simpl; lia|].
    rewrite app_cons_string. simpl in *. lia. }
  rewrite Htail. cbn [nth]. change ("" ++ x) with x.
  assert (Hstrip : PyStr.strip x = "-" ++ old ++ " +" ++ new).
  { unfold PyStr.strip, x.
    change (PyStr.lstrip (" -" ++ old ++ " +" ++ new ++ " "))
      with ("-" ++ old ++ " +" ++ new ++ " ").
    replace ("-" ++ old ++ " +" ++ new ++ " ")
      with (("-" ++ old ++ " +" ++ new) ++ " ")
      by (rewrite !app_assoc_string; reflexivity).
    rewrite rstrip_app_space.
    replace ("-" ++ old ++ " +" ++ new) with (("-" ++ old ++ " ") ++ ("+" ++ new))
      by (rewrite !app_assoc_string; reflexivity).
    apply rstrip_app; [|discriminate].
    apply (rstrip_plain (String "+" new)). cbn [plain]. rewrite Hnew. reflexivity. }
  rewrite Hstrip. apply split_ws_ranges; assumption.
Qed.

Lemma prefix_empty (s : string) : String.prefix "" s = true.
Proof. destruct s; reflexivity. Qed.

Lemma strip_after_prefix (a b : ascii) (path : string) :
  PyStr.is_space a = false ->
  PyStr.strip path = path -> path <> "" ->
  PyStr.strip (String a (String b path)) = String a (String b path).
Proof.
  intros Ha Hstrip Hne. destruct (strip_fixed _ Hstrip) as [_ Hr].
  unfold PyStr.strip. cbn [PyStr.lstrip]. rewrite Ha.
  apply (rstrip_app (String a (String b "")) path Hr Hne).
Qed.

Lemma parse_old_header (st : parse_state) (path : string) :
  PyStr.strip path = path -> path <> "" -> current_changes st = [] ->
  parse_line st ("--- a/" ++ path)
  = {| changes := changes st; current_file := Some path; current_changes := [] |}.
Proof.
  intros Hstrip Hne Hcc. unfold parse_line.
  change (PyStr.startswith "--- " ("--- a/" ++ path)) with true. cbv iota.
  rewrite save_changes_no_hunks by exact Hcc.
  change (PyStr.drop 4 ("--- a/" ++ path)) with (String "a" (String "/" path)).
  rewrite strip_after_prefix by (assumption || reflexivity).
  unfold PyStr.startswith. cbn [String.prefix].
  destruct (ascii_dec "a" "a") as [_|H]; [|congruence].
  destruct (ascii_dec "/" "/") as [_|H]; [|congruence].
  rewrite prefix_empty. cbn [PyStr.drop]. rewrite Hcc. reflexivity.
Qed.

Lemma parse_new_header (st : parse_state) (path : string) :
  PyStr.strip path = path -> path <> "" ->
  parse_line st ("+++ b/" ++ path)
  = {| changes := changes st; current_file := Some path;
       current_changes := current_changes st |}.
Proof.
  intros Hstrip Hne. unfold parse_line.
  change (PyStr.startswith "--- " ("+++ b/" ++ path)) with false.
  change (PyStr.startswith "+++ " ("+++ b/" ++ path)) with true. cbv iota.
  change (PyStr.drop 4 ("+++ b/" ++ path)) with (String "b" (String "/" path)).
  rewrite strip_after_prefix by (assumption || reflexivity).
  unfold PyStr.startswith. cbn [String.prefix].
  destruct (ascii_dec "b" "b") as [_|H]; [|congruence].
  destruct (ascii_dec "/" "/") as [_|H]; [|congruence].
  rewrite prefix_empty. reflexivity.
Qed.

Lemma parse_hunk_header (st : parse_state) (old new : string) :
  plain old = true -> plain new = true ->
  parse_line st ("@@ -" ++ old ++ " +" ++ new ++ " @@")
  = {| changes := changes st; current_file := current_file st;
       current_changes :=
         current_changes st
           ++ [{| old_range := old; new_range := new; hunk_lines := [] |}] |}.
Proof.
  intros Hold Hnew. unfold parse_line.
  change (PyStr.startswith "--- " ("@@ -" ++ old ++ " +" ++ new ++ " @@")) with false.
  change (PyStr.startswith "+++ " ("@@ -" ++ old ++ " +" ++ new ++ " @@")) with false.
  change (PyStr.startswith "@@" ("@@ -" ++ old ++ " +" ++ new ++ " @@")) with true.
  cbv iota. rewrite header_ranges by assumption. reflexivity.
Qed.

Lemma hunk_line_no_marker (line : string) :
  hunk_line line = true ->
  PyStr.startswith "--- " line = false
  /\ PyStr.startswith "+++ " line = false
  /\ PyStr.startswith "@@" line = false
  /\ PyStr.startswith "+" line || PyStr.startswith "-" line || PyStr.startswith " " line
     = true.
Proof.
  unfold hunk_line. intros H.
  apply andb_prop in H. destruct H as [H Hnew].
  apply andb_prop in H. destruct H as [Hsign Hold].
  apply negb_true_iff in Hnew, Hold.
  repeat split; try assumption.
  unfold PyStr.startswith in *. destruct line as [|c r]; [reflexivity|].
  cbn [String.prefix] in *.
  destruct (ascii_dec "@" c) as [<-|_]; [|reflexivity].
  exfalso. revert Hsign.
  destruct (ascii_dec "+" "@"); [discriminate|].
  destruct (ascii_dec "-" "@"); [discriminate|].
  destruct (ascii_dec " " "@"); [discriminate|]. discriminate.
Qed.

Lemma parse_hunk_line (st : parse_state) (line : string) (h : Hunk) (hs : list Hunk) :
  hunk_line line = true -> current_changes st = h :: hs ->
  parse_line st line
  = {| changes := changes st; current_file := current_file st;
       current_changes := append_to_last line (current_changes st) |}.
Proof.
  intros Hline Hcc. destruct (hunk_line_no_marker line Hline) as (H1 & H2 & H3 & H4).
  unfold parse_line. rewrite H1, H2, H3, Hcc, H4. reflexivity.
Qed.

Lemma parse_hunk_body (body : list string) (cs : list (string * list Hunk))
    (f : option string) (old new : string) (acc : list string) :
  Forall (fun line => hunk_line line = true) body ->
  fold_left parse_line body
    {| changes := cs; current_file := f;
       current_changes := [{| old_range := old; new_range := new; hunk_lines := acc |}] |}
  = {| changes := cs; current_file := f;
       current_changes :=
         [{| old_range := old; new_range := new; hunk_lines := acc ++ body |}] |}.
Proof.
  intros Hbody. revert acc. induction Hbody as [|line body Hline _ IH]; intros acc.
  - rewrite app_nil_r. reflexivity.
  - cbn [fold_left]. erewrite parse_hunk_line; [|exact Hline|reflexivity].
    cbn [changes current_file current_changes append_to_last old_range new_range
         hunk_lines].
    rewrite IH, <- app_assoc. reflexivity.
Qed.

(** X14: a diff of one file and one hunk whose two file headers, hunk header
    and hunk lines stand on lines of their own is parsed by
    [_parse_diff_content] into that file with that hunk, and
    [_apply_diff_manually] applies the hunk to the file.  The path has no
    blanks around it, the ranges hold neither white space nor [@], and no
    hunk line starts like a file header. *)
Theorem one_hunk_diff_is_parsed (tree : gmap string string) (path old new : string)
    (body : list string) :
  path <> "" -> PyStr.strip path = path -> PyStr.find_char PyStr.LF path = None ->
  plain old = true -> plain new = true ->
  Forall (fun line => hunk_line line = true /\ PyStr.find_char PyStr.LF line = None)
         body ->
  let hunk := {| old_range := old; new_range := new; hunk_lines := body |} in
  _parse_diff_content (one_hunk_diff path old new body) = [(path, [hunk])]
  /\ _apply_diff_manually tree (one_hunk_diff path old new body)
     = _apply_file_changes tree path [hunk].
Proof.
  intros Hne Hstrip Hpath Hold Hnew Hbody hunk.
  assert (Hparse : _parse_diff_content (one_hunk_diff path old new body)
                   = [(path, [hunk])]).
  { unfold _parse_diff_content, one_hunk_diff.
    rewrite split_join_lines; [|discriminate|].
    - cbn [fold_left].
      rewrite parse_old_header by (assumption || reflexivity).
      rewrite parse_new_header by assumption.
      rewrite parse_hunk_header by assumption.
      cbn [changes current_file current_changes app].
      rewrite parse_hunk_body
        by (eapply Forall_impl; [exact Hbody|]; intros line [H _]; exact H).
      unfold save_changes, file_and_changes.
      cbn [changes current_file current_changes].
      destruct path as [|c p]; [congruence|]. cbn [dict_set app]. reflexivity.
    - repeat constructor.
      + apply (find_char_app PyStr.LF "--- a/" path eq_refl Hpath).
      + apply (find_char_app PyStr.LF "+++ b/" path eq_refl Hpath).
      + apply find_char_app; [reflexivity|].
        apply find_char_app; [apply plain_no_linefeed, Hold|].
        apply find_char_app; [reflexivity|].
        apply find_char_app; [apply plain_no_linefeed, Hnew|reflexivity].
      + eapply Forall_impl; [exact Hbody|]. intros line [_ H]. exact H. }
  split; [exact Hparse|].
  unfold _apply_diff_manually. rewrite Hparse. cbn [apply_all].
  destruct (_apply_file_changes tree path [hunk]) as [[|] tree']; reflexivity.
Qed.

End WellFormedDiff.

(** ** Diff files that [git apply] rejects *)

Section ApplyDiffFile.

Import GitManager.
Context {matcher : Difflib.SequenceMatcher}.
Context {access : FileAccess}.

(** X15: a diff of one hunk as [_generate_unified_diff] renders it holds no
    change for the parser, so when [git apply] rejects the diff file
    [apply_diff_file] falls back to the manual application, which reports
    success and leaves the working tree as it was. *)
Theorem rejected_single_hunk_diff_is_reported_applied
    (git_apply : gmap string string -> string -> option (gmap string string))
    (files tree : gmap string string) (diff_file_path path original modified : string)
    (group : list Difflib.opcode) :
  PyStr.find_char PyStr.LF path = None ->
  Difflib.get_grouped_opcodes (PyStr.splitlines_keepends_aux "" original)
                              (PyStr.splitlines_keepends_aux "" modified) 3
  = [group] ->
  files !! diff_file_path
  = Some (DiffGenerator._generate_unified_diff path original modified) ->
  git_apply tree (DiffGenerator._generate_unified_diff path original modified) = None ->
  _parse_diff_content (DiffGenerator._generate_unified_diff path original modified) = []
  /\ apply_diff_file true git_apply files tree diff_file_path = (true, tree).
Proof.
  intros Hpath Hgroup Hfile Hgit.
  pose proof (single_hunk_diff_parses_to_nothing path original modified group
                Hpath Hgroup) as Hparse.
  split; [exact Hparse|].
  unfold apply_diff_file. simpl. rewrite Hfile, Hgit.
  unfold _apply_diff_manually. rewrite Hparse. reflexivity.
Qed.

End ApplyDiffFile.

(** ** The results of a worker *)

Section WorkerFacts.

Import WorkerAgent.
Context {JSON : PyJson} {collaborators : Collaborators}.

(** X16: of a response without an opening brace [_parse_llm_response] returns
    one violation for every line that starts, after stripping, with [- ] or
    [* ], in the order of the lines, built from the stripped line. *)
Theorem response_without_brace_gives_one_violation_per_bullet (response : string) :
  PyStr.find_char "{" response = None ->
  _parse_llm_response response
  = PList (map (fun line => PDict (manual_violation (PyStr.strip line)))
               (filter is_bullet (PyStr.split_char PyStr.LF response))).
Proof.
  intros Hno. rewrite parse_llm_response_without_json by exact Hno.
  rewrite manual_extract_bullets. reflexivity.
Qed.

(** X17: when the text from the first opening brace to the last closing brace
    decodes to a JSON object, [_parse_llm_response] returns the value of its
    key [violations], whatever that value is, and the bullet lines are not
    read; without the key it returns the violations extracted from the bullet
    lines. *)
Theorem decoded_object_decides_the_violations (response : string)
    (json_start last_brace : nat) (d : gmap string pyval) :
  PyStr.find_char "{" response = Some json_start ->
  PyStr.rfind_char "}" response = Some last_brace ->
  (json_start <= last_brace)%nat ->
  json_loads (PyStr.slice json_start (S last_brace) response) = Ok (PDict d) ->
  _parse_llm_response response
  = match d !! "violations" with
    | Some violations => violations
    | None => PList (manual_extract response)
    end.
Proof.
  intros Hstart Hend Hle Hloads.
  unfold _parse_llm_response, parse_llm_response_body.
  rewrite Hstart, Hend.
  assert (Hlt : (json_start <? S last_brace)%nat = true) by (apply Nat.ltb_lt; lia).
  rewrite Hlt. simpl. rewrite Hloads. simpl.
  destruct (d !! "violations"); reflexivity.
Qed.

(** The three ways of [_parse_llm_response]: nothing, the bullet lines, or
    the entry of a decoded object. *)
Lemma parse_llm_response_cases (response : string) :
  _parse_llm_response response = PList []
  \/ _parse_llm_response response = PList (manual_extract response)
  \/ exists (json_start last_brace : nat) (d : gmap string pyval),
       PyStr.find_char "{" response = Some json_start
       /\ PyStr.rfind_char "}" response = Some last_brace
       /\ (json_start <= last_brace)%nat
       /\ json_loads (PyStr.slice json_start (S last_brace) response) = Ok (PDict d)
       /\ d !! "violations" = Some (_parse_llm_response response).
Proof.
  unfold _parse_llm_response, parse_llm_response_body.
  destruct (PyStr.find_char "{" response) as [json_start|]; [|right; left; reflexivity].
  destruct (PyStr.rfind_char "}" response) as [last_brace|];
    [|right; left; destruct (json_start <? 0)%nat eqn:H0;
      [apply Nat.ltb_lt in H0; lia|reflexivity]].
  destruct (json_start <? S last_brace)%nat eqn:Hlt; [|right; left; reflexivity].
  apply Nat.ltb_lt in Hlt.
  destruct (json_loads (PyStr.slice json_start (S last_brace) response))
    as [parsed|] eqn:Hloads; [|left; reflexivity].
  simpl. destruct parsed as [| | | | s | l | d]; simpl;
    try (left; reflexivity).
  - destruct (PyStr.contains "violations" s); [left|right; left]; reflexivity.
  - destruct (existsb _ l); [left|right; left]; reflexivity.
  - destruct (d !! "violations") as [v|] eqn:Hv; [|right; left; reflexivity].
    right; right. exists json_start, last_brace, d.
    split; [reflexivity|]. split; [reflexivity|]. split; [lia|].
    split; [exact Hloads|exact Hv].
Qed.

Lemma worker_violations_have_a_length (worker path : string) :
  has_len (violations (process_file worker path)) = true.
Proof.
  unfold process_file. destruct (parse_file path) as [e|code_analysis]; [reflexivity|].
  destruct (generate_analysis_context code_analysis) as [e|rag_context]; [reflexivity|].
  unfold analyze. destruct (ainvoke (analysis_prompt rag_context)) as [e|text];
    [reflexivity|].
  destruct (has_len (_parse_llm_response text)) eqn:Hlen; [exact Hlen|reflexivity].
Qed.

(** X18: the violations of the result of [process_file] always have a length
    (they are a list, a string or a dictionary): a value of the model without
    one makes the worker fall back to the rule-based violations. *)
Theorem worker_violations_always_have_a_length (worker path : string) :
  has_len (violations (process_file worker path)) = true.
Proof. apply worker_violations_have_a_length. Qed.

(** X19: the result of [process_file] names the worker and the file; it is a
    success exactly when the file is parsed and the context retrieved,
    whatever the model and the decoder do; it has an error message exactly
    when it is no success, and then no violations. *)
Theorem worker_fails_only_before_the_model_is_called (worker path : string) :
  let r := process_file worker path in
  worker_id r = worker
  /\ file_path r = path
  /\ (success r = true
      <-> exists code_analysis rag_context,
            parse_file path = inr code_analysis
            /\ generate_analysis_context code_analysis = inr rag_context)
  /\ (success r = true <-> error_message r = None)
  /\ (success r = false ->
      violations r = PList []
      /\ exists e : string, error_message r = Some ("Worker processing failed: " ++ e)).
Proof.
  unfold process_file. cbv zeta.
  destruct (parse_file path) as [e|code_analysis] eqn:Hparse; simpl.
  - repeat split; try discriminate.
    + intros (a & c & [=] & _).
    + exists e. reflexivity.
  - destruct (generate_analysis_context code_analysis) as [e|rag_context] eqn:Hctx; simpl.
    + repeat split; try discriminate.
      * intros (a & c & [= <-] & Hc). congruence.
      * exists e. reflexivity.
    + repeat split; try discriminate; try reflexivity.
      intros _. exists code_analysis, rag_context. split; [reflexivity|exact Hctx].
Qed.

End WorkerFacts.

(** ** The results of a run *)

Section OrchestratorFacts.

Import WorkerAgent MasterOrchestrator.

Lemma set_counters_same (s : AnalysisSession) :
  set_counters s (processed_files s) (failed_files s) = s.
Proof. destruct s; reflexivity. Qed.

Lemma count_results_exact (outcomes : list TaskOutcome) (s s' : AnalysisSession)
    (rs rs' : list WorkerResult) :
  count_results (s, rs) outcomes = (s', rs', false) ->
  s' = set_counters s
         (processed_files s + length (filter (fun o => succeeded o = true) outcomes))
         (failed_files s + length (filter (fun o => succeeded o = false) outcomes))
  /\ rs' = (rs ++ omap returned outcomes)%list.
Proof.
  revert s rs. induction outcomes as [|o outcomes IH]; intros s rs.
  - intros [= <- <-]. simpl. rewrite !Nat.add_0_r, set_counters_same, app_nil_r.
    split; reflexivity.
  - cbn [count_results]. rewrite !filter_cons.
    destruct o as [| |r]; cbn [count_result succeeded]; [| discriminate |].
    + intros Hrest. apply IH in Hrest. destruct Hrest as [-> ->].
      rewrite decide_False by discriminate.
      rewrite decide_True by reflexivity. cbn [omap list_omap returned].
      split; [|reflexivity]. destruct s; simpl. f_equal; lia.
    + destruct (success r) eqn:Hr; intros Hrest; apply IH in Hrest;
        destruct Hrest as [-> ->].
      * rewrite decide_True by reflexivity. rewrite decide_False by discriminate.
        cbn [omap list_omap returned]. rewrite <- app_assoc.
        split; [|reflexivity]. destruct s; simpl. f_equal; lia.
      * rewrite decide_False by discriminate. rewrite decide_True by reflexivity.
        cbn [omap list_omap returned]. rewrite <- app_assoc.
        split; [|reflexivity]. destruct s; simpl. f_equal; lia.
Qed.


Lemma process_batch_returned (env : Env) (n_workers : nat)
    (st st' : AnalysisSession * list WorkerResult) (batch_files : list string) :
  process_batch env n_workers st batch_files = (st', false) ->
  count_results st (batch_outcomes env n_workers batch_files) = (st', false).
Proof.
  unfold process_batch, batch_outcomes.
  destruct batch_files as [|p batch_files]; [intros H; exact H|].
  destruct n_workers; [discriminate|]. intros H. exact H.
Qed.

Lemma process_batches_exact (env : Env) (n_workers : nat) (batches : list (list string))
    (s s' : AnalysisSession) (rs rs' : list WorkerResult) :
  process_batches env n_workers (s, rs) batches = (s', rs', false) ->
  let outcomes := concat (map (batch_outcomes env n_workers) batches) in
  s' = set_counters s
         (processed_files s + length (filter (fun o => succeeded o = true) outcomes))
         (failed_files s + length (filter (fun o => succeeded o = false) outcomes))
  /\ rs' = (rs ++ omap returned outcomes)%list.
Proof.
  revert s rs. induction batches as [|batch batches IH]; intros s rs.
  - intros [= <- <-]. simpl. rewrite !Nat.add_0_r, set_counters_same, app_nil_r.
    split; reflexivity.
  - cbn [process_batches].
    destruct (process_batch env n_workers (s, rs) batch) as [[s1 rs1] [|]] eqn:Hbatch;
      [discriminate|].
    intros Hrest. apply IH in Hrest. cbv zeta in Hrest. destruct Hrest as [-> ->].
    apply process_batch_returned, count_results_exact in Hbatch.
    destruct Hbatch as [-> ->].
    cbv zeta. cbn [map concat]. rewrite !filter_app, !length_app, omap_app.
    split.
    + destruct s; simpl. f_equal; lia.
    + rewrite app_assoc. reflexivity.
Qed.

Lemma process_files_completed (env : Env) (session s' : AnalysisSession)
    (file_paths : list string) :
  _process_files env session file_paths = (s', false) ->
  exists (batches : list (list string)) (s1 : AnalysisSession) (rs : list WorkerResult),
    batches_of env file_paths = Ok batches
    /\ process_batches env (max_workers env) (session, []) batches = (s1, rs, false)
    /\ s' = set_status (set_worker_results s1 rs) "completed".
Proof.
  unfold _process_files, process_files_body.
  destruct (create_file_analysis_records_ok env); simpl; [|discriminate].
  destruct (forallb (worker_initialize_ok env) (seq 0 (max_workers env))); simpl;
    [|discriminate].
  destruct (batches_of env file_paths) as [batches|]; [|discriminate].
  destruct (process_batches env (max_workers env) (session, []) batches)
    as [[s1 rs] [|]] eqn:Hrun; [discriminate|].
  destruct (summary_ok rs); [|discriminate].
  intros [= <-]. exists batches, s1, rs. split; [reflexivity|]. split; [exact Hrun|reflexivity].
Qed.

(** X20: when [_process_files] returns, the session is [completed],
    [processed_files] has grown by the number of tasks that returned a
    successful result, [failed_files] by the number of the other tasks, and
    [worker_results] holds the results of the tasks that returned, in the
    order of the files. *)
Theorem completed_session_counts_the_outcomes (env : Env) (session s' : AnalysisSession)
    (file_paths : list string) (batches : list (list string)) :
  batches_of env file_paths = Ok batches ->
  _process_files env session file_paths = (s', false) ->
  let outcomes := concat (map (batch_outcomes env (max_workers env)) batches) in
  status s' = "completed"
  /\ processed_files s'
     = (processed_files session
        + length (filter (fun o => succeeded o = true) outcomes))%nat
  /\ failed_files s'
     = (failed_files session
        + length (filter (fun o => succeeded o = false) outcomes))%nat
  /\ worker_results s' = omap returned outcomes.
Proof.
  intros Hbatches Hrun. apply process_files_completed in Hrun.
  destruct Hrun as (batches' & s1 & rs & Hb & Hrun & ->).
  rewrite Hbatches in Hb. injection Hb as <-.
  apply process_batches_exact in Hrun. cbv zeta in Hrun. destruct Hrun as [-> ->].
  cbv zeta. split; [reflexivity|]. split; [reflexivity|]. split; reflexivity.
Qed.

Lemma batches_from_sizes (file_paths : list string) (b fuel i : nat) :
  (0 < b)%nat ->
  let batches := map (fun i => take b (drop i file_paths))
                     (range_from fuel i (length file_paths) b) in
  Forall (fun batch => (0 < length batch <= b)%nat) batches
  /\ forall (k : nat) (batch : list string),
       batches !! k = Some batch -> (S k < length batches)%nat -> length batch = b.
Proof.
  intros Hb. revert i. induction fuel as [|fuel IH]; intros i; cbv zeta.
  - split; [constructor|]. intros k batch H. simpl in H. destruct k; discriminate.
  - cbn [range_from].
    destruct (i <? length file_paths)%nat eqn:Hi.
    + apply Nat.ltb_lt in Hi. cbn [map].
      destruct (IH (i + b)%nat) as [Hall Hfull]. split.
      * constructor; [|exact Hall].
        rewrite length_take, length_drop. lia.
      * intros k batch Hk Hlast. destruct k as [|k].
        -- injection Hk as <-. rewrite length_take, length_drop.
           cbn [length] in Hlast. rewrite length_map in Hlast.
           destruct fuel as [|fuel']; [simpl in Hlast; lia|].
           cbn [range_from] in Hlast.
           destruct (i + b <? length file_paths)%nat eqn:Hnext;
             [|simpl in Hlast; lia].
           apply Nat.ltb_lt in Hnext. lia.
        -- cbn [lookup] in Hk. simpl in Hk. apply (Hfull k batch Hk).
           cbn [length] in Hlast. lia.
    + split; [constructor|]. intros k batch H. simpl in H. destruct k; discriminate.
Qed.

(** X21: with a positive batch size the batches of [_process_files] are
    consecutive pieces of the file list, in order and without a gap; none is
    empty or longer than the batch size, and every batch but the last has
    exactly that size. *)
Theorem batches_partition_the_files (env : Env) (file_paths : list string)
    (batches : list (list string)) :
  (0 < batch_size env)%Z ->
  batches_of env file_paths = Ok batches ->
  concat batches = file_paths
  /\ Forall (fun batch => (0 < length batch <= Z.to_nat (batch_size env))%nat) batches
  /\ forall (k : nat) (batch : list string),
       batches !! k = Some batch -> (S k < length batches)%nat ->
       length batch = Z.to_nat (batch_size env).
Proof.
  intros Hpos Hb. split; [exact (batches_of_concat env file_paths batches Hpos Hb)|].
  unfold batches_of, py_range in Hb.
  destruct (batch_size env =? 0)%Z eqn:H0; [apply Z.eqb_eq in H0; lia|].
  destruct (batch_size env <? 0)%Z eqn:Hneg; [apply Z.ltb_lt in Hneg; lia|].
  simpl in Hb. injection Hb as <-.
  apply (batches_from_sizes file_paths (Z.to_nat (batch_size env))). lia.
Qed.

Lemma imap_zip_workers (env : Env) (g : nat -> nat) (batch_files : list string) :
  imap (fun j file_path => run_task env (g j) file_path) batch_files
  = zip_with (run_task env) (imap (fun j _ => g j) batch_files) batch_files.
Proof.
  revert g. induction batch_files as [|p rest IH]; intros g; [reflexivity|].
  cbn [imap zip_with]. f_equal. apply (IH (g ∘ S)).
Qed.

(** X22: in a batch the file number [j] goes to the worker [j mod W]; no
    worker index is [W] or more, and when the batch is not longer than the
    number of workers no two files of it share a worker. *)
Theorem batch_tasks_go_round_robin (env : Env) (n_workers : nat)
    (st : AnalysisSession * list WorkerResult) (batch_files : list string) :
  (0 < n_workers)%nat ->
  process_batch env n_workers st batch_files
  = count_results st
      (zip_with (run_task env) (batch_workers n_workers batch_files) batch_files)
  /\ (forall (j w : nat),
        batch_workers n_workers batch_files !! j = Some w ->
        w = Nat.modulo j n_workers /\ (w < n_workers)%nat)
  /\ ((length batch_files <= n_workers)%nat ->
      NoDup (batch_workers n_workers batch_files)).
Proof.
  intros Hn. split; [|split].
  - unfold process_batch, batch_workers. rewrite imap_zip_workers.
    destruct batch_files; [reflexivity|]. destruct n_workers; [lia|reflexivity].
  - intros j w Hj. unfold batch_workers in Hj. rewrite list_lookup_imap in Hj.
    destruct (batch_files !! j); [|discriminate]. injection Hj as <-.
    split; [reflexivity|]. apply Nat.mod_upper_bound. lia.
  - intros Hlen. apply NoDup_alt. intros i j w Hi Hj.
    unfold batch_workers in Hi, Hj. rewrite list_lookup_imap in Hi, Hj.
    destruct (batch_files !! i) eqn:Hi'; [|discriminate].
    destruct (batch_files !! j) eqn:Hj'; [|discriminate].
    apply lookup_lt_Some in Hi', Hj'.
    injection Hi as Hi. injection Hj as Hj.
    rewrite Nat.mod_small in Hi, Hj by lia. congruence.
Qed.

(** X23: once the file records and the workers are created, a batch size of
    zero makes [_process_files] fail the session, and a negative batch size
    makes it complete the session without processing any file. *)
Theorem batch_size_that_is_not_positive (env : Env) (session : AnalysisSession)
    (file_paths : list string) :
  create_file_analysis_records_ok env = true ->
  forallb (worker_initialize_ok env) (seq 0 (max_workers env)) = true ->
  (batch_size env = 0%Z ->
   _process_files env session file_paths = (set_status session "failed", true))
  /\ ((batch_size env < 0)%Z ->
      _process_files env session file_paths
      = (set_status (set_worker_results session []) "completed", false)).
Proof.
  intros Hrecords Hworkers.
  unfold _process_files, process_files_body, batches_of, py_range.
  rewrite Hrecords, Hworkers. simpl. split.
  - intros ->. reflexivity.
  - intros Hneg.
    destruct (batch_size env =? 0)%Z eqn:H0; [apply Z.eqb_eq in H0; lia|].
    apply Z.ltb_lt in Hneg. rewrite Hneg. reflexivity.
Qed.

(** X24: with a positive batch size, the session that [analyze_folder]
    returns is the current session, is [completed], has source type
    [folder], counts the files found, of which there is at least one, and
    its two counters add up to that number. *)
Theorem analyze_folder_accounts_for_every_file (env : Env) (folder_exists : bool)
    (python_files : list string) (store_session_ok : bool)
    (session_id session_name folder_path : string)
    (current_session after : option AnalysisSession) (session : AnalysisSession) :
  (0 < batch_size env)%Z ->
  analyze_folder env folder_exists python_files store_session_ok
    session_id session_name folder_path current_session = (Ok session, after) ->
  after = Some session
  /\ status session = "completed"
  /\ source_type session = "folder"
  /\ total_files session = length python_files
  /\ (0 < total_files session)%nat
  /\ (processed_files session + failed_files session)%nat = total_files session.
Proof.
  intros Hpos. unfold analyze_folder.
  destruct folder_exists; simpl; [|discriminate].
  destruct python_files as [|p rest] eqn:Hfiles; [discriminate|]. rewrite <- Hfiles.
  destruct store_session_ok; simpl; [|discriminate].
  destruct (_process_files env _ python_files) as [s' [|]] eqn:Hrun; [discriminate|].
  intros [= -> <-].
  apply process_files_completed in Hrun.
  destruct Hrun as (batches & s1 & rs & Hb & Hrun & ->).
  pose proof (process_batches_exact _ _ _ _ _ _ _ Hrun) as [Hs1 _].
  apply process_batches_done in Hrun. destruct Hrun as (Ht & _ & Heq).
  specialize (Heq eq_refl).
  rewrite (batches_of_concat env python_files batches Hpos Hb) in Heq.
  unfold files_done in Heq. simpl in *.
  repeat split; try reflexivity; try lia.
  - rewrite Hs1. reflexivity.
  - rewrite Ht, Hfiles. simpl. lia.
Qed.


Lemma batch_outcomes_are_tasks (env : Env) (n_workers : nat) (batch_files : list string)
    (outcome : TaskOutcome) :
  outcome ∈ batch_outcomes env n_workers batch_files ->
  exists (i : nat) (path : string), path ∈ batch_files /\ outcome = run_task env i path.
Proof.
  unfold batch_outcomes. intros H. apply list_elem_of_lookup in H. destruct H as [j Hj].
  rewrite list_lookup_imap in Hj.
  destruct (batch_files !! j) as [path|] eqn:Hpath; [|discriminate].
  injection Hj as <-. exists (Nat.modulo j n_workers), path.
  split; [eapply list_elem_of_lookup_2; exact Hpath|reflexivity].
Qed.

Lemma all_outcomes_are_tasks (env : Env) (n_workers : nat) (batches : list (list string)) :
  Forall (fun outcome => exists (i : nat) (path : string), outcome = run_task env i path)
         (concat (map (batch_outcomes env n_workers) batches)).
Proof.
  induction batches as [|batch batches IH]; [constructor|].
  cbn [map concat]. apply Forall_app_2; [|exact IH].
  apply Forall_forall. intros outcome Hin.
  apply batch_outcomes_are_tasks in Hin. destruct Hin as (i & path & _ & ->). eauto.
Qed.


Lemma returned_paths (g : nat -> nat) (env : Env) (batch_files : list string)
    (result_of : nat -> string -> WorkerResult) :
  (forall i path, run_task env i path = TaskResult (result_of i path)) ->
  (forall i path, file_path (result_of i path) = path) ->
  map file_path
      (omap returned (imap (fun j path => run_task env (g j) path) batch_files))
  = batch_files.
Proof.
  intros Htask Hpath. revert g.
  induction batch_files as [|p rest IH]; intros g; [reflexivity|].
  cbn [imap]. rewrite Htask. cbn [omap list_omap returned map]. rewrite Hpath.
  f_equal. apply (IH (g ∘ S)).
Qed.

End OrchestratorFacts.

(** ** Workers and orchestrator together *)

Section Pipeline.

Import WorkerAgent MasterOrchestrator.
Context {JSON : PyJson} {collaborators : Collaborators}.

(** X26: when every task is a call of [process_file], a run of
    [_process_files] that returns has one result for every file, in the order
    of the files; the violations of every result have a length, and the two
    counters have grown by the numbers of successful and failed results. *)
Theorem every_file_gets_its_result (env : Env) (worker_name : nat -> string)
    (session s' : AnalysisSession) (file_paths : list string) :
  (forall (i : nat) (path : string),
      run_task env i path = TaskResult (process_file (worker_name i) path)) ->
  (0 < batch_size env)%Z ->
  _process_files env session file_paths = (s', false) ->
  map file_path (worker_results s') = file_paths
  /\ Forall (fun r => has_len (violations r) = true) (worker_results s')
  /\ processed_files s'
     = (processed_files session
        + length (filter (fun r => success r = true) (worker_results s')))%nat
  /\ failed_files s'
     = (failed_files session
        + length (filter (fun r => success r = false) (worker_results s')))%nat.
Proof.
  intros Htask Hpos Hrun.
  apply process_files_completed in Hrun.
  destruct Hrun as (batches & s1 & rs & Hb & Hrun & ->).
  apply process_batches_exact in Hrun. cbv zeta in Hrun. destruct Hrun as [-> ->].
  cbn [worker_results set_status set_worker_results processed_files failed_files
       set_counters app].
  pose proof (batches_of_concat env file_paths batches Hpos Hb) as Hconcat.
  assert (Hout : forall batch,
             batch_outcomes env (max_workers env) batch
             = imap (fun j path =>
                       TaskResult (process_file (worker_name (Nat.modulo j (max_workers env)))
                                                path)) batch).
  { intros batch. unfold batch_outcomes. apply imap_ext. intros j path _. apply Htask. }
  assert (Hall : forall outcomes : list TaskOutcome,
             Forall (fun o => exists w p, o = TaskResult (process_file w p)) outcomes ->
             Forall (fun r => has_len (violations r) = true) (omap returned outcomes)
             /\ length (filter (fun o => succeeded o = true) outcomes)
                = length (filter (fun r => success r = true) (omap returned outcomes))
             /\ length (filter (fun o => succeeded o = false) outcomes)
                = length (filter (fun r => success r = false) (omap returned outcomes))).
  { induction 1 as [|o outcomes (w & p & ->) _ (IH1 & IH2 & IH3)].
    - repeat split; constructor.
    - cbn [omap list_omap returned]. rewrite !filter_cons. cbn [succeeded].
      split; [constructor; [apply worker_violations_have_a_length|exact IH1]|].
      split; repeat case_decide; cbn [length]; congruence. }
  assert (Hforall : Forall (fun o => exists w p, o = TaskResult (process_file w p))
                      (concat (map (batch_outcomes env (max_workers env)) batches))).
  { eapply Forall_impl; [apply all_outcomes_are_tasks|].
    intros o (i & p & ->). rewrite Htask. eauto. }
  destruct (Hall _ Hforall) as (H1 & H2 & H3).
  split; [|split; [exact H1|split; [rewrite H2|rewrite H3]; reflexivity]].
  rewrite <- Hconcat. clear -Htask.
  induction batches as [|batch batches IH]; [reflexivity|].
  cbn [map concat]. rewrite omap_app, map_app, IH. f_equal.
  apply (returned_paths (fun j => Nat.modulo j (max_workers env)) env batch
           (fun i path => process_file (worker_name i) path)).
  - intros i path. apply Htask.
  - intros i path. unfold process_file.
    destruct (parse_file path); [reflexivity|].
    destruct (generate_analysis_context _); reflexivity.
Qed.

End Pipeline.

(** ** Line counts *)

Section CodeParserFacts.

Import CodeParser.

Lemma blank_is_no_comment (line : string) : is_blank line = true -> is_comment line = false.
Proof.
  unfold is_blank, is_comment. destruct (PyStr.strip line); [reflexivity|discriminate].
Qed.

Lemma disjoint_counts (lines : list string) :
  (length (filter (fun line => is_blank line = true) lines)
   + length (filter (fun line => is_comment line = true) lines)
   <= length lines)%nat.
Proof.
  induction lines as [|line lines IH]; [simpl; lia|].
  rewrite !filter_cons. pose proof (blank_is_no_comment line) as Hd.
  repeat case_decide; cbn [length]; try lia.
  rewrite Hd in * by assumption. discriminate.
Qed.

(** X27: the line counts of [parse_file]: a text has at least one line, the
    number of code lines is never negative, and code, comment and blank
    lines add up to the total. *)
Theorem line_counts_add_up (content : string) :
  let counts := line_counts content in
  (1 <= total_lines counts)%nat
  /\ (0 <= code_lines counts)%Z
  /\ Z.of_nat (total_lines counts)
     = (code_lines counts + Z.of_nat (comment_lines counts)
        + Z.of_nat (blank_lines counts))%Z.
Proof.
  cbv zeta. unfold line_counts. cbn [total_lines code_lines comment_lines blank_lines].
  pose proof (disjoint_counts (PyStr.split_char PyStr.LF content)) as Hd.
  pose proof (split_char_nonempty PyStr.LF content) as Hne.
  destruct (PyStr.split_char PyStr.LF content) as [|l ls] eqn:Hs; [congruence|].
  cbn [length] in *. repeat split; lia.
Qed.

End CodeParserFacts.

(** ** Diff files *)

Section DiffFileFacts.

Import DiffGenerator WorkerAgent DiffFiles.
Context {RE : PyRe} {matcher : Difflib.SequenceMatcher} {host : Host}.
Context {JSON : PyJson} {collaborators : Collaborators}.

Lemma generate_file_diff_some (fs fs' : gmap string string) (now : string)
    (worker_result : WorkerResult) (output_dir : string) (diff_file : DiffFile) :
  generate_file_diff fs now worker_result output_dir = (Some diff_file, fs') ->
  exists (original_content : string) (violations : list pyval),
    fs !! file_path worker_result = Some original_content
    /\ truthy (WorkerAgent.violations worker_result) = true
    /\ iterate (WorkerAgent.violations worker_result) = Ok violations
    /\ fixes_applied diff_file
       = _parse_violations_to_fixes (file_path worker_result) violations original_content
    /\ fixes_applied diff_file <> []
    /\ diff_content diff_file
       = _generate_unified_diff (file_path worker_result) original_content
           (_apply_fixes original_content (fixes_applied diff_file)).
Proof.
  unfold generate_file_diff.
  destruct (truthy (WorkerAgent.violations worker_result)) eqn:Htruthy; simpl;
    [|discriminate].
  destruct (fs !! file_path worker_result) as [original_content|] eqn:Hread;
    [|discriminate].
  destruct (iterate (WorkerAgent.violations worker_result)) as [violations|] eqn:Hiter;
    [|discriminate].
  destruct (_parse_violations_to_fixes (file_path worker_result) violations
              original_content) as [|f fixes] eqn:Hfixes; [discriminate|].
  unfold write_file.
  destruct (writable (path_join output_dir _)); [|discriminate].
  destruct (writable (with_suffix _ ".json")) eqn:Hw; [|discriminate].
  intros [= <- <-]. exists original_content, violations. simpl.
  repeat split; try reflexivity; try discriminate. symmetry. exact Hfixes.
Qed.



(** X29: [generate_file_diff] makes a diff file from the result of
    [process_file] only if the file was parsed, the context retrieved, the
    model answered, and the answer decoded to a JSON object with a key
    [violations], whose value the violations are.  A failed model call, an
    answer that does not decode and an answer of bullet lines give no diff
    file. *)
Theorem diff_needs_a_decoded_violations_entry (fs fs' : gmap string string)
    (now worker path output_dir : string) (diff_file : DiffFile) :
  generate_file_diff fs now (process_file worker path) output_dir = (Some diff_file, fs') ->
  exists (code_analysis : CodeAnalysis) (rag_context : RAGContext) (response : string)
         (json_start last_brace : nat) (d : gmap string pyval),
    parse_file path = inr code_analysis
    /\ generate_analysis_context code_analysis = inr rag_context
    /\ ainvoke (analysis_prompt rag_context) = inr response
    /\ PyStr.find_char "{" response = Some json_start
    /\ PyStr.rfind_char "}" response = Some last_brace
    /\ json_loads (PyStr.slice json_start (S last_brace) response) = Ok (PDict d)
    /\ d !! "violations" = Some (violations (process_file worker path)).
Proof.
  intros Hdiff. apply generate_file_diff_some in Hdiff.
  destruct Hdiff as (content & vs & _ & Htruthy & Hiter & Hfixes & Hne & _).
  rewrite Hfixes in Hne. clear Hfixes.
  unfold process_file in *.
  destruct (parse_file path) as [e|code_analysis] eqn:Hparse; [discriminate|].
  destruct (generate_analysis_context code_analysis) as [e|rag_context] eqn:Hctx;
    [discriminate|].
  cbn [violations file_path] in *. unfold analyze in *.
  destruct (ainvoke (analysis_prompt rag_context)) as [e|response] eqn:Hllm.
  - simpl in Hiter. injection Hiter as <-. exfalso. apply Hne, fallback_no_fix.
  - destruct (has_len (_parse_llm_response response)) eqn:Hlen; simpl in *.
    + destruct (parse_llm_response_cases response) as [Hr | [Hr | Hr]].
      * rewrite Hr in Htruthy. discriminate.
      * rewrite Hr in Hiter. injection Hiter as <-.
        exfalso. apply Hne, manual_extract_no_fix.
      * destruct Hr as (i & j & d & Hi & Hj & _ & Hloads & Hv).
        exists code_analysis, rag_context, response, i, j, d.
        repeat split; assumption.
    + injection Hiter as <-. exfalso. apply Hne, fallback_no_fix.
Qed.

End DiffFileFacts.

(** ** Line ends after a hunk *)

Section LineEnds.

Import GitManager.

Lemma line_feeds_app (s t : string) :
  line_feeds (s ++ t) = (line_feeds s + line_feeds t)%nat.
Proof.
  induction s as [|a s IH]; [reflexivity|].
  rewrite app_cons_string. cbn [line_feeds]. rewrite IH. lia.
Qed.

Lemma line_feeds_none (s : string) :
  PyStr.find_char PyStr.LF s = None -> line_feeds s = 0%nat.
Proof.
  induction s as [|a s IH]; [reflexivity|]. intros H.
  apply find_char_cons_inv in H. destruct H as [Ha Hs].
  cbn [line_feeds]. rewrite Ha, IH by exact Hs. reflexivity.
Qed.

Lemma line_feeds_join_app (l1 l2 : list string) :
  line_feeds (PyStr.join "" (l1 ++ l2))
  = (line_feeds (PyStr.join "" l1) + line_feeds (PyStr.join "" l2))%nat.
Proof.
  induction l1 as [|x l1 IH]; [reflexivity|].
  cbn [app]. rewrite !join_empty_cons, !line_feeds_app, IH. lia.
Qed.

Lemma line_feeds_join_none (l : list string) :
  Forall (fun line => PyStr.find_char PyStr.LF line = None) l ->
  line_feeds (PyStr.join "" l) = 0%nat.
Proof.
  induction 1 as [|x l Hx _ IH]; [reflexivity|].
  rewrite join_empty_cons, line_feeds_app, IH, line_feeds_none by exact Hx. reflexivity.
Qed.

Lemma with_prefix_no_linefeed (p : string) (hunk_lines : list string) :
  Forall (fun line => PyStr.find_char PyStr.LF line = None) hunk_lines ->
  Forall (fun line => PyStr.find_char PyStr.LF line = None) (with_prefix p hunk_lines).
Proof.
  induction 1 as [|x l Hx _ IH]; [constructor|].
  unfold with_prefix. cbn [omap list_omap].
  destruct (PyStr.startswith p x); [|exact IH].
  constructor; [|exact IH].
  destruct x as [|a x]; [reflexivity|]. cbn [PyStr.drop].
  apply find_char_cons_inv in Hx. apply Hx.
Qed.

Lemma replace_lines_line_feeds (lines additions deletions : list string) :
  Forall (fun line => PyStr.find_char PyStr.LF line = None) additions ->
  line_feeds (PyStr.join "" (replace_lines lines additions deletions))
  = line_feeds (PyStr.join ""
                  (filter (fun line => matches_deletion line deletions = false) lines)).
Proof.
  revert additions. induction lines as [|line rest IH]; intros additions Hadd;
    [reflexivity|].
  cbn [replace_lines]. rewrite filter_cons.
  destruct (matches_deletion line deletions) eqn:Hm.
  - rewrite decide_False by discriminate.
    rewrite line_feeds_join_app, line_feeds_join_none by exact Hadd.
    apply IH. constructor.
  - rewrite decide_True by reflexivity.
    rewrite !join_empty_cons, !line_feeds_app, IH by exact Hadd. reflexivity.
Qed.

Lemma dict_set_without_linefeed (key : string) (hunks : list Hunk)
    (d : list (string * list Hunk)) :
  hunks_without_linefeed hunks ->
  Forall (fun item => hunks_without_linefeed item.2) d ->
  Forall (fun item => hunks_without_linefeed item.2) (dict_set key hunks d).
Proof.
  intros Hh. induction 1 as [|[k v] d Hv Hd IH]; cbn [dict_set].
  - constructor; [exact Hh|constructor].
  - destruct (String.eqb k key); constructor; assumption.
Qed.

Lemma append_to_last_without_linefeed (line : string) (hunks : list Hunk) :
  PyStr.find_char PyStr.LF line = None ->
  hunks_without_linefeed hunks ->
  hunks_without_linefeed (append_to_last line hunks).
Proof.
  intros Hline. induction 1 as [|h hunks Hh Hrest IH]; [constructor|].
  cbn [append_to_last]. destruct hunks as [|h' hunks].
  - constructor; [|constructor]. cbn [hunk_lines].
    apply Forall_app_2; [exact Hh|]. constructor; [exact Hline|constructor].
  - constructor; [exact Hh|exact IH].
Qed.

Lemma save_changes_without_linefeed (reset : bool) (st : parse_state) :
  Forall (fun item => hunks_without_linefeed item.2) (changes st) ->
  hunks_without_linefeed (current_changes st) ->
  Forall (fun item => hunks_without_linefeed item.2) (changes (save_changes reset st))
  /\ hunks_without_linefeed (current_changes (save_changes reset st)).
Proof.
  intros Hc Hcc. unfold save_changes.
  destruct (file_and_changes st) as [f|]; [|split; assumption].
  cbn [changes current_changes]. split.
  - apply dict_set_without_linefeed; assumption.
  - destruct reset; [constructor|exact Hcc].
Qed.

Lemma parse_line_without_linefeed (st : parse_state) (line : string) :
  PyStr.find_char PyStr.LF line = None ->
  Forall (fun item => hunks_without_linefeed item.2) (changes st) ->
  hunks_without_linefeed (current_changes st) ->
  Forall (fun item => hunks_without_linefeed item.2) (changes (parse_line st line))
  /\ hunks_without_linefeed (current_changes (parse_line st line)).
Proof.
  intros Hline Hc Hcc. unfold parse_line.
  destruct (PyStr.startswith "--- " line).
  { cbn [changes current_changes]. apply save_changes_without_linefeed; assumption. }
  destruct (PyStr.startswith "+++ " line).
  { destruct (PyStr.startswith "b/" _); split; assumption. }
  destruct (PyStr.startswith "@@" line).
  { destruct (PyStr.split_ws _) as [|p0 [|p1 rest]]; try (split; assumption).
    cbn [changes current_changes]. split; [exact Hc|].
    apply Forall_app_2; [exact Hcc|]. constructor; [constructor|constructor]. }
  destruct (current_changes st) as [|h hs] eqn:Hcur;
    [split; [exact Hc|rewrite Hcur; exact Hcc]|].
  destruct (PyStr.startswith "+" line || PyStr.startswith "-" line
            || PyStr.startswith " " line).
  - cbn [changes current_changes]. split; [exact Hc|].
    apply append_to_last_without_linefeed; assumption.
  - split; [exact Hc|rewrite Hcur; exact Hcc].
Qed.

Lemma parsed_hunks_without_linefeed (diff_content : string) :
  Forall (fun item => hunks_without_linefeed item.2) (_parse_diff_content diff_content).
Proof.
  unfold _parse_diff_content.
  pose proof (split_char_parts_no_sep PyStr.LF diff_content) as Hlines.
  assert (Hfold : forall lines st,
             Forall (fun line => PyStr.find_char PyStr.LF line = None) lines ->
             Forall (fun item => hunks_without_linefeed item.2) (changes st) ->
             hunks_without_linefeed (current_changes st) ->
             Forall (fun item => hunks_without_linefeed item.2)
                    (changes (fold_left parse_line lines st))
             /\ hunks_without_linefeed (current_changes (fold_left parse_line lines st))).
  { induction lines as [|line lines IH]; intros st Hl Hc Hcc; [split; assumption|].
    inversion Hl as [|? ? Hline Hrest]; subst. cbn [fold_left].
    destruct (parse_line_without_linefeed st line Hline Hc Hcc) as [Hc' Hcc'].
    apply IH; assumption. }
  destruct (Hfold (PyStr.split_char PyStr.LF diff_content)
              {| changes := []; current_file := None; current_changes := [] |}
              Hlines ltac:(constructor) ltac:(constructor)) as [Hc Hcc].
  apply save_changes_without_linefeed; assumption.
Qed.

(** X30: no hunk that [_parse_diff_content] returns holds a line feed in
    its lines, and the additions of such a hunk bring no line end into the
    file: the lines that [_apply_hunk] returns hold exactly the line feeds of
    the lines that it keeps, so the additions stand on one line with the line
    after them. *)
Theorem hunk_additions_bring_no_line_end (diff_content : string) :
  Forall (fun item => hunks_without_linefeed item.2) (_parse_diff_content diff_content)
  /\ forall (lines : list string) (hunk : Hunk),
       Forall (fun line => PyStr.find_char PyStr.LF line = None) (hunk_lines hunk) ->
       line_feeds (PyStr.join "" (_apply_hunk lines hunk))
       = line_feeds
           (PyStr.join ""
              (filter (fun line =>
                         matches_deletion line (with_prefix "-" (hunk_lines hunk)) = false)
                      lines)).
Proof.
  split; [apply parsed_hunks_without_linefeed|].
  intros lines hunk Hlines. unfold _apply_hunk.
  apply replace_lines_line_feeds, with_prefix_no_linefeed, Hlines.
Qed.

End LineEnds.

(** ** Concrete runs

    The properties above at concrete inputs, with the reference
    implementations of the libraries. *)

Import Regex Json Matcher.

(** The violation [{"line_number": 0, "suggested_fix": "pass"}] on a file of
    two lines. *)
Lemma C9_out_of_range_violation_dropped_witness :
  let d : gmap string pyval :=
    <["line_number" := PInt 0]> (<["suggested_fix" := PStr "pass"]> ∅) in
  DiffGenerator.create_fix_body (PDict d)
    (PyStr.split_char PyStr.LF ("a" ++ PyStr.nl ++ "b")) "t.py" = Ok None
  /\ DiffGenerator._create_fix_from_violation (PDict d)
       (PyStr.split_char PyStr.LF ("a" ++ PyStr.nl ++ "b")) "t.py" = None
  /\ DiffGenerator._parse_violations_to_fixes "t.py" ([] ++ PDict d :: [])
       ("a" ++ PyStr.nl ++ "b")
     = DiffGenerator._parse_violations_to_fixes "t.py" ([] ++ [])
         ("a" ++ PyStr.nl ++ "b").
Proof.
  apply (C9_out_of_range_violation_dropped).
  right. exists 0%Z. split; [reflexivity|left; lia].
Defined.


(** C4, as stated, fails: two violations on line 1 of a two-line file.  Both
    fixes are kept, in the order X, Y; after application line 1 holds Y, the
    last of them, and not X, the first same-line fix of the sorted list. *)
Lemma C4_first_same_line_fix_does_not_survive :
  let content := "a" ++ PyStr.nl ++ "b" in
  let fixes := DiffGenerator._parse_violations_to_fixes "t.py"
                 [suggested 1 "X"; suggested 1 "Y"] content in
  map DiffGenerator.fixed_code fixes = ["X"; "Y"]
  /\ DiffGenerator.apply_fixes_lines (PyStr.split_char PyStr.LF content) fixes !! 0%nat
     = Some "Y"
  /\ DiffGenerator._apply_fixes content fixes = "Y" ++ PyStr.nl ++ "b".
Proof. vm_compute. repeat split; reflexivity. Qed.

(** The same run through the theorem: the last fix of line 1 survives. *)
Lemma C4_same_line_last_fix_survives_witness :
  let content := "a" ++ PyStr.nl ++ "b" in
  let fixes := DiffGenerator._parse_violations_to_fixes "t.py"
                 [suggested 1 "X"; suggested 1 "Y"] content in
  last (filter (fun f => DiffGenerator.line_number f = 1%Z) fixes)
  = Some (suggested_fix_of 1 "a" "Y")
  /\ DiffGenerator.apply_fixes_lines (PyStr.split_char PyStr.LF content) fixes !! 0%nat
     = Some (PyStr.rstrip "Y").
Proof.
  split; [vm_compute; reflexivity|].
  apply (proj2 (C4_same_line_last_fix_survives "t.py"
                  [suggested 1 "X"; suggested 1 "Y"] ("a" ++ PyStr.nl ++ "b") 0)
               (suggested_fix_of 1 "a" "Y")).
  vm_compute. reflexivity.
Defined.

(** C5, as stated, fails: the [fixed_code] of the default branch is the
    original line with a line feed appended, not the original line, and the
    fix is in the output of the synthesizer. *)
Lemma C5_default_fix_is_not_a_filtered_no_op :
  map (fun f => (DiffGenerator.original_code f, DiffGenerator.fixed_code f))
      (DiffGenerator._parse_violations_to_fixes "t.py" [PDict undocumented]
         ("x = 1" ++ PyStr.nl ++ "y = 2"))
  = [("x = 1", "x = 1" ++ PyStr.nl)].
Proof. vm_compute. reflexivity. Qed.

Lemma C5_default_auto_fix_is_kept_witness :
  DiffGenerator._generate_auto_fix "x = 1" (PyStr.strip "x = 1") (PStr "Missing docstring")
    = PyStr.rstrip "x = 1" ++ PyStr.nl
  /\ DiffGenerator._parse_violations_to_fixes "t.py" [PDict undocumented]
       ("x = 1" ++ PyStr.nl ++ "y = 2")
     = [{| DiffGenerator.file_path := "t.py"; DiffGenerator.line_number := 1;
           DiffGenerator.column_number := PNone;
           DiffGenerator.original_code := "x = 1";
           DiffGenerator.fixed_code := PyStr.rstrip "x = 1" ++ PyStr.nl;
           DiffGenerator.violation_description := PStr "Missing docstring";
           DiffGenerator.rule_id := PStr "unknown";
           DiffGenerator.confidence_score := PFloat 0%float |}]
  /\ DiffGenerator._apply_fixes ("x = 1" ++ PyStr.nl ++ "y = 2")
       [{| DiffGenerator.file_path := "t.py"; DiffGenerator.line_number := 1;
           DiffGenerator.column_number := PNone;
           DiffGenerator.original_code := "x = 1";
           DiffGenerator.fixed_code := PyStr.rstrip "x = 1" ++ PyStr.nl;
           DiffGenerator.violation_description := PStr "Missing docstring";
           DiffGenerator.rule_id := PStr "unknown";
           DiffGenerator.confidence_score := PFloat 0%float |}]
     = "x = 1" ++ PyStr.nl ++ "y = 2".
Proof.
  destruct (C5_default_auto_fix_is_kept undocumented "t.py"
              ("x = 1" ++ PyStr.nl ++ "y = 2") 1 "x = 1" "" "x = 1" "Missing docstring")
    as (_ & Hkept);
    try reflexivity; try lia.
  - repeat split; reflexivity.
  - destruct Hkept as (Hauto & _ & Hfixes & _ & _ & Hsame); [discriminate|].
    split; [exact Hauto|]. split; [exact Hfixes|]. apply Hsame. reflexivity.
Defined.

(** C10, as stated, fails: a replacement of two lines makes the edited text
    one line longer, and trailing blanks of a replacement are removed with its
    line terminators. *)
Lemma C10_replacement_can_add_a_line :
  let content := "a" ++ PyStr.nl ++ "b" in
  let fixes := DiffGenerator._parse_violations_to_fixes "t.py"
                 [suggested 1 ("x = 1" ++ PyStr.nl ++ "y = 2")] content in
  length (PyStr.split_char PyStr.LF content) = 2%nat
  /\ length (PyStr.split_char PyStr.LF (DiffGenerator._apply_fixes content fixes)) = 3%nat
  /\ DiffGenerator._apply_fixes "a" [suggested_fix_of 1 "a" "b   "] = "b".
Proof. vm_compute. repeat split; reflexivity. Qed.

(** The theorem on a run that replaces line 2 of three. *)
Lemma C10_apply_fixes_overwrites_in_place_witness :
  let content := "a" ++ PyStr.nl ++ "b" ++ PyStr.nl ++ "c" in
  let fixes := DiffGenerator._parse_violations_to_fixes "t.py" [suggested 2 "B  "] content in
  DiffGenerator.apply_fixes_lines (PyStr.split_char PyStr.LF content) fixes !! 0%nat
    = PyStr.split_char PyStr.LF content !! 0%nat
  /\ PyStr.split_char PyStr.LF (DiffGenerator._apply_fixes content fixes)
     = DiffGenerator.apply_fixes_lines (PyStr.split_char PyStr.LF content) fixes
  /\ length (PyStr.split_char PyStr.LF (DiffGenerator._apply_fixes content fixes))
     = length (PyStr.split_char PyStr.LF content).
Proof.
  destruct (C10_apply_fixes_overwrites_in_place
              ("a" ++ PyStr.nl ++ "b" ++ PyStr.nl ++ "c")
              (DiffGenerator._parse_violations_to_fixes "t.py" [suggested 2 "B  "]
                 ("a" ++ PyStr.nl ++ "b" ++ PyStr.nl ++ "c")))
    as (_ & Hother & _ & Htext).
  split.
  - apply Hother. vm_compute. repeat constructor; discriminate.
  - apply Htext. vm_compute. repeat constructor.
Defined.

(** *** The orchestrator *)

(** C1, as stated, fails for the status [failed]: the session of one file
    ends [failed] with both counters at zero. *)
Lemma C1_failed_session_counters_below_total :
  let final :=
    (MasterOrchestrator._process_files store_unreachable
       (MasterOrchestrator._create_session "s1" "run" "folder" "src" 1) ["a.py"]).1 in
  MasterOrchestrator.status final = "failed"
  /\ MasterOrchestrator.processed_files final = 0%nat
  /\ MasterOrchestrator.failed_files final = 0%nat
  /\ MasterOrchestrator.total_files final = 1%nat.
Proof. vm_compute. repeat split; reflexivity. Qed.

Lemma C1_session_counters_witness :
  let final :=
    (MasterOrchestrator._process_files mixed_run
       (MasterOrchestrator._create_session "s2" "run" "folder" "src" 3)
       ["a.py"; "b.py"; "c.py"]).1 in
  MasterOrchestrator.total_files final = 3%nat
  /\ MasterOrchestrator.status final = "completed"
  /\ (MasterOrchestrator.processed_files final
      + MasterOrchestrator.failed_files final)%nat
     = MasterOrchestrator.total_files final.
Proof.
  destruct (C1_session_counters mixed_run
              (MasterOrchestrator._create_session "s2" "run" "folder" "src" 3)
              ["a.py"; "b.py"; "c.py"])
    as (_ & Htotal & _ & Hcompleted & _);
    try reflexivity.
  split; [exact Htotal|].
  split; [vm_compute; reflexivity|].
  apply Hcompleted. vm_compute. reflexivity.
Defined.

(** *** The patch engine *)

(** C3, as stated, fails: the hunk that deletes [a] is applied to a file in
    which [a] is not unique, and a hunk whose deletion matches no line is
    applied too; [_apply_file_changes] returns success both times.  The first
    removes both occurrences, the second changes nothing. *)
Lemma C3_manual_apply_succeeds_on_ambiguous_hunk :
  let ambiguous := {| GitManager.old_range := "1"; GitManager.new_range := "1";
                      GitManager.hunk_lines := ["-a"; "+X"] |} in
  let unmatched := {| GitManager.old_range := "1"; GitManager.new_range := "1";
                      GitManager.hunk_lines := ["-zzz"; "+X"] |} in
  (GitManager._apply_file_changes (access := full_access) tree_with_repeated_line "f.py" [ambiguous]).1 = true
  /\ (GitManager._apply_file_changes (access := full_access) tree_with_repeated_line "f.py" [ambiguous]).2 !! "f.py"
     = Some ("Xb" ++ PyStr.nl)
  /\ (GitManager._apply_file_changes (access := full_access) tree_with_repeated_line "f.py" [unmatched]).1 = true
  /\ (GitManager._apply_file_changes (access := full_access) tree_with_repeated_line "f.py" [unmatched]).2 !! "f.py"
     = tree_with_repeated_line !! "f.py".
Proof. vm_compute. repeat split; reflexivity. Qed.

Lemma C3_manual_apply_succeeds_when_file_exists_witness :
  let unmatched := {| GitManager.old_range := "1"; GitManager.new_range := "1";
                      GitManager.hunk_lines := ["-zzz"; "+X"] |} in
  (GitManager._apply_file_changes (access := full_access) tree_with_repeated_line "f.py"
     [unmatched]).1 = true
  /\ (GitManager._apply_file_changes (access := read_only) tree_with_repeated_line "f.py"
        [unmatched]).1 <> true
  /\ GitManager._apply_hunk ["a" ++ PyStr.nl; "b" ++ PyStr.nl] unmatched
     = ["a" ++ PyStr.nl; "b" ++ PyStr.nl].
Proof.
  intros unmatched.
  destruct (C3_manual_apply_succeeds_when_file_exists (access := full_access)
              tree_with_repeated_line "f.py" [unmatched])
    as [Hfile Hhunk].
  destruct (C3_manual_apply_succeeds_when_file_exists (access := read_only)
              tree_with_repeated_line "f.py" [unmatched])
    as [Hlocked _].
  split; [|split].
  - apply Hfile. split; [eexists; vm_compute; reflexivity|split; reflexivity].
  - intros Htrue. apply Hlocked in Htrue. destruct Htrue as (_ & _ & Hwrite).
    discriminate Hwrite.
  - apply Hhunk. repeat constructor.
Defined.

(** C2 fails on the code: the rendered diff has its two file headers and its
    hunk header on one line with the first line of the hunk, because
    [lineterm] is empty while the lines keep their ends; the parser finds no
    hunk header in it and returns no change at all, so neither the deleted
    line [line 2] nor the added line comes back. *)
Theorem C2_rendered_diff_parses_to_nothing :
  DiffGenerator._generate_unified_diff "test.py" original_text modified_text
  = "--- a/test.py+++ b/test.py@@ -1,3 +1,3 @@ line 1" ++ PyStr.nl
    ++ "-line 2" ++ PyStr.nl ++ "+modified line 2" ++ PyStr.nl ++ " line 3"
  /\ GitManager._parse_diff_content
       (DiffGenerator._generate_unified_diff "test.py" original_text modified_text)
     = []
  /\ GitManager._parse_diff_content
       ("--- a/test.py" ++ PyStr.nl ++ "+++ b/test.py" ++ PyStr.nl
        ++ "@@ -1,3 +1,3 @@" ++ PyStr.nl ++ " line 1" ++ PyStr.nl
        ++ "-line 2" ++ PyStr.nl ++ "+modified line 2" ++ PyStr.nl ++ " line 3")
     = [("test.py",
         [{| GitManager.old_range := "1,3"; GitManager.new_range := "1,3";
             GitManager.hunk_lines :=
               [" line 1"; "-line 2"; "+modified line 2"; " line 3"] |}])].
Proof. vm_compute. repeat split; reflexivity. Qed.

(** *** The worker *)

(** C6 fails on the code: a response with one bullet line and a pair of
    braces that is not JSON.  The manual extraction would yield the record of
    the bullet line, but decoding raises inside the [try] and the response
    parses to the empty list. *)
Theorem C6_bullet_lost_when_json_decoding_fails :
  WorkerAgent._parse_llm_response "- Unused import {os}" = PList []
  /\ WorkerAgent.manual_extract "- Unused import {os}"
     = [PDict (WorkerAgent.manual_violation "- Unused import {os}")]
  /\ WorkerAgent._parse_llm_response "- Unused import os"
     = PList [PDict (WorkerAgent.manual_violation "- Unused import os")]
  /\ WorkerAgent._parse_llm_response "No issues found." = PList [].
Proof.
  split; [|split; [|split]].
  - apply (parse_llm_response_decode_error "- Unused import {os}" 16 19);
      vm_compute; try reflexivity. lia.
  - rewrite manual_extract_bullets. vm_compute. reflexivity.
  - rewrite parse_llm_response_without_json by (vm_compute; reflexivity).
    rewrite manual_extract_bullets. vm_compute. reflexivity.
  - rewrite parse_llm_response_without_json by (vm_compute; reflexivity).
    rewrite manual_extract_bullets. vm_compute. reflexivity.
Qed.

Lemma C7_invocation_failure_falls_back_to_rules_witness :
  WorkerAgent.success
    (WorkerAgent.process_file (collaborators := model_down) "worker_01" "a.py") = true
  /\ WorkerAgent.violations
       (WorkerAgent.process_file (collaborators := model_down) "worker_01" "a.py")
     = PList [WorkerAgent.fallback_violation rule_naming;
              WorkerAgent.fallback_violation rule_spacing].
Proof.
  destruct (C7_invocation_failure_falls_back_to_rules (collaborators := model_down)
              "worker_01" "a.py" "a.py"
              {| WorkerAgent.relevant_rules := [rule_naming; rule_spacing];
                 WorkerAgent.analysis_prompt := "Analyse the file" |}
              "timeout" eq_refl eq_refl eq_refl)
    as (Hsuccess & _ & Hviolations & _).
  split; [exact Hsuccess|exact Hviolations].
Defined.

(** *** Further runs: the fix synthesizer *)

Lemma synthesized_fix_invariant_witness :
  let lines := PyStr.split_char PyStr.LF ("a" ++ PyStr.nl ++ "b") in
  (1 <= 2 <= Z.of_nat (length lines))%Z
  /\ lines !! Z.to_nat (2 - 1) = Some "b"
  /\ DiffGenerator.fixed_code (suggested_fix_of 2 "b" "B") <> "".
Proof.
  destruct (synthesized_fix_invariant "t.py" [suggested 2 "B"] ("a" ++ PyStr.nl ++ "b")
              (suggested_fix_of 2 "b" "B"))
    as (Hrange & Horiginal & _ & Hfixed & _).
  - vm_compute. apply list_elem_of_here.
  - split; [exact Hrange|]. split; [exact Horiginal|exact Hfixed].
Defined.

(** A fix for line 5 of a file of two lines *)
Lemma apply_fixes_out_of_range_is_identity_witness :
  DiffGenerator._apply_fixes ("a" ++ PyStr.nl ++ "b") [suggested_fix_of 5 "" "X"]
  = "a" ++ PyStr.nl ++ "b".
Proof.
  apply apply_fixes_out_of_range_is_identity.
  constructor; [right; vm_compute; reflexivity|constructor].
Defined.

Lemma apply_fixes_idempotent_witness :
  DiffGenerator._apply_fixes
    (DiffGenerator._apply_fixes ("a" ++ PyStr.nl ++ "b") [suggested_fix_of 1 "a" "X"])
    [suggested_fix_of 1 "a" "X"]
  = DiffGenerator._apply_fixes ("a" ++ PyStr.nl ++ "b") [suggested_fix_of 1 "a" "X"].
Proof.
  apply apply_fixes_idempotent. constructor; [reflexivity|constructor].
Defined.

(** *** Further runs: the patch engine *)

Lemma apply_file_changes_without_match_witness :
  GitManager._apply_file_changes (access := full_access) tree_with_repeated_line "f.py"
    [{| GitManager.old_range := "1"; GitManager.new_range := "1";
        GitManager.hunk_lines := ["-zzz"; "+X"] |}]
  = (true, tree_with_repeated_line).
Proof.
  apply (apply_file_changes_without_match (access := full_access)
           tree_with_repeated_line "f.py"
           ("a" ++ PyStr.nl ++ "b" ++ PyStr.nl ++ "a" ++ PyStr.nl)).
  - reflexivity.
  - reflexivity.
  - reflexivity.
  - reflexivity.
  - vm_compute. repeat constructor.
Defined.

(** A diff of two files, the second of which is not in the tree: the first
    file stays rewritten. *)
Lemma manual_apply_keeps_changes_before_failure_witness :
  let replace_a := {| GitManager.old_range := "1"; GitManager.new_range := "1";
                      GitManager.hunk_lines := ["-a"; "+X"] |} in
  GitManager.apply_all (access := full_access) tree_with_repeated_line
    ([("f.py", [replace_a])] ++ ("g.py", [replace_a]) :: [])
  = (false, (GitManager.apply_all (access := full_access) tree_with_repeated_line [("f.py", [replace_a])]).2)
  /\ (GitManager.apply_all (access := full_access) tree_with_repeated_line [("f.py", [replace_a])]).2 !! "f.py"
     = Some ("Xb" ++ PyStr.nl).
Proof.
  split; [|vm_compute; reflexivity].
  apply (manual_apply_keeps_changes_before_failure (access := full_access)).
  - constructor; [|constructor]. eexists. vm_compute. reflexivity.
  - vm_compute. reflexivity.
Defined.

(** The diff of [test_generate_unified_diff], every line on a line of its
    own *)
Lemma one_hunk_diff_is_parsed_witness :
  GitManager._parse_diff_content
    (one_hunk_diff "test.py" "1,3" "1,3"
       [" line 1"; "-line 2"; "+modified line 2"; " line 3"])
  = [("test.py",
      [{| GitManager.old_range := "1,3"; GitManager.new_range := "1,3";
          GitManager.hunk_lines :=
            [" line 1"; "-line 2"; "+modified line 2"; " line 3"] |}])].
Proof.
  apply (one_hunk_diff_is_parsed (access := full_access) ∅ "test.py" "1,3" "1,3"
           [" line 1"; "-line 2"; "+modified line 2"; " line 3"]).
  - discriminate.
  - reflexivity.
  - reflexivity.
  - reflexivity.
  - reflexivity.
  - repeat constructor.
Defined.

(** The rendered diff of [test_generate_unified_diff] in a diff file that
    [git apply] rejects *)
Lemma rejected_single_hunk_diff_is_reported_applied_witness :
  let diff := DiffGenerator._generate_unified_diff "test.py" original_text modified_text in
  GitManager.apply_diff_file (access := full_access) true (fun _ _ => None) (<["out/test.diff" := diff]> ∅)
    (<["test.py" := original_text]> ∅) "out/test.diff"
  = (true, <["test.py" := original_text]> ∅).
Proof.
  eapply (proj2 (rejected_single_hunk_diff_is_reported_applied
                   (access := full_access) (fun _ _ => None)
                   (<["out/test.diff" :=
                        DiffGenerator._generate_unified_diff "test.py" original_text
                          modified_text]> ∅)
                   (<["test.py" := original_text]> ∅) "out/test.diff" "test.py"
                   original_text modified_text _ eq_refl _ _ eq_refl)).
  Unshelve.
  - exact [Difflib.Op Difflib.Equal 0 1 0 1; Difflib.Op Difflib.Replace 1 2 1 2;
           Difflib.Op Difflib.Equal 2 3 2 3].
  - vm_compute. reflexivity.
  - apply lookup_insert_eq.
Defined.

(** *** Further runs: the worker *)

Lemma response_without_brace_witness :
  WorkerAgent._parse_llm_response
    ("- Unused import" ++ PyStr.nl ++ "Looks fine otherwise." ++ PyStr.nl ++ "  * Long line")
  = PList [PDict (WorkerAgent.manual_violation "- Unused import");
           PDict (WorkerAgent.manual_violation "* Long line")].
Proof.
  rewrite response_without_brace_gives_one_violation_per_bullet
    by (vm_compute; reflexivity).
  vm_compute. reflexivity.
Defined.

Lemma decoded_object_decides_the_violations_witness :
  WorkerAgent._parse_llm_response answer = PList [suggested 1 "x = 1"].
Proof.
  rewrite (decoded_object_decides_the_violations answer 22 83
             (<["violations" := PList [suggested 1 "x = 1"]]> ∅));
    try (vm_compute; reflexivity).
  lia.
Defined.

(** *** Further runs: the orchestrator *)

(** The run of three files: [a.py] is analysed, [b.py] fails in the worker,
    the task of [c.py] raises. *)
Lemma completed_session_counts_the_outcomes_witness :
  let final :=
    (MasterOrchestrator._process_files mixed_run
       (MasterOrchestrator._create_session "s2" "run" "folder" "src" 3)
       ["a.py"; "b.py"; "c.py"]).1 in
  MasterOrchestrator.status final = "completed"
  /\ MasterOrchestrator.processed_files final = 1%nat
  /\ MasterOrchestrator.failed_files final = 2%nat
  /\ MasterOrchestrator.worker_results final
     = [result_for "a.py" true; result_for "b.py" false].
Proof.
  destruct (MasterOrchestrator._process_files mixed_run
              (MasterOrchestrator._create_session "s2" "run" "folder" "src" 3)
              ["a.py"; "b.py"; "c.py"]) as [final [|]] eqn:Hrun;
    [exfalso; vm_compute in Hrun; discriminate|].
  destruct (completed_session_counts_the_outcomes mixed_run
              (MasterOrchestrator._create_session "s2" "run" "folder" "src" 3) final
              ["a.py"; "b.py"; "c.py"] [["a.py"; "b.py"]; ["c.py"]] eq_refl Hrun)
    as (Hstatus & Hprocessed & Hfailed & Hresults).
  cbv zeta. simpl fst.
  split; [exact Hstatus|]. split; [exact Hprocessed|].
  split; [exact Hfailed|exact Hresults].
Defined.

Lemma batches_partition_the_files_witness :
  concat [["a.py"; "b.py"]; ["c.py"]] = ["a.py"; "b.py"; "c.py"]
  /\ Forall (fun batch => (0 < length batch <= 2)%nat) [["a.py"; "b.py"]; ["c.py"]].
Proof.
  destruct (batches_partition_the_files mixed_run ["a.py"; "b.py"; "c.py"]
              [["a.py"; "b.py"]; ["c.py"]] eq_refl eq_refl)
    as (Hconcat & Hsizes & _).
  split; [exact Hconcat|exact Hsizes].
Defined.

(** Three files on two workers *)
Lemma batch_tasks_go_round_robin_witness :
  MasterOrchestrator.batch_workers 2 ["a.py"; "b.py"; "c.py"] = [0; 1; 0]%nat
  /\ NoDup (MasterOrchestrator.batch_workers 2 ["a.py"; "b.py"]).
Proof.
  split; [reflexivity|].
  apply (batch_tasks_go_round_robin mixed_run 2
           (MasterOrchestrator._create_session "s2" "run" "folder" "src" 2, [])
           ["a.py"; "b.py"]).
  - lia.
  - simpl. lia.
Defined.

Lemma batch_size_that_is_not_positive_witness :
  let session := MasterOrchestrator._create_session "s3" "run" "folder" "src" 1 in
  MasterOrchestrator._process_files negative_batches session ["a.py"]
  = (MasterOrchestrator.set_status
       (MasterOrchestrator.set_worker_results session []) "completed", false).
Proof.
  apply (batch_size_that_is_not_positive negative_batches
           (MasterOrchestrator._create_session "s3" "run" "folder" "src" 1) ["a.py"]
           eq_refl eq_refl).
  reflexivity.
Defined.

Lemma analyze_folder_accounts_for_every_file_witness :
  exists session : MasterOrchestrator.AnalysisSession,
    MasterOrchestrator.analyze_folder mixed_run true ["a.py"; "b.py"; "c.py"] true
      "s4" "folder_analysis" "src" None = (Ok session, Some session)
    /\ MasterOrchestrator.total_files session = 3%nat
    /\ (MasterOrchestrator.processed_files session
        + MasterOrchestrator.failed_files session)%nat = 3%nat.
Proof.
  destruct (MasterOrchestrator.analyze_folder mixed_run true ["a.py"; "b.py"; "c.py"] true
              "s4" "folder_analysis" "src" None) as [[session|] after] eqn:Hrun;
    [|exfalso; vm_compute in Hrun; discriminate].
  destruct (analyze_folder_accounts_for_every_file mixed_run true ["a.py"; "b.py"; "c.py"]
              true "s4" "folder_analysis" "src" None after session eq_refl Hrun)
    as (-> & _ & _ & Htotal & _ & Hsum).
  exists session. split; [reflexivity|]. split; [exact Htotal|].
  rewrite Hsum. exact Htotal.
Defined.


(** A cancelled task among the results of a batch: the loop over the results
    raises at it, the session is [failed], and the counters hold what the
    results before it have made them. *)
Lemma cancelled_task_fails_the_session :
  let run := MasterOrchestrator._process_files cancelled_run
               (MasterOrchestrator._create_session "s5" "run" "folder" "src" 3)
               ["a.py"; "b.py"; "c.py"] in
  run.2 = true
  /\ MasterOrchestrator.status run.1 = "failed"
  /\ MasterOrchestrator.processed_files run.1 = 1%nat
  /\ MasterOrchestrator.failed_files run.1 = 0%nat.
Proof. vm_compute. repeat split; reflexivity. Qed.

Lemma every_file_gets_its_result_witness :
  map WorkerAgent.file_path
      (MasterOrchestrator.worker_results
         (MasterOrchestrator._process_files worker_run
            (MasterOrchestrator._create_session "s5" "run" "folder" "src" 3)
            ["a.py"; "b.py"; "c.py"]).1)
  = ["a.py"; "b.py"; "c.py"].
Proof.
  destruct (MasterOrchestrator._process_files worker_run
              (MasterOrchestrator._create_session "s5" "run" "folder" "src" 3)
              ["a.py"; "b.py"; "c.py"]) as [final [|]] eqn:Hrun;
    [exfalso; vm_compute in Hrun; discriminate|].
  apply (every_file_gets_its_result (collaborators := model_down) worker_run
           MasterOrchestrator.worker_name
           (MasterOrchestrator._create_session "s5" "run" "folder" "src" 3) final
           ["a.py"; "b.py"; "c.py"]).
  - intros i path. reflexivity.
  - reflexivity.
  - exact Hrun.
Defined.

(** *** Further runs: the diff files *)


Lemma diff_needs_a_decoded_violations_entry_witness :
  let run :=
    DiffFiles.generate_file_diff (host := plain_host) sources "20240101_120000"
      (WorkerAgent.process_file (collaborators := model_answers) "worker_01" "a.py")
      "out" in
  exists (diff_file : DiffFiles.DiffFile) (d : gmap string pyval),
    run = (Some diff_file, run.2)
    /\ json_loads (PyStr.slice 22 84 answer) = Ok (PDict d)
    /\ d !! "violations"
       = Some (WorkerAgent.violations
                 (WorkerAgent.process_file (collaborators := model_answers)
                    "worker_01" "a.py")).
Proof.
  intros run.
  set (diff_file := match run.1 with
                    | Some diff_file => diff_file
                    | None => {| DiffFiles.diff_file_path := "";
                                 DiffFiles.diff_content := "";
                                 DiffFiles.fixes_applied := [] |}
                    end).
  assert (Hrun : run = (Some diff_file, run.2)) by (vm_compute; reflexivity).
  destruct (diff_needs_a_decoded_violations_entry (collaborators := model_answers)
              _ _ _ _ _ _ _ Hrun)
    as (code_analysis & rag_context & response & json_start & last_brace & d
        & _ & Hcontext & Hanswer & Hstart & Hend & Hloads & Hentry).
  injection Hcontext as <-. injection Hanswer as <-.
  vm_compute in Hstart. injection Hstart as <-.
  vm_compute in Hend. injection Hend as <-.
  exists diff_file, d. split; [exact Hrun|]. split; [exact Hloads|exact Hentry].
Defined.

(** *** Further runs: line ends *)

(** A file of three lines in which [b] is replaced by [X]: two line feeds
    are left, and [X] stands on one line with [c]. *)
Lemma hunk_additions_bring_no_line_end_witness :
  let replace_a := {| GitManager.old_range := "1"; GitManager.new_range := "1";
                      GitManager.hunk_lines := ["-b"; "+X"] |} in
  let lines := ["a" ++ PyStr.nl; "b" ++ PyStr.nl; "c" ++ PyStr.nl] in
  line_feeds (PyStr.join "" (GitManager._apply_hunk lines replace_a)) = 2%nat
  /\ PyStr.join "" (GitManager._apply_hunk lines replace_a)
     = "a" ++ PyStr.nl ++ "Xc" ++ PyStr.nl.
Proof.
  split; [|vm_compute; reflexivity].
  rewrite (proj2 (hunk_additions_bring_no_line_end "")) by (repeat constructor).
  vm_compute. reflexivity.
Defined.
